(** * stactools-palsar: STAC Item derivation for ALOS PALSAR mosaics

    A shallow embedding of [src/stactools/palsar/stac.py]: the asset
    grouping of [create_item_from_href], the metadata derivation of
    [create_item], the filename pattern [FILENAME_PARTS] and the
    Collections of [create_collection], followed by the properties of the
    specification that concern them and by further properties of the
    code.

    Conventions.
    - A Python [str] is a [string]; its characters are the code points
      below 256, and the character classes below ([\w], the white space
      accepted by [int]) are Python's on that range.
    - A Python [float] is a primitive [float]; the derivation copies the
      numbers of the raster header and computes nothing with them.
    - A Python [dict] is an association list in insertion order
      ([list(assets_hrefs.values())[0]] depends on that order).
    - An exception is a value of [exn]; a function that may raise returns
      a [result], and [create_item], which mutates the Item it builds,
      an [outcome] that keeps the Item under construction.
    - [stactools.palsar.constants], [rasterio.open] and
      [dateutil.parser.isoparse] are parameters of the derivation.
    - The constructors and setters of [pystac] and the geometry helpers of
      [shapely] store what they are given and do not raise. *)

From Stdlib Require Import String Ascii List Bool ZArith Lia.
From Stdlib Require Import Floats.PrimFloat.
Import ListNotations.
Local Open Scope string_scope.
Local Open Scope list_scope.

Set Implicit Arguments.
#[local] Set Warnings "-register-all".

(** ** Python strings *)

Module Str.

Definition chr_eqb (a b : ascii) : bool := Ascii.eqb a b.

(** [s[i]] for [0 <= i]. *)
Fixpoint get (s : string) (i : nat) : option ascii :=
  match s, i with
  | EmptyString, _ => None
  | String c _, O => Some c
  | String _ r, S j => get r j
  end.

Fixpoint rev_onto (s acc : string) : string :=
  match s with
  | EmptyString => acc
  | String c r => rev_onto r (String c acc)
  end.

Definition rev (s : string) : string := rev_onto s EmptyString.

(** [s.startswith(p)] *)
Fixpoint startswith (s p : string) : bool :=
  match p, s with
  | EmptyString, _ => true
  | String _ _, EmptyString => false
  | String a p', String b s' => chr_eqb a b && startswith s' p'
  end.

(** [s.endswith(x)] *)
Definition endswith (s x : string) : bool := startswith (rev s) (rev x).

(** [c in s] for a one-character [c]. *)
Fixpoint mem (c : ascii) (s : string) : bool :=
  match s with
  | EmptyString => false
  | String a r => chr_eqb a c || mem c r
  end.

(** [s.split(sep)] for a one-character separator: never empty. *)
Fixpoint split (sep : ascii) (s : string) : list string :=
  match s with
  | EmptyString => [EmptyString]
  | String c r =>
      if chr_eqb c sep then EmptyString :: split sep r
      else match split sep r with
           | h :: t => String c h :: t
           | [] => [String c EmptyString]
           end
  end.

(** The cut at the last occurrence of [sep], when there is one. *)
Fixpoint rcut (sep : ascii) (s : string) : option (string * string) :=
  match s with
  | EmptyString => None
  | String c r =>
      match rcut sep r with
      | Some (p, q) => Some (String c p, q)
      | None => if chr_eqb c sep then Some (EmptyString, r) else None
      end
  end.

(** [s.rsplit(sep, 1)] *)
Definition rsplit1 (sep : ascii) (s : string) : list string :=
  match rcut sep s with
  | Some (p, q) => [p; q]
  | None => [s]
  end.

(** [sep.join(l)] *)
Fixpoint join (sep : string) (l : list string) : string :=
  match l with
  | [] => EmptyString
  | [x] => x
  | x :: r => x ++ sep ++ join sep r
  end.

Fixpoint all_chars (p : ascii -> bool) (s : string) : bool :=
  match s with
  | EmptyString => true
  | String c r => p c && all_chars p r
  end.

(** [s[:n]] *)
Fixpoint take (n : nat) (s : string) : string :=
  match n, s with
  | S m, String c r => String c (take m r)
  | _, _ => EmptyString
  end.

End Str.

Arguments Str.chr_eqb !a !b.

(** ** [os.path] (posixpath) *)

Module os_path.

(** [os.path.basename(p)]: what follows the last slash. *)
Definition basename (p : string) : string :=
  match Str.rcut "/" p with
  | Some (_, q) => q
  | None => p
  end.

Definition is_dot (c : ascii) : bool := Str.chr_eqb c ".".

(** [os.path.splitext(p)]: the extension starts at the last dot of the
    last component, unless only dots precede it there. *)
Definition splitext (p : string) : string * string :=
  match Str.rcut "." p with
  | None => (p, EmptyString)
  | Some (root, e) =>
      if Str.mem "/" e then (p, EmptyString)
      else if Str.all_chars is_dot (basename root) then (p, EmptyString)
      else (root, String "." e)
  end.

(** [os.path.join(a, b)] *)
Definition join (a b : string) : string :=
  if Str.startswith b "/" then b
  else if (String.length a =? 0)%nat || Str.endswith a "/" then a ++ b
  else a ++ "/" ++ b.

End os_path.

(** ** Exceptions and results *)

(** The exceptions the derivation can raise, one constructor per raising
    site or built-in failure. *)
Inductive exn : Type :=
| ValueError_unknown_type
    (* ValueError("Unknown type") *)
| ValueError_not_epsg4326 (asset_href : string)
    (* ValueError(f"Dataset {asset_href} is not EPSG:4326, ...") *)
| ValueError_pattern (filename asset_href : string)
    (* ValueError(f"Asset filename {filename} from href {asset_href}
       doesn't match the expected pattern.") *)
| ValueError_unpack (expected got : nat)
    (* ValueError: not enough values to unpack *)
| ValueError_int (literal : string)
    (* ValueError: invalid literal for int() with base 10, or the digit
       limit of the conversion exceeded *)
| IndexError_string
    (* IndexError: string index out of range *)
| IndexError_list
    (* IndexError: list index out of range *)
| KeyError (key : string)
| AttributeError (what : string)
| ExternalError (what : string).
    (* raised by a collaborator: rasterio, dateutil *)

(** The Python class of an exception. *)
Inductive exn_class : Type :=
| ValueError | IndexError | LookupKeyError | ClassAttributeError
| OtherError.

Definition class_of (e : exn) : exn_class :=
  match e with
  | ValueError_unknown_type | ValueError_not_epsg4326 _
  | ValueError_pattern _ _ | ValueError_unpack _ _
  | ValueError_int _ => ValueError
  | IndexError_string | IndexError_list => IndexError
  | KeyError _ => LookupKeyError
  | AttributeError _ => ClassAttributeError
  | ExternalError _ => OtherError
  end.

Inductive result (A : Type) : Type :=
| Ok (a : A)
| Err (e : exn).

Arguments Ok {A} a.
Arguments Err {A} e.

Definition rbind {A B : Type} (m : result A) (k : A -> result B) : result B :=
  match m with
  | Ok a => k a
  | Err e => Err e
  end.

Declare Scope result_scope.
Delimit Scope result_scope with result.
Notation "x <- m ;; k" := (rbind m (fun x => k))
  (at level 61, m at next level, right associativity) : result_scope.
Notation "' pat <- m ;; k" := (rbind m (fun x => match x with pat => k end))
  (at level 61, pat pattern, m at next level, right associativity) : result_scope.

(** [l[i]] on a list. *)
Definition list_index {A : Type} (l : list A) (i : nat) : result A :=
  match nth_error l i with
  | Some a => Ok a
  | None => Err IndexError_list
  end.

(** [s[i]] on a string: a one-character string. *)
Definition str_index (s : string) (i : nat) : result string :=
  match Str.get s i with
  | Some c => Ok (String c EmptyString)
  | None => Err IndexError_string
  end.

(** [l[-1]] *)
Definition list_last {A : Type} (l : list A) : result A :=
  match rev l with
  | a :: _ => Ok a
  | [] => Err IndexError_list
  end.

(** [a, b = l] *)
Definition unpack2 {A : Type} (l : list A) : result (A * A) :=
  match l with
  | [a; b] => Ok (a, b)
  | _ => Err (ValueError_unpack 2 (List.length l))
  end.

(** [*a, u, b = l] *)
Definition unpack_star2 {A : Type} (l : list A) : result (list A * A * A) :=
  match rev l with
  | b :: u :: a => Ok (rev a, u, b)
  | _ => Err (ValueError_unpack 2 (List.length l))
  end.

(** ** Python dictionaries, in insertion order *)

Definition dict (V : Type) : Type := list (string * V).

Module Dict.

Fixpoint get {V : Type} (d : dict V) (k : string) : option V :=
  match d with
  | [] => None
  | (k', v) :: r => if String.eqb k' k then Some v else get r k
  end.

(** [d[k] = v]: an existing key keeps its position. *)
Fixpoint set {V : Type} (d : dict V) (k : string) (v : V) : dict V :=
  match d with
  | [] => [(k, v)]
  | (k', v') :: r =>
      if String.eqb k' k then (k, v) :: r else (k', v') :: set r k v
  end.

Definition keys {V : Type} (d : dict V) : list string := map fst d.
Definition values {V : Type} (d : dict V) : list V := map snd d.

(** [d[k]] *)
Definition item {V : Type} (d : dict V) (k : string) : result V :=
  match get d k with
  | Some v => Ok v
  | None => Err (KeyError k)
  end.

(** A dict comprehension [{key(x): val(x) for x in l}]. *)
Definition comprehension {A V : Type} (key : A -> string) (val : A -> V)
    (l : list A) : dict V :=
  fold_left (fun d x => set d (key x) (val x)) l [].

End Dict.

(** ** JSON-like values held by Items and by the constant tables *)

Inductive value : Type :=
| VNone
| VInt (z : Z)
| VFloat (x : float)
| VStr (s : string)
| VList (l : list value)
| VDict (d : list (string * value)).

(** Truthiness of an optional dictionary, as in [if raster_band:]. *)
Definition truthy_dict {V : Type} (d : option (dict V)) : bool :=
  match d with
  | Some (_ :: _) => true
  | _ => false
  end.

(** ** [int(s)] on a string *)

Module PyInt.

Definition code (c : ascii) : N := N_of_ascii c.

(** White space that [int] strips. *)
Definition is_space (c : ascii) : bool :=
  let n := code c in
  ((9 <=? n) && (n <=? 13) || (n =? 32) || (n =? 133) || (n =? 160))%N.

Definition is_digit (c : ascii) : bool :=
  let n := code c in ((48 <=? n) && (n <=? 57))%N.

Definition digit_value (c : ascii) : Z := Z.of_N (code c) - 48.

Fixpoint lstrip (s : string) : string :=
  match s with
  | String c r => if is_space c then lstrip r else s
  | EmptyString => s
  end.

Definition strip (s : string) : string :=
  Str.rev (lstrip (Str.rev (lstrip s))).

(** Digits with single underscores between them; [after_digit] says
    whether the previous character was a digit. *)
Fixpoint digits (s : string) (acc : Z) (after_digit : bool) : option Z :=
  match s with
  | EmptyString => if after_digit then Some acc else None
  | String c r =>
      if is_digit c then digits r (10 * acc + digit_value c) true
      else if Str.chr_eqb c "_" && after_digit then digits r acc false
      else None
  end.

Fixpoint count_digits (s : string) : nat :=
  match s with
  | EmptyString => O
  | String c r => if is_digit c then S (count_digits r) else count_digits r
  end.

(** The default of [sys.get_int_max_str_digits()]. *)
Definition max_str_digits : nat := 4300.

Definition signed (s : string) : option Z :=
  match s with
  | String "+" r => digits r 0 false
  | String "-" r => option_map Z.opp (digits r 0 false)
  | _ => digits s 0 false
  end.

Definition int (s : string) : result Z :=
  match signed (strip s) with
  | Some z =>
      if (max_str_digits <? count_digits s)%nat then Err (ValueError_int s)
      else Ok z
  | None => Err (ValueError_int s)
  end.

End PyInt.

(** ** Regular expressions: a sequence of named groups, each a character
    class repeated a fixed number of times *)

Module re.

Inductive charclass : Type :=
| OneOf (cs : string)      (* a bracket expression listing its characters *)
| Word.                    (* \w *)

Record group : Type := Group {
  name : string;
  class : charclass;
  count : nat
}.

Definition pattern : Type := list group.

Definition in_range (lo hi : N) (c : ascii) : bool :=
  let n := N_of_ascii c in ((lo <=? n) && (n <=? hi))%N.

(** The alphanumeric characters of the ASCII range. *)
Definition is_ascii_alnum (c : ascii) : bool :=
  in_range 48 57 c || in_range 65 90 c || in_range 97 122 c.

(** The alphanumeric characters of the range 128..255. *)
Definition is_latin1_alnum (c : ascii) : bool :=
  in_range 170 170 c || in_range 178 179 c || in_range 181 181 c
  || in_range 185 186 c || in_range 188 190 c || in_range 192 214 c
  || in_range 216 246 c || in_range 248 255 c.

(** [\w] on a [str] pattern: alphanumeric or underscore. *)
Definition is_word (c : ascii) : bool :=
  is_ascii_alnum c || is_latin1_alnum c || Str.chr_eqb c "_".

Definition class_matches (k : charclass) (c : ascii) : bool :=
  match k with
  | OneOf cs => Str.mem c cs
  | Word => is_word c
  end.

(** [n] characters of class [k] at the head of [s]: the text matched and
    what follows it. *)
Fixpoint take_class (k : charclass) (n : nat) (s : string)
    : option (string * string) :=
  match n with
  | O => Some (EmptyString, s)
  | S m =>
      match s with
      | EmptyString => None
      | String c r =>
          if class_matches k c then
            match take_class k m r with
            | Some (txt, rest) => Some (String c txt, rest)
            | None => None
            end
          else None
      end
  end.

(** [pattern.match(s)] followed by [groupdict()]: the match is anchored
    at the start of [s] only. *)
Fixpoint match_ (p : pattern) (s : string) : option (dict string) :=
  match p with
  | [] => Some []
  | g :: p' =>
      match take_class (class g) (count g) s with
      | Some (txt, rest) =>
          match match_ p' rest with
          | Some m => Some ((name g, txt) :: m)
          | None => None
          end
      | None => None
      end
  end.

End re.

(** [FILENAME_PARTS]: a bracket expression such as [[F|U]] lists three
    characters, the bar included. *)
Definition FILENAME_PARTS : re.pattern :=
  [ re.Group "MODE" (re.OneOf "F|U") 1;
    re.Group "BEAM_NUMBER" re.Word 2;
    re.Group "POLARIZATIONS" (re.OneOf "D|Q") 1;
    re.Group "ORBIT" (re.OneOf "A|D") 1;
    re.Group "OBSERVATION" (re.OneOf "R|L") 1 ].

(** ** Grouping the assets of an observation: [create_item_from_href],
    up to its call of [create_item] *)

(** [kind.split("_")[-1]]: the band key of a kind of sibling. *)
Definition kind_key (kind : string) : string :=
  match list_last (Str.split "_" kind) with
  | Ok k => k
  | Err _ => kind
  end.

(** The mapping [assets_hrefs] of lines 131-150. *)
Definition assets_hrefs_of (asset_href : string) : result (dict string) :=
  let filename := os_path.basename asset_href in
  if Str.endswith filename "_C.tif" then
    Ok [("C", asset_href)]
  else if Str.endswith filename ".xml" then
    (prefix <- list_index (Str.rsplit1 "/" asset_href) 0 ;;
     '(filename_prefix, filename_suffix) <- unpack2 (Str.rsplit1 "_" filename) ;;
     let filename_suffix := fst (os_path.splitext filename_suffix) in
     let kinds := ["date"; "linci"; "mask"; "sl_HH"; "sl_HV"] in
     q <- str_index filename_suffix 3 ;;
     let kinds := if String.eqb q "Q" then kinds ++ ["sl_VH"; "sl_VV"] else kinds in
     let assets_hrefs :=
       Dict.comprehension kind_key
         (fun kind => (prefix ++ "/" ++ filename_prefix ++ "_" ++ kind ++ "_"
                       ++ filename_suffix ++ ".tif")%string)
         kinds in
     Ok (Dict.set assets_hrefs "metadata" asset_href))%result
  else
    Err ValueError_unknown_type.

(** ** The constant tables

    [stactools/palsar/constants.py] is not among the sources: the tables
    [create_item] reads are the fields of a record the derivation takes as
    a parameter. *)
Record constants : Type := {
  ALOS_PALSAR_PLATFORMS : list string;
  ALOS_PALSAR_INSTRUMENTS : list string;
  ALOS_PALSAR_GSD : value;
  ALOS_PALSAR_EPSG : value;
  ALOS_PALSAR_CF : value;
  ALOS_FREQUENCY_BAND : value;
  ALOS_DUAL_POLARIZATIONS : value;
  ALOS_QUAD_POLARIZATIONS : value;
  ALOS_PRODUCT_TYPE : value;
  ALOS_BANDS : dict (dict value);
  ALOS_FNF_CLASSIFICATION_CLASSES : value;
  ALOS_MASK_CLASSIFICATION_CLASSES : value
}.

(** ** The raster reader: what [rasterio.open] lets [create_item] see *)

Module rasterio.

Record CRS : Type := { to_epsg : option Z }.

Record BoundingBox : Type := {
  bounds_left : float;
  bounds_bottom : float;
  bounds_right : float;
  bounds_top : float
}.

Record DatasetReader : Type := {
  crs : option CRS;
  bounds : BoundingBox;
  transform : list float;
  shape : list Z
}.

(** [list(dataset.bounds)] *)
Definition bounds_list (b : BoundingBox) : list float :=
  [bounds_left b; bounds_bottom b; bounds_right b; bounds_top b].

End rasterio.

(** [mapping(box(minx, miny, maxx, maxy))]: the rectangle as a GeoJSON-like
    polygon, counter-clockwise from the lower right corner. *)
Definition box_mapping (b : rasterio.BoundingBox) : value :=
  let minx := VFloat (rasterio.bounds_left b) in
  let miny := VFloat (rasterio.bounds_bottom b) in
  let maxx := VFloat (rasterio.bounds_right b) in
  let maxy := VFloat (rasterio.bounds_top b) in
  VDict [("type", VStr "Polygon");
         ("coordinates",
          VList [VList [VList [maxx; miny]; VList [maxx; maxy];
                        VList [minx; maxy]; VList [minx; miny];
                        VList [maxx; miny]]])].

(** ** The catalog objects of pystac *)

Module pystac.

Inductive MediaType : Type := XML | COG.

Definition MediaType_eqb (a b : MediaType) : bool :=
  match a, b with
  | XML, XML | COG, COG => true
  | _, _ => false
  end.

Inductive extension : Type :=
| ProjectionExtension | SarExtension | SatExtension | RasterExtension.

Definition extension_eqb (a b : extension) : bool :=
  match a, b with
  | ProjectionExtension, ProjectionExtension
  | SarExtension, SarExtension
  | SatExtension, SatExtension
  | RasterExtension, RasterExtension => true
  | _, _ => false
  end.

Record Link : Type := { rel : string; target : string }.

Record Asset : Type := {
  href : string;
  media_type : MediaType;
  roles : list string;
  title : string;
  extra_fields : dict value
}.

Record datetime : Type := {
  dt_year : Z; dt_month : Z; dt_day : Z;
  dt_hour : Z; dt_minute : Z; dt_second : Z;
  dt_utc : bool
}.

Record Item : Type := {
  id : string;
  geometry : value;
  bbox : list float;
  item_datetime : datetime;
  properties : dict value;
  stac_extensions : list extension;
  collection_id : option string;
  links : list Link;
  assets : dict Asset
}.

Definition with_properties (f : dict value -> dict value) (i : Item) : Item :=
  {| id := id i; geometry := geometry i; bbox := bbox i;
     item_datetime := item_datetime i; properties := f (properties i);
     stac_extensions := stac_extensions i;
     collection_id := collection_id i; links := links i;
     assets := assets i |}.

Definition with_stac_extensions (f : list extension -> list extension)
    (i : Item) : Item :=
  {| id := id i; geometry := geometry i; bbox := bbox i;
     item_datetime := item_datetime i; properties := properties i;
     stac_extensions := f (stac_extensions i);
     collection_id := collection_id i; links := links i;
     assets := assets i |}.

Definition with_assets (f : dict Asset -> dict Asset) (i : Item) : Item :=
  {| id := id i; geometry := geometry i; bbox := bbox i;
     item_datetime := item_datetime i; properties := properties i;
     stac_extensions := stac_extensions i;
     collection_id := collection_id i; links := links i;
     assets := f (assets i) |}.

Definition with_extra_fields (f : dict value -> dict value) (a : Asset)
    : Asset :=
  {| href := href a; media_type := media_type a; roles := roles a;
     title := title a; extra_fields := f (extra_fields a) |}.

(** [Extension.ext(obj, add_if_missing=True)] on an Item or on an Asset
    the Item owns: the Item lists the extension from then on. *)
Definition ext (e : extension) (i : Item) : Item :=
  with_stac_extensions
    (fun l => if existsb (extension_eqb e) l then l else (l ++ [e])%list) i.

(** A field of an extension or of the common metadata is stored under its
    name in [item.properties]. *)
Definition set_property (k : string) (v : value) (i : Item) : Item :=
  with_properties (fun d => Dict.set d k v) i.

(** [item.add_asset(key, asset)] *)
Definition add_asset (key : string) (a : Asset) (i : Item) : Item :=
  with_assets (fun d => Dict.set d key a) i.

(** An update of the asset stored under [key]: a mutation through an
    alias such as [cog_asset = item.assets[key]]. *)
Definition update_asset (key : string) (f : Asset -> Asset) (i : Item)
    : Item :=
  with_assets
    (fun d => match Dict.get d key with
              | Some a => Dict.set d key (f a)
              | None => d
              end) i.

(** [RasterBand.create(nodata=..., data_type=...).to_dict()]: an absent
    ([None]) field is left out. *)
Definition RasterBand_create (nodata : Z) (data_type : option value)
    : value :=
  VDict (("nodata", VInt nodata)
         :: match data_type with
            | Some VNone | None => []
            | Some v => [("data_type", v)]
            end).

Module ObservationDirection.
Definition LEFT : value := VStr "left".
Definition RIGHT : value := VStr "right".
End ObservationDirection.

Module OrbitState.
Definition ASCENDING : value := VStr "ascending".
Definition DESCENDING : value := VStr "descending".
End OrbitState.

End pystac.

(** ** Mutation of the Item under construction

    A computation that may raise and that updates the Item [create_item]
    holds in its local variable [item]; the Item as it was when an
    exception was raised is kept. *)

Definition M (A : Type) : Type := pystac.Item -> result A * pystac.Item.

Definition mret {A : Type} (a : A) : M A := fun i => (Ok a, i).

Definition mbind {A B : Type} (m : M A) (k : A -> M B) : M B :=
  fun i => match m i with
           | (Ok a, i') => k a i'
           | (Err e, i') => (Err e, i')
           end.

Definition lift {A : Type} (r : result A) : M A := fun i => (r, i).

Definition modify (f : pystac.Item -> pystac.Item) : M unit :=
  fun i => (Ok tt, f i).

Definition get_item : M pystac.Item := fun i => (Ok i, i).

Declare Scope item_scope.
Delimit Scope item_scope with item.
Notation "x <- m ;; k" := (mbind m (fun x => k))
  (at level 61, m at next level, right associativity) : item_scope.
Notation "m ;; k" := (mbind m (fun _ => k))
  (at level 61, right associativity) : item_scope.

(** [for x in l: body(x)] *)
Fixpoint for_each {A : Type} (l : list A) (body : A -> M unit) : M unit :=
  match l with
  | [] => mret tt
  | x :: r => (body x ;; for_each r body)%item
  end.

(** What [create_item] does: it returns an Item, or raises, in which case
    the Item is the one under construction, if [Item(...)] had been
    called. *)
Inductive outcome : Type :=
| Returned (item : pystac.Item)
| Raised (e : exn) (under_construction : option pystac.Item).

(** ** [create_item] *)

(** The general parameters read from the first asset (lines 175-184). *)
Record Representative : Type := {
  asset_href : string;
  filename : string;
  year : string;
  is_fnf : bool;
  item_root : string
}.

Definition general_parameters (assets_hrefs : dict string)
    : result Representative :=
  (asset_href <- list_index (Dict.values assets_hrefs) 0 ;;
   let filename := os_path.basename (fst (os_path.splitext asset_href)) in
   year <- list_index (Str.split "_" (os_path.basename asset_href)) 1 ;;
   band <- list_index (Str.split "_" filename) 2 ;;
   let is_fnf := String.eqb band "C" in
   item_root <-
     (if is_fnf then
        Ok (Str.join "_"
              (firstn 2 (Str.split "_" (os_path.basename asset_href))))
      else
        ' (a, _, b) <- unpack_star2 (Str.split "_" filename) ;;
        Ok (Str.join "_" (a ++ [b])%list)) ;;
   Ok {| asset_href := asset_href; filename := filename; year := year;
         is_fnf := is_fnf; item_root := item_root |})%result.

(** What is read from the opened raster (lines 186-194). *)
Record Raster : Type := {
  raster_bbox : list float;
  raster_geometry : value;
  raster_transform : list float;
  raster_shape : list Z
}.

(** [dataset.crs.to_epsg() == 4326], where [to_epsg()] may be [None]. *)
Definition epsg_is_4326 (c : option Z) : bool :=
  match c with
  | Some z => (z =? 4326)%Z
  | None => false
  end.

Section Derivation.

Variable co : constants.
Variable rasterio_open : string -> result rasterio.DatasetReader.
Variable isoparse : string -> result pystac.datetime.

(** The raster of the first asset, once its reference system is checked
    (lines 186-194). *)
Definition read_raster (read_href_modifier : string -> string)
    (asset_href : string) : result Raster :=
  (dataset <- rasterio_open (read_href_modifier asset_href) ;;
   crs <- match rasterio.crs dataset with
          | Some c => Ok c
          | None => Err (AttributeError "to_epsg")
          end ;;
   if negb (epsg_is_4326 (rasterio.to_epsg crs)) then
     Err (ValueError_not_epsg4326 asset_href)
   else
     Ok {| raster_bbox := rasterio.bounds_list (rasterio.bounds dataset);
           raster_geometry := box_mapping (rasterio.bounds dataset);
           raster_transform := rasterio.transform dataset;
           raster_shape := rasterio.shape dataset |})%result.

(** The Item as it is constructed, with its collection (lines 196-230). *)
Definition new_item (root_href : string) (r : Representative)
    (ra : Raster) : result (pystac.Item * string) :=
  let start_datetime := ("20" ++ year r ++ "-01-01T00:00:00Z")%string in
  let end_datetime := ("20" ++ year r ++ "-12-31T23:59:59Z")%string in
  (band <- list_index (Str.split "_" (filename r)) 2 ;;
   let '(item_id, description, collection) :=
     if String.eqb band "C" then
       ((item_root r ++ "_FNF")%string,
        "Forest/Non-Forest Classification", "alos-fnf-mosaic")
     else
       ((item_root r ++ "_MOS")%string,
        "Annual PALSAR Mosaic", "alos-palsar-mosaic") in
   let properties :=
     [("title", VStr item_id);
      ("description", VStr description);
      ("start_datetime", VStr start_datetime);
      ("end_datetime", VStr end_datetime)] in
   datetime <- isoparse start_datetime ;;
   Ok ({| pystac.id := item_id;
          pystac.geometry := raster_geometry ra;
          pystac.bbox := raster_bbox ra;
          pystac.item_datetime := datetime;
          pystac.properties := properties;
          pystac.stac_extensions := [];
          pystac.collection_id := Some collection;
          pystac.links :=
            [ {| pystac.rel := "collection";
                 pystac.target :=
                   os_path.join root_href (collection ++ ".json")%string |} ];
          pystac.assets := [] |},
       collection))%result.

(** Platform, instrument and ground sample distance (lines 232-239). *)
Definition set_common_metadata (year : string) : M unit :=
  (y <- lift (PyInt.int year) ;;
   (if (15 <=? y)%Z then
      p <- lift (list_index (ALOS_PALSAR_PLATFORMS co) 1) ;;
      modify (pystac.set_property "platform" (VStr p)) ;;
      i <- lift (list_index (ALOS_PALSAR_INSTRUMENTS co) 1) ;;
      modify (pystac.set_property "instruments" (VList [VStr i]))
    else
      p <- lift (list_index (ALOS_PALSAR_PLATFORMS co) 0) ;;
      modify (pystac.set_property "platform" (VStr p)) ;;
      i <- lift (list_index (ALOS_PALSAR_INSTRUMENTS co) 0) ;;
      modify (pystac.set_property "instruments" (VList [VStr i]))) ;;
   modify (pystac.set_property "gsd" (ALOS_PALSAR_GSD co)))%item.

(** The projection attributes (lines 242-246). *)
Definition set_projection (ra : Raster) : M unit :=
  (modify (pystac.ext pystac.ProjectionExtension) ;;
   modify (pystac.set_property "proj:epsg" (ALOS_PALSAR_EPSG co)) ;;
   modify (pystac.set_property "proj:bbox"
             (VList (map VFloat (raster_bbox ra)))) ;;
   modify (pystac.set_property "proj:shape"
             (VList (map VInt (raster_shape ra)))) ;;
   modify (pystac.set_property "proj:transform"
             (VList (map VFloat (raster_transform ra)))))%item.

(** The radar descriptor of a mosaic (lines 248-282). *)
Definition set_sar (collection : string) (r : Representative) : M unit :=
  if String.eqb collection "alos-palsar-mosaic" then
    (modify (pystac.ext pystac.SarExtension) ;;
     modify (pystac.ext pystac.SatExtension) ;;
     code <- lift (list_last (Str.split "_" (filename r))) ;;
     m <- lift (match re.match_ FILENAME_PARTS code with
                | Some m => Ok m
                | None => Err (ValueError_pattern (filename r) (asset_href r))
                end) ;;
     mode <- lift (Dict.item m "MODE") ;;
     modify (pystac.set_property "sar:instrument_mode" (VStr mode)) ;;
     observation <- lift (Dict.item m "OBSERVATION") ;;
     modify (pystac.set_property "sar:observation_direction"
               (if String.eqb observation "L"
                then pystac.ObservationDirection.LEFT
                else pystac.ObservationDirection.RIGHT)) ;;
     modify (pystac.set_property "sar:frequency_band"
               (ALOS_FREQUENCY_BAND co)) ;;
     polarizations <- lift (Dict.item m "POLARIZATIONS") ;;
     modify (pystac.set_property "sar:polarizations"
               (if String.eqb polarizations "D"
                then ALOS_DUAL_POLARIZATIONS co
                else ALOS_QUAD_POLARIZATIONS co)) ;;
     modify (pystac.set_property "sar:product_type" (ALOS_PRODUCT_TYPE co)) ;;
     modify (pystac.set_property "cf" (ALOS_PALSAR_CF co)) ;;
     orbit <- lift (Dict.item m "ORBIT") ;;
     modify (pystac.set_property "sat:orbit_state"
               (if String.eqb orbit "A"
                then pystac.OrbitState.ASCENDING
                else pystac.OrbitState.DESCENDING)) ;;
     beam_number <- lift (Dict.item m "BEAM_NUMBER") ;;
     modify (pystac.set_property "palsar:beam_number" (VStr beam_number)) ;;
     polarizations <- lift (Dict.item m "POLARIZATIONS") ;;
     modify (pystac.set_property "palsar:number_of_polarizations"
               (VStr polarizations)))%item
  else mret tt.

(** [nodata_by_band.get(key, 0)] (lines 324-332). *)
Definition nodata_by_band : dict Z :=
  [("HH", 1); ("HV", 1); ("mask", 0); ("linci", 1); ("date", 1); ("C", 0)]%Z.

Definition nodata_for (y : Z) (key : string) : Z :=
  if (17 <=? y)%Z then
    match Dict.get nodata_by_band key with
    | Some n => n
    | None => 0%Z
    end
  else 0%Z.

(** The body of the loop over [assets_hrefs.items()] (lines 288-343). *)
Definition add_one_asset (root_href : string) (r : Representative)
    (kv : string * string) : M unit :=
  let '(key, value) := kv in
  let href :=
    if (0 <? String.length root_href)%nat
    then os_path.join root_href (os_path.basename value)
    else value in
  let '(media_type, roles) :=
    if Str.endswith href ".xml" then (pystac.XML, ["metadata"])
    else (pystac.COG, ["data"]) in
  let title := if is_fnf r then "FNF" else key in
  (modify (pystac.add_asset key
             {| pystac.href := href; pystac.media_type := media_type;
                pystac.roles := roles; pystac.title := title;
                pystac.extra_fields := [] |}) ;;
   item <- get_item ;;
   cog_asset <- lift (Dict.item (pystac.assets item) key) ;;
   if pystac.MediaType_eqb (pystac.media_type cog_asset) pystac.COG then
     modify (pystac.ext pystac.RasterExtension) ;;
     let raster_band := Dict.get (ALOS_BANDS co) key in
     (if truthy_dict raster_band then
        y <- lift (PyInt.int (year r)) ;;
        modify (pystac.update_asset key
                  (pystac.with_extra_fields
                     (fun d => Dict.set d "raster:bands"
                        (VList [pystac.RasterBand_create (nodata_for y key)
                                  match raster_band with
                                  | Some b => Dict.get b "data_type"
                                  | None => None
                                  end]))))
      else mret tt) ;;
     (if String.eqb key "C" then
        modify (pystac.update_asset key
                  (pystac.with_extra_fields
                     (fun d => Dict.set d "classification:classes"
                                 (ALOS_FNF_CLASSIFICATION_CLASSES co))))
      else if String.eqb key "mask" then
        modify (pystac.update_asset key
                  (pystac.with_extra_fields
                     (fun d => Dict.set d "classification:classes"
                                 (ALOS_MASK_CLASSIFICATION_CLASSES co))))
      else mret tt)
   else mret tt)%item.

Definition create_item (assets_hrefs : dict string) (root_href : string)
    (read_href_modifier : option (string -> string)) : outcome :=
  let read_href_modifier :=
    match read_href_modifier with
    | Some f => f
    | None => fun x => x
    end in
  match (r <- general_parameters assets_hrefs ;;
         ra <- read_raster read_href_modifier (asset_href r) ;;
         ic <- new_item root_href r ra ;;
         Ok (r, ra, ic))%result with
  | Err e => Raised e None
  | Ok (r, ra, (item, collection)) =>
      match (set_common_metadata (year r) ;;
             set_projection ra ;;
             set_sar collection r ;;
             for_each assets_hrefs (add_one_asset root_href r))%item item
      with
      | (Ok _, item') => Returned item'
      | (Err e, item') => Raised e (Some item')
      end
  end.

(** [create_item_from_href] *)
Definition create_item_from_href (asset_href : string)
    (read_href_modifier : option (string -> string)) : outcome :=
  match assets_hrefs_of asset_href with
  | Ok assets_hrefs => create_item assets_hrefs "" read_href_modifier
  | Err e => Raised e None
  end.

End Derivation.

(** ** [create_collection] *)

(** The tables of [stactools/palsar/constants.py] that only
    [create_collection] reads; the module is not among the sources, and
    they are a second parameter record. *)
Record collection_constants : Type := {
  ALOS_PALSAR_PROVIDERS : value;
  ALOS_FNF_DESCRIPTION : string;
  ALOS_MOS_DESCRIPTION : string;
  ALOS_SPATIAL_EXTENT : value;
  ALOS_FNF_TEMPORAL_EXTENT : value;
  ALOS_MOS_TEMPORAL_EXTENT : value;
  ALOS_FNF_ASSETS : value;
  ALOS_MOS_ASSETS : value;
  ALOS_FNF_REVISION : value;
  ALOS_MOS_REVISION : value;
  ALOS_FNF_LINKS : list pystac.Link;
  ALOS_MOS_LINKS : list pystac.Link
}.

Module pystac_collection.

(** The schemas a Collection lists: those of the extensions an Item can
    list, those of the two extensions of Collections, and the URI
    [CLASSIFICATION_EXTENSION_URI] of line 22. *)
Inductive schema : Type :=
| ItemAssetsExtension
| Schema (e : pystac.extension)
| VersionExtension
| CLASSIFICATION_EXTENSION_URI.

Definition schema_eqb (a b : schema) : bool :=
  match a, b with
  | ItemAssetsExtension, ItemAssetsExtension
  | VersionExtension, VersionExtension
  | CLASSIFICATION_EXTENSION_URI, CLASSIFICATION_EXTENSION_URI => true
  | Schema e, Schema f => pystac.extension_eqb e f
  | _, _ => false
  end.

Inductive CatalogType : Type :=
| SELF_CONTAINED | ABSOLUTE_PUBLISHED | RELATIVE_PUBLISHED.

(** [Extent(SpatialExtent(bboxes), TemporalExtent(intervals))] *)
Record Extent : Type := {
  spatial : value;
  temporal : list value
}.

(** The fields [create_collection] sets.  [links] holds the links it
    adds with [add_links]; the links pystac itself gives a new Collection
    are not part of it. *)
Record Collection : Type := {
  id : string;
  title : string;
  description : string;
  license : string;
  providers : value;
  extent : Extent;
  keywords : list string;
  catalog_type : CatalogType;
  summaries : dict value;
  stac_extensions : list schema;
  extra_fields : dict value;
  links : list pystac.Link
}.

(** [Extension.ext(collection, add_if_missing=True)] *)
Definition ext (e : schema) (c : Collection) : Collection :=
  {| id := id c; title := title c; description := description c;
     license := license c; providers := providers c; extent := extent c;
     keywords := keywords c; catalog_type := catalog_type c;
     summaries := summaries c;
     stac_extensions :=
       if existsb (schema_eqb e) (stac_extensions c) then stac_extensions c
       else (stac_extensions c ++ [e])%list;
     extra_fields := extra_fields c; links := links c |}.

(** [assets.item_assets = v] and [version.version = v]: a field of an
    extension of a Collection is one of its extra fields. *)
Definition set_extra_field (k : string) (v : value) (c : Collection)
    : Collection :=
  {| id := id c; title := title c; description := description c;
     license := license c; providers := providers c; extent := extent c;
     keywords := keywords c; catalog_type := catalog_type c;
     summaries := summaries c; stac_extensions := stac_extensions c;
     extra_fields := Dict.set (extra_fields c) k v; links := links c |}.

(** [collection.add_links(links)] *)
Definition add_links (l : list pystac.Link) (c : Collection) : Collection :=
  {| id := id c; title := title c; description := description c;
     license := license c; providers := providers c; extent := extent c;
     keywords := keywords c; catalog_type := catalog_type c;
     summaries := summaries c; stac_extensions := stac_extensions c;
     extra_fields := extra_fields c; links := (links c ++ l)%list |}.

End pystac_collection.

(** [{**a, **b}] *)
Definition dict_merge {V : Type} (a b : dict V) : dict V :=
  fold_left (fun d kv => Dict.set d (fst kv) (snd kv)) b a.

Section Collection.

Variable co : constants.
Variable cc : collection_constants.

Definition create_collection (product : string)
    : pystac_collection.Collection :=
  let providers := ALOS_PALSAR_PROVIDERS cc in
  let summaries : dict value :=
    [("platform", VList (map VStr (ALOS_PALSAR_PLATFORMS co)));
     ("instruments", VList (map VStr (ALOS_PALSAR_INSTRUMENTS co)))] in
  let '(id, title, description, keywords, extent, summaries) :=
    if String.eqb product "FNF" then
      ("alos-fnf-mosaic",
       "ALOS Forest/Non-Forest Annual Mosaic",
       ALOS_FNF_DESCRIPTION cc,
       ["ALOS"; "JAXA"; "Forest"; "Land Cover"; "Global"],
       {| pystac_collection.spatial := ALOS_SPATIAL_EXTENT cc;
          pystac_collection.temporal := [ALOS_FNF_TEMPORAL_EXTENT cc] |},
       summaries)
    else
      ("alos-palsar-mosaic",
       "ALOS PALSAR Annual Mosaic",
       ALOS_MOS_DESCRIPTION cc,
       ["ALOS"; "JAXA"; "Remote Sensing"; "Global"],
       {| pystac_collection.spatial := ALOS_SPATIAL_EXTENT cc;
          pystac_collection.temporal := [ALOS_MOS_TEMPORAL_EXTENT cc] |},
       dict_merge summaries
         [("sar:observation_direction",
           VList [pystac.ObservationDirection.LEFT;
                  pystac.ObservationDirection.RIGHT]);
          ("sar:instrument_mode", VList [VStr "F"; VStr "U"]);
          ("sar:polarizations",
           VList [ALOS_DUAL_POLARIZATIONS co; ALOS_QUAD_POLARIZATIONS co]);
          ("sat:orbit_state",
           VList [pystac.OrbitState.ASCENDING; pystac.OrbitState.DESCENDING]);
          ("palsar:number_of_polarizations", VList [VStr "D"; VStr "Q"])]) in
  let collection :=
    {| pystac_collection.id := id;
       pystac_collection.title := title;
       pystac_collection.description := description;
       pystac_collection.license := "proprietary";
       pystac_collection.providers := providers;
       pystac_collection.extent := extent;
       pystac_collection.keywords := keywords;
       pystac_collection.catalog_type := pystac_collection.RELATIVE_PUBLISHED;
       pystac_collection.summaries := summaries;
       pystac_collection.stac_extensions :=
         [pystac_collection.ItemAssetsExtension;
          pystac_collection.Schema pystac.SarExtension;
          pystac_collection.Schema pystac.SatExtension;
          pystac_collection.Schema pystac.ProjectionExtension;
          pystac_collection.Schema pystac.RasterExtension;
          pystac_collection.VersionExtension;
          pystac_collection.CLASSIFICATION_EXTENSION_URI];
       pystac_collection.extra_fields := [];
       pystac_collection.links := [] |} in
  let collection :=
    pystac_collection.ext pystac_collection.VersionExtension collection in
  let collection :=
    pystac_collection.ext pystac_collection.ItemAssetsExtension collection in
  if String.eqb product "FNF" then
    pystac_collection.add_links (ALOS_FNF_LINKS cc)
      (pystac_collection.set_extra_field "version" (ALOS_FNF_REVISION cc)
         (pystac_collection.set_extra_field "item_assets"
            (ALOS_FNF_ASSETS cc) collection))
  else
    pystac_collection.add_links (ALOS_MOS_LINKS cc)
      (pystac_collection.set_extra_field "version" (ALOS_MOS_REVISION cc)
         (pystac_collection.set_extra_field "item_assets"
            (ALOS_MOS_ASSETS cc) collection)).

End Collection.

(** ** A concrete setting for the examples

    An instance of the constant tables, a raster reader that serves every
    [.tif] location with one raster, and a reader of the timestamps the
    derivation builds. *)

Module Example.

Definition band (data_type : string) : dict value :=
  [("data_type", VStr data_type)].

Definition co : constants := {|
  ALOS_PALSAR_PLATFORMS := ["ALOS"; "ALOS-2"];
  ALOS_PALSAR_INSTRUMENTS := ["PALSAR"; "PALSAR-2"];
  ALOS_PALSAR_GSD := VInt 25;
  ALOS_PALSAR_EPSG := VInt 4326;
  ALOS_PALSAR_CF := VInt (-83);
  ALOS_FREQUENCY_BAND := VStr "L";
  ALOS_DUAL_POLARIZATIONS := VList [VStr "HH"; VStr "HV"];
  ALOS_QUAD_POLARIZATIONS :=
    VList [VStr "HH"; VStr "HV"; VStr "VH"; VStr "VV"];
  ALOS_PRODUCT_TYPE := VStr "GTC";
  ALOS_BANDS :=
    [("HH", band "uint16"); ("HV", band "uint16"); ("VH", band "uint16");
     ("VV", band "uint16"); ("linci", band "uint8");
     ("mask", band "uint8"); ("date", band "uint16");
     ("C", band "uint8")];
  ALOS_FNF_CLASSIFICATION_CLASSES := VList [VStr "forest"; VStr "non-forest"];
  ALOS_MASK_CLASSIFICATION_CLASSES := VList [VStr "no_data"; VStr "water"]
|}.

Definition dataset (epsg : Z) : rasterio.DatasetReader := {|
  rasterio.crs := Some {| rasterio.to_epsg := Some epsg |};
  rasterio.bounds :=
    {| rasterio.bounds_left := 100; rasterio.bounds_bottom := 0;
       rasterio.bounds_right := 105; rasterio.bounds_top := 5 |};
  rasterio.transform := [];
  rasterio.shape := [4500; 4500]%Z
|}.

Definition rasterio_open (epsg : Z) (location : string)
    : result rasterio.DatasetReader :=
  if Str.endswith location ".tif" then Ok (dataset epsg)
  else Err (ExternalError "RasterioIOError").

(** Timestamps of the shape [YYYY-MM-DDThh:mm:ssZ] only. *)
Definition field (s : string) (start len : nat) : option Z :=
  PyInt.digits (substring start len s) 0 false.

Definition isoparse (s : string) : result pystac.datetime :=
  match field s 0 4, field s 5 2, field s 8 2,
        field s 11 2, field s 14 2, field s 17 2 with
  | Some y, Some mo, Some d, Some h, Some mi, Some se =>
      if ((String.length s =? 20)%nat
          && String.eqb (substring 4 1 s) "-"
          && String.eqb (substring 7 1 s) "-"
          && String.eqb (substring 10 1 s) "T"
          && String.eqb (substring 13 1 s) ":"
          && String.eqb (substring 16 1 s) ":"
          && String.eqb (substring 19 1 s) "Z")%bool
      then Ok {| pystac.dt_year := y; pystac.dt_month := mo;
                 pystac.dt_day := d; pystac.dt_hour := h;
                 pystac.dt_minute := mi; pystac.dt_second := se;
                 pystac.dt_utc := true |}
      else Err (ExternalError "isoparse")
  | _, _, _, _, _, _ => Err (ExternalError "isoparse")
  end.

(** The mapping of a quad-polarization mosaic of 2017 and of a forest
    classification of 2010. *)
Definition mosaic_2017 : dict string :=
  [("date", "tiles/N05E100_17_date_F02QAR.tif");
   ("linci", "tiles/N05E100_17_linci_F02QAR.tif");
   ("mask", "tiles/N05E100_17_mask_F02QAR.tif");
   ("HH", "tiles/N05E100_17_sl_HH_F02QAR.tif");
   ("HV", "tiles/N05E100_17_sl_HV_F02QAR.tif");
   ("VH", "tiles/N05E100_17_sl_VH_F02QAR.tif");
   ("VV", "tiles/N05E100_17_sl_VV_F02QAR.tif");
   ("metadata", "tiles/N05E100_17_F02QAR.xml")].

Definition forest_2010 : dict string :=
  [("C", "tiles/N05E100_10_C.tif")].

End Example.

(** The derivation in the example setting, for a raster with the given
    EPSG code. *)
Abbreviation example_item epsg assets_hrefs :=
  (create_item Example.co (Example.rasterio_open epsg) Example.isoparse
     assets_hrefs "" None).

Abbreviation example_item_from_href epsg asset_href :=
  (create_item_from_href Example.co (Example.rasterio_open epsg)
     Example.isoparse asset_href None).

(** ** The vocabulary of the properties *)

(** The location rewriting in force: the identity when [create_item] is
    given none. *)
Definition modifier_of (read_href_modifier : option (string -> string))
    : string -> string :=
  match read_href_modifier with
  | Some f => f
  | None => fun x => x
  end.

(** Whether the basename has one of the two shapes the Grouper knows. *)
Definition recognised (asset_href : string) : bool :=
  Str.endswith (os_path.basename asset_href) "_C.tif"
  || Str.endswith (os_path.basename asset_href) ".xml".

(** The value of [filename_suffix] after line 138, when line 137 unpacks:
    the part of the name after its last underscore, without its
    extension. *)
Definition mode_code (filename : string) : option string :=
  match Str.rcut "_" filename with
  | Some (_, filename_suffix) => Some (fst (os_path.splitext filename_suffix))
  | None => None
  end.

(** The band keys of a dual-polarization and of a quad-polarization
    mosaic, in the order the Grouper inserts them. *)
Definition dual_keys : list string :=
  ["date"; "linci"; "mask"; "HH"; "HV"; "metadata"].

Definition quad_keys : list string :=
  ["date"; "linci"; "mask"; "HH"; "HV"; "VH"; "VV"; "metadata"].

(** The characters of the ASCII range. *)
Definition is_ascii (c : ascii) : bool := (N_of_ascii c <? 128)%N.

(** Following the specification: the pattern
    [[FU][A-Za-z0-9]{2}[DQ][AD][RL]] read at the head of a string, one
    character for the mode, two for the beam number, one each for the
    polarization count, the orbit direction and the observation side. *)
Definition spec_code_prefix (s : string) : bool :=
  match s with
  | String m (String b1 (String b2 (String p (String o (String d _))))) =>
      Str.mem m "FU" && re.is_ascii_alnum b1 && re.is_ascii_alnum b2
      && Str.mem p "DQ" && Str.mem o "AD" && Str.mem d "RL"
  | _ => false
  end.

(** The code rebuilt from the parsed fields, in the order of the groups. *)
Definition descriptor_code (m : dict string) : result string :=
  (mode <- Dict.item m "MODE" ;;
   beam_number <- Dict.item m "BEAM_NUMBER" ;;
   polarizations <- Dict.item m "POLARIZATIONS" ;;
   orbit <- Dict.item m "ORBIT" ;;
   observation <- Dict.item m "OBSERVATION" ;;
   Ok (mode ++ beam_number ++ polarizations ++ orbit ++ observation)%string)%result.

(** The properties the descriptor stage sets. *)
Definition descriptor_keys : list string :=
  ["sar:instrument_mode"; "sar:observation_direction"; "sar:frequency_band";
   "sar:polarizations"; "sar:product_type"; "cf"; "sat:orbit_state";
   "palsar:beam_number"; "palsar:number_of_polarizations"].

(** The location an Asset gets (lines 288-291). *)
Definition asset_location (root_href location : string) : string :=
  if (0 <? String.length root_href)%nat
  then os_path.join root_href (os_path.basename location)
  else location.

(** The Asset the loop body leaves under [key], for the year [y]. *)
Definition asset_of (co : constants) (root_href : string)
    (r : Representative) (y : Z) (key location : string) : pystac.Asset :=
  let href := asset_location root_href location in
  let title := if is_fnf r then "FNF" else key in
  if Str.endswith href ".xml" then
    {| pystac.href := href; pystac.media_type := pystac.XML;
       pystac.roles := ["metadata"]; pystac.title := title;
       pystac.extra_fields := [] |}
  else
    let bands : dict value :=
      match Dict.get (ALOS_BANDS co) key with
      | Some (e :: b) =>
          [("raster:bands",
            VList [pystac.RasterBand_create (nodata_for y key)
                     (Dict.get (e :: b) "data_type")])]
      | _ => []
      end in
    {| pystac.href := href; pystac.media_type := pystac.COG;
       pystac.roles := ["data"]; pystac.title := title;
       pystac.extra_fields :=
         if String.eqb key "C" then
           Dict.set bands "classification:classes"
             (ALOS_FNF_CLASSIFICATION_CLASSES co)
         else if String.eqb key "mask" then
           Dict.set bands "classification:classes"
             (ALOS_MASK_CLASSIFICATION_CLASSES co)
         else bands |}.

(** The platform and instrument entries an Item carries. *)
Definition item_pair (item : pystac.Item) : option (value * value) :=
  match Dict.get (pystac.properties item) "platform",
        Dict.get (pystac.properties item) "instruments" with
  | Some p, Some i => Some (p, i)
  | _, _ => None
  end.

(** The pair of generation [g] (0 for the first, 1 for the second) of the
    platform and instrument tables, as an Item carries it. *)
Definition generation_pair (co : constants) (g : nat)
    : option (value * value) :=
  match nth_error (ALOS_PALSAR_PLATFORMS co) g,
        nth_error (ALOS_PALSAR_INSTRUMENTS co) g with
  | Some p, Some i => Some (VStr p, VList [VStr i])
  | _, _ => None
  end.

(** Following the specification: the nodata value by acquisition year and
    band. *)
Definition spec_nodata (acquisition_year : Z) (key : string) : Z :=
  if (2017 <=? acquisition_year)%Z then
    if existsb (String.eqb key) ["HH"; "HV"; "linci"; "date"] then 1%Z
    else 0%Z
  else 0%Z.

(** ** The vocabulary of the further properties *)

(** The fields of an Item that [create_item] sets when it constructs the
    Item and never writes again. *)
Definition same_frame (i i' : pystac.Item) : Prop :=
  pystac.id i' = pystac.id i
  /\ pystac.geometry i' = pystac.geometry i
  /\ pystac.bbox i' = pystac.bbox i
  /\ pystac.item_datetime i' = pystac.item_datetime i
  /\ pystac.collection_id i' = pystac.collection_id i
  /\ pystac.links i' = pystac.links i.

(** The list of extensions once [e] is asked for. *)
Definition ext_list (e : pystac.extension) (l : list pystac.extension)
    : list pystac.extension :=
  if existsb (pystac.extension_eqb e) l then l else (l ++ [e])%list.

(** Whether an entry of the mapping becomes a raster-kind asset. *)
Definition raster_kind (root_href : string) (kv : string * string) : bool :=
  negb (Str.endswith (asset_location root_href (snd kv)) ".xml").

(** The directory [create_item_from_href] puts the siblings in: what comes
    before the last slash, or the whole location when it has no slash. *)
Definition directory_prefix (asset_href : string) : string :=
  match Str.rcut "/" asset_href with
  | Some (d, _) => d
  | None => asset_href
  end.

(** The location of the sibling of a kind (line 145). *)
Definition sibling (prefix filename_prefix kind code : string) : string :=
  (prefix ++ "/" ++ filename_prefix ++ "_" ++ kind ++ "_" ++ code ++ ".tif")%string.

(** The value [v] is one of those the summaries of a Collection list
    under [k]. *)
Definition summarised (c : pystac_collection.Collection) (k : string)
    (v : value) : Prop :=
  exists l, Dict.get (pystac_collection.summaries c) k = Some (VList l)
            /\ In v l.

(** The radar descriptor of a mosaic: the characters of its code, in the
    order mode, beam number (two characters), polarization count, orbit
    direction, observation side. *)
Record Descriptor : Type := {
  d_mode : ascii;
  d_beam1 : ascii;
  d_beam2 : ascii;
  d_polarizations : ascii;
  d_orbit : ascii;
  d_observation : ascii
}.

(** The descriptor a code starts with, when the pattern accepts it. *)
Definition descriptor_of (code : string) : option Descriptor :=
  match code with
  | String c0 (String c1 (String c2 (String c3 (String c4 (String c5 _))))) =>
      if re.class_matches (re.OneOf "F|U") c0
         && re.is_word c1 && re.is_word c2
         && re.class_matches (re.OneOf "D|Q") c3
         && re.class_matches (re.OneOf "A|D") c4
         && re.class_matches (re.OneOf "R|L") c5
      then Some {| d_mode := c0; d_beam1 := c1; d_beam2 := c2;
                   d_polarizations := c3; d_orbit := c4;
                   d_observation := c5 |}
      else None
  | _ => None
  end.

Definition chr (c : ascii) : string := String c EmptyString.

(** The properties the descriptor stage adds, in the order it adds
    them. *)
Definition descriptor_properties (co : constants) (d : Descriptor)
    : dict value :=
  [("sar:instrument_mode", VStr (chr (d_mode d)));
   ("sar:observation_direction",
    if String.eqb (chr (d_observation d)) "L"
    then pystac.ObservationDirection.LEFT
    else pystac.ObservationDirection.RIGHT);
   ("sar:frequency_band", ALOS_FREQUENCY_BAND co);
   ("sar:polarizations",
    if String.eqb (chr (d_polarizations d)) "D"
    then ALOS_DUAL_POLARIZATIONS co
    else ALOS_QUAD_POLARIZATIONS co);
   ("sar:product_type", ALOS_PRODUCT_TYPE co);
   ("cf", ALOS_PALSAR_CF co);
   ("sat:orbit_state",
    if String.eqb (chr (d_orbit d)) "A"
    then pystac.OrbitState.ASCENDING
    else pystac.OrbitState.DESCENDING);
   ("palsar:beam_number", VStr (String (d_beam1 d) (chr (d_beam2 d))));
   ("palsar:number_of_polarizations", VStr (chr (d_polarizations d)))].

(** What [create_item] reads to build an Item: the general parameters,
    the raster header, the parsed timestamp, the platform and instrument
    of the year, and the descriptor of a mosaic. *)
Record Ingredients : Type := {
  g_parameters : Representative;
  g_dataset : rasterio.DatasetReader;
  g_datetime : pystac.datetime;
  g_year : Z;
  g_platform : string;
  g_instrument : string;
  g_descriptor : option Descriptor
}.

Definition collection_of (r : Representative) : string :=
  if is_fnf r then "alos-fnf-mosaic" else "alos-palsar-mosaic".

(** The identifier of the Item (lines 199-216). *)
Definition item_id_of (r : Representative) : string :=
  (item_root r ++ if is_fnf r then "_FNF" else "_MOS")%string.

(** The properties of the Item, in insertion order. *)
Definition derived_properties (co : constants) (g : Ingredients)
    : dict value :=
  let r := g_parameters g in
  let ds := g_dataset g in
  ([("title", VStr (item_id_of r));
    ("description",
     VStr (if is_fnf r then "Forest/Non-Forest Classification"
           else "Annual PALSAR Mosaic"));
    ("start_datetime", VStr ("20" ++ year r ++ "-01-01T00:00:00Z")%string);
    ("end_datetime", VStr ("20" ++ year r ++ "-12-31T23:59:59Z")%string);
    ("platform", VStr (g_platform g));
    ("instruments", VList [VStr (g_instrument g)]);
    ("gsd", ALOS_PALSAR_GSD co);
    ("proj:epsg", ALOS_PALSAR_EPSG co);
    ("proj:bbox",
     VList (map VFloat (rasterio.bounds_list (rasterio.bounds ds))));
    ("proj:shape", VList (map VInt (rasterio.shape ds)));
    ("proj:transform", VList (map VFloat (rasterio.transform ds)))]
   ++ match g_descriptor g with
      | Some d => descriptor_properties co d
      | None => []
      end)%list.

(** The assets of the Item: each entry of the mapping, in turn, stored
    under its key. *)
Definition derived_assets (co : constants) (root_href : string)
    (r : Representative) (y : Z) (assets_hrefs : dict string)
    : dict pystac.Asset :=
  fold_left
    (fun d kv => Dict.set d (fst kv)
                   (asset_of co root_href r y (fst kv) (snd kv)))
    assets_hrefs [].

(** The Item [create_item] returns from its ingredients. *)
Definition derived_item (co : constants) (root_href : string)
    (assets_hrefs : dict string) (g : Ingredients) : pystac.Item :=
  let r := g_parameters g in
  {| pystac.id := item_id_of r;
     pystac.geometry := box_mapping (rasterio.bounds (g_dataset g));
     pystac.bbox := rasterio.bounds_list (rasterio.bounds (g_dataset g));
     pystac.item_datetime := g_datetime g;
     pystac.properties := derived_properties co g;
     pystac.stac_extensions :=
       ([pystac.ProjectionExtension]
        ++ (if is_fnf r then []
            else [pystac.SarExtension; pystac.SatExtension])
        ++ (if existsb (raster_kind root_href) assets_hrefs
            then [pystac.RasterExtension] else []))%list;
     pystac.collection_id := Some (collection_of r);
     pystac.links :=
       [ {| pystac.rel := "collection";
            pystac.target :=
              os_path.join root_href (collection_of r ++ ".json") |} ];
     pystac.assets := derived_assets co root_href r (g_year g) assets_hrefs |}.

(** The conditions under which [create_item] returns: each step that can
    raise does not. *)
Definition derivable (co : constants)
    (rasterio_open : string -> result rasterio.DatasetReader)
    (isoparse : string -> result pystac.datetime)
    (assets_hrefs : dict string)
    (read_href_modifier : option (string -> string)) (g : Ingredients)
    : Prop :=
  let r := g_parameters g in
  general_parameters assets_hrefs = Ok r
  /\ rasterio_open (modifier_of read_href_modifier (asset_href r))
     = Ok (g_dataset g)
  /\ (exists c, rasterio.crs (g_dataset g) = Some c
                /\ rasterio.to_epsg c = Some 4326%Z)
  /\ isoparse ("20" ++ year r ++ "-01-01T00:00:00Z")%string
     = Ok (g_datetime g)
  /\ PyInt.int (year r) = Ok (g_year g)
  /\ nth_error (ALOS_PALSAR_PLATFORMS co)
       (if (15 <=? g_year g)%Z then 1 else 0) = Some (g_platform g)
  /\ nth_error (ALOS_PALSAR_INSTRUMENTS co)
       (if (15 <=? g_year g)%Z then 1 else 0) = Some (g_instrument g)
  /\ (if is_fnf r then g_descriptor g = None
      else exists code d,
             list_last (Str.split "_" (filename r)) = Ok code
             /\ descriptor_of code = Some d
             /\ g_descriptor g = Some d).

(** An instance of the tables [create_collection] reads, for the
    examples. *)
Module ExampleCollection.

Definition cc : collection_constants := {|
  ALOS_PALSAR_PROVIDERS :=
    VList [VDict [("name", VStr "Japan Aerospace Exploration Agency")]];
  ALOS_FNF_DESCRIPTION := "Global 25 m resolution forest/non-forest map";
  ALOS_MOS_DESCRIPTION := "Global 25 m resolution PALSAR-2/PALSAR mosaic";
  ALOS_SPATIAL_EXTENT := VList [VList [VInt (-180); VInt (-56);
                                       VInt 180; VInt 85]];
  ALOS_FNF_TEMPORAL_EXTENT := VList [VStr "2015-01-01T00:00:00Z"; VNone];
  ALOS_MOS_TEMPORAL_EXTENT := VList [VStr "2015-01-01T00:00:00Z"; VNone];
  ALOS_FNF_ASSETS := VDict [("C", VDict [("title", VStr "FNF")])];
  ALOS_MOS_ASSETS := VDict [("HH", VDict [("title", VStr "HH")])];
  ALOS_FNF_REVISION := VStr "I";
  ALOS_MOS_REVISION := VStr "M";
  ALOS_FNF_LINKS := [];
  ALOS_MOS_LINKS := []
|}.

End ExampleCollection.

(** What an Asset holds besides its location. *)
Definition asset_content (a : pystac.Asset)
    : pystac.MediaType * list string * string * dict value :=
  (pystac.media_type a, pystac.roles a, pystac.title a,
   pystac.extra_fields a).

(** * Properties *)

Unset Implicit Arguments.

(** ** Strings *)

Section StringFacts.

Lemma chr_eqb_eq (a b : ascii) : Str.chr_eqb a b = true <-> a = b.
Proof. unfold Str.chr_eqb. apply Ascii.eqb_eq. Qed.

Lemma chr_eqb_refl (a : ascii) : Str.chr_eqb a a = true.
Proof. apply chr_eqb_eq. reflexivity. Qed.

(** A name cannot end in [.xml] and in [_C.tif]. *)
Lemma endswith_xml_not_tif (s : string) :
  Str.endswith s ".xml" = true -> Str.endswith s "_C.tif" = false.
Proof.
  unfold Str.endswith.
  change (Str.rev ".xml") with "lmx.".
  change (Str.rev "_C.tif") with "fit.C_".
  destruct (Str.rev s) as [|c r]; simpl; [discriminate|].
  intros H. apply andb_true_iff in H. destruct H as [H _].
  apply chr_eqb_eq in H. subst c. reflexivity.
Qed.

(** [rcut] finds no cut exactly when the separator does not occur. *)
Lemma rcut_none (sep : ascii) (s : string) :
  Str.rcut sep s = None <-> Str.mem sep s = false.
Proof.
  induction s as [|c r IH]; simpl.
  - tauto.
  - destruct (Str.rcut sep r) as [[p q]|].
    + split; [discriminate|].
      intros H. apply orb_false_iff in H. destruct H as [_ H].
      apply IH in H. discriminate.
    + destruct (Str.chr_eqb c sep); simpl.
      * split; discriminate.
      * split; intros _; [apply IH|]; reflexivity.
Qed.

(** A cut splits the string at a separator that does not occur again. *)
Lemma rcut_some (sep : ascii) (s p q : string) :
  Str.rcut sep s = Some (p, q) ->
  s = (p ++ String sep q)%string /\ Str.mem sep q = false.
Proof.
  revert p q. induction s as [|c r IH]; simpl; intros p q H.
  - discriminate.
  - destruct (Str.rcut sep r) as [[p' q']|] eqn:E.
    + injection H as <- <-. destruct (IH _ _ eq_refl) as [-> Hq].
      split; [reflexivity|assumption].
    + destruct (Str.chr_eqb c sep) eqn:Ec; [|discriminate].
      injection H as <- <-. apply chr_eqb_eq in Ec. subst c.
      split; [reflexivity|]. apply rcut_none. assumption.
Qed.

Lemma rsplit1_unpacks (sep : ascii) (s : string) :
  (Str.mem sep s = false /\ unpack2 (Str.rsplit1 sep s) = Err (ValueError_unpack 2 1))
  \/ (exists p q, Str.rcut sep s = Some (p, q)
                  /\ unpack2 (Str.rsplit1 sep s) = Ok (p, q)).
Proof.
  unfold Str.rsplit1. destruct (Str.rcut sep s) as [[p q]|] eqn:E.
  - right. exists p, q. split; reflexivity.
  - left. split; [apply rcut_none; assumption|reflexivity].
Qed.

Lemma mem_app (c : ascii) (a b : string) :
  Str.mem c (a ++ b) = Str.mem c a || Str.mem c b.
Proof.
  induction a as [|x a IH]; simpl; [reflexivity|].
  rewrite IH. apply orb_assoc.
Qed.

(** A string of at least [n + 1] characters has a character at [n]. *)
Lemma get_in_range (s : string) (n : nat) :
  n < String.length s -> exists c, Str.get s n = Some c.
Proof.
  revert n. induction s as [|x s IH]; simpl; intros n H; [lia|].
  destruct n as [|n]; [exists x; reflexivity|].
  apply IH. lia.
Qed.

Lemma get_out_of_range (s : string) (n : nat) :
  String.length s <= n -> Str.get s n = None.
Proof.
  revert n. induction s as [|x s IH]; simpl; intros n H; [reflexivity|].
  destruct n as [|n]; [lia|]. apply IH. lia.
Qed.

Lemma get_some_in_range (s : string) (n : nat) (c : ascii) :
  Str.get s n = Some c -> n < String.length s.
Proof.
  intros H. destruct (Nat.lt_ge_cases n (String.length s)) as [L|G];
    [assumption|].
  rewrite (get_out_of_range _ _ G) in H. discriminate.
Qed.

(** The cut of a string at a separator that does not occur after it. *)
Lemma rcut_app (sep : ascii) (p q : string) :
  Str.mem sep q = false ->
  Str.rcut sep (p ++ String sep q) = Some (p, q).
Proof.
  intros H. induction p as [|c p IH]; simpl.
  - apply rcut_none in H. rewrite H, chr_eqb_refl. reflexivity.
  - rewrite IH. reflexivity.
Qed.

(** A basename contains no slash. *)
Lemma basename_no_slash (p : string) :
  Str.mem "/" (os_path.basename p) = false.
Proof.
  unfold os_path.basename.
  destruct (Str.rcut "/" p) as [[a b]|] eqn:E.
  - apply rcut_some in E. apply E.
  - apply rcut_none. exact E.
Qed.

End StringFacts.

(** ** The Filename/Asset Grouper *)

Section Grouper.

Lemma unrecognised_raises (asset_href : string) :
  recognised asset_href = false ->
  assets_hrefs_of asset_href = Err ValueError_unknown_type.
Proof.
  unfold recognised, assets_hrefs_of. intros H.
  apply orb_false_iff in H. destruct H as [-> ->]. reflexivity.
Qed.

(** On an [.xml] name the Grouper is the [elif] branch. *)
Lemma assets_hrefs_of_xml (asset_href : string) :
  Str.endswith (os_path.basename asset_href) ".xml" = true ->
  assets_hrefs_of asset_href =
    (prefix <- list_index (Str.rsplit1 "/" asset_href) 0 ;;
     ' (filename_prefix, filename_suffix) <-
       unpack2 (Str.rsplit1 "_" (os_path.basename asset_href)) ;;
     let filename_suffix := fst (os_path.splitext filename_suffix) in
     q <- str_index filename_suffix 3 ;;
     Ok (Dict.set
           (Dict.comprehension kind_key
              (fun kind => (prefix ++ "/" ++ filename_prefix ++ "_" ++ kind
                            ++ "_" ++ filename_suffix ++ ".tif")%string)
              (if String.eqb q "Q"
               then ["date"; "linci"; "mask"; "sl_HH"; "sl_HV"]
                      ++ ["sl_VH"; "sl_VV"]
               else ["date"; "linci"; "mask"; "sl_HH"; "sl_HV"]))
           "metadata" asset_href))%result.
Proof.
  intros H. unfold assets_hrefs_of.
  rewrite (endswith_xml_not_tif _ H), H. reflexivity.
Qed.

Lemma rsplit1_first (sep : ascii) (s : string) :
  exists prefix, list_index (Str.rsplit1 sep s) 0 = Ok prefix.
Proof.
  unfold Str.rsplit1. destruct (Str.rcut sep s) as [[p q]|]; eexists; reflexivity.
Qed.

Lemma recognised_not_unknown (asset_href : string) :
  recognised asset_href = true ->
  assets_hrefs_of asset_href <> Err ValueError_unknown_type.
Proof.
  unfold recognised. intros H.
  destruct (Str.endswith (os_path.basename asset_href) "_C.tif") eqn:Et.
  - unfold assets_hrefs_of. rewrite Et. discriminate.
  - simpl in H. rewrite (assets_hrefs_of_xml _ H).
    destruct (rsplit1_first "/" asset_href) as [prefix ->]. simpl.
    destruct (rsplit1_unpacks "_" (os_path.basename asset_href))
      as [[_ ->]|(p & q & _ & ->)]; simpl; [discriminate|].
    destruct (str_index (fst (os_path.splitext q)) 3) as [c|e] eqn:Ei; simpl.
    + discriminate.
    + unfold str_index in Ei.
      destruct (Str.get (fst (os_path.splitext q)) 3); [discriminate|].
      injection Ei as <-. discriminate.
Qed.

(** What the Grouper does on an [.xml] name, by the mode code. *)
Lemma assets_hrefs_of_xml_cases (asset_href : string) :
  Str.endswith (os_path.basename asset_href) ".xml" = true ->
  match mode_code (os_path.basename asset_href) with
  | None =>
      Str.mem "_" (os_path.basename asset_href) = false
      /\ assets_hrefs_of asset_href = Err (ValueError_unpack 2 1)
  | Some code =>
      match Str.get code 3 with
      | None => assets_hrefs_of asset_href = Err IndexError_string
      | Some c =>
          exists d, assets_hrefs_of asset_href = Ok d
                    /\ Dict.keys d =
                       if Str.chr_eqb c "Q" then quad_keys else dual_keys
      end
  end.
Proof.
  intros H. rewrite (assets_hrefs_of_xml _ H). unfold mode_code.
  destruct (rsplit1_first "/" asset_href) as [prefix ->].
  destruct (rsplit1_unpacks "_" (os_path.basename asset_href))
    as [[Hm ->]|(p & q & Hc & ->)].
  - apply rcut_none in Hm. rewrite Hm. split; [|reflexivity].
    apply rcut_none. assumption.
  - rewrite Hc. cbn [rbind fst]. unfold str_index.
    destruct (Str.get (fst (os_path.splitext q)) 3) as [c|]; [|reflexivity].
    cbn [rbind]. eexists. split; [reflexivity|].
    replace (String.eqb (String c EmptyString) "Q") with (Str.chr_eqb c "Q").
    + destruct (Str.chr_eqb c "Q"); reflexivity.
    + unfold Str.chr_eqb. simpl.
      destruct (Ascii.eqb c "Q"); reflexivity.
Qed.

(** The mode code of a name [<prefix>_<token>.xml]: the token, unless the
    token is made of dots only, in which case [os.path.splitext] finds no
    extension and the mode code is the token with [.xml]. *)
Lemma mode_code_of_stem (pre tok : string) :
  Str.mem "_" tok = false ->
  Str.mem "/" tok = false ->
  mode_code (pre ++ "_" ++ tok ++ ".xml")
  = Some (if Str.all_chars os_path.is_dot tok then (tok ++ ".xml")%string
          else tok).
Proof.
  intros Hu Hs. unfold mode_code.
  change (pre ++ "_" ++ tok ++ ".xml")%string
    with (pre ++ String "_" (tok ++ ".xml"))%string.
  rewrite rcut_app by (rewrite mem_app, Hu; reflexivity).
  unfold os_path.splitext.
  change (tok ++ ".xml")%string with (tok ++ String "." "xml")%string.
  rewrite rcut_app by reflexivity.
  cbn [Str.mem Str.chr_eqb Ascii.eqb Bool.eqb orb].
  unfold os_path.basename.
  apply rcut_none in Hs. rewrite Hs.
  destruct (Str.all_chars os_path.is_dot tok); reflexivity.
Qed.

(** The fourth character of [<dots>.xml], for a token made of dots, or
    empty: it is never [Q]. *)
Lemma fourth_of_dots (tok : string) :
  Str.all_chars os_path.is_dot tok = true ->
  exists c, Str.get (tok ++ ".xml") 3 = Some c
            /\ Str.chr_eqb c "Q" = false.
Proof.
  intros H.
  destruct tok as [|c0 [|c1 [|c2 [|c3 rest]]]];
    try (eexists; split; reflexivity).
  cbn [Str.all_chars] in H.
  apply andb_prop in H. destruct H as [_ H].
  apply andb_prop in H. destruct H as [_ H].
  apply andb_prop in H. destruct H as [_ H].
  apply andb_prop in H. destruct H as [H _].
  unfold os_path.is_dot in H. apply chr_eqb_eq in H. subst c3.
  eexists. split; reflexivity.
Qed.

(** On a name [<prefix>_<token>.xml] the Grouper returns a mapping exactly
    when the token has four characters or is made of dots only, and it
    fails the indexing of line 140 otherwise. *)
Lemma assets_hrefs_of_token (asset_href pre tok : string) :
  Str.endswith (os_path.basename asset_href) ".xml" = true ->
  os_path.basename asset_href = (pre ++ "_" ++ tok ++ ".xml")%string ->
  Str.mem "_" tok = false ->
  (Str.all_chars os_path.is_dot tok = true ->
   exists d, assets_hrefs_of asset_href = Ok d /\ Dict.keys d = dual_keys)
  /\ (Str.all_chars os_path.is_dot tok = false ->
      4 <= String.length tok ->
      exists d, assets_hrefs_of asset_href = Ok d)
  /\ (Str.all_chars os_path.is_dot tok = false ->
      String.length tok < 4 ->
      assets_hrefs_of asset_href = Err IndexError_string).
Proof.
  intros Hx E Hu.
  assert (Hs : Str.mem "/" tok = false).
  { pose proof (basename_no_slash asset_href) as N. rewrite E in N.
    rewrite !mem_app in N. apply orb_false_iff in N. destruct N as [_ N].
    apply orb_false_iff in N. destruct N as [_ N].
    apply orb_false_iff in N. apply N. }
  pose proof (assets_hrefs_of_xml_cases _ Hx) as C.
  rewrite E, (mode_code_of_stem pre tok Hu Hs) in C.
  split; [|split].
  - intros Hd. rewrite Hd in C.
    destruct (fourth_of_dots tok Hd) as (c & G & Q).
    rewrite G, Q in C. exact C.
  - intros Hd L. rewrite Hd in C.
    destruct (get_in_range tok 3) as [c G]; [lia|].
    rewrite G in C. destruct C as (d & Hok & _). exists d. exact Hok.
  - intros Hd L. rewrite Hd in C.
    rewrite (get_out_of_range tok 3) in C by lia. exact C.
Qed.

(** A name that ends in [_.xml] has the mode code [.xml]: there is no
    extension for [os.path.splitext] to strip from a name that starts with
    its last dot, and the Grouper reads the fourth character [l]. *)
Remark mode_code_of_dot_name :
  mode_code "N05E100_15_.xml" = Some ".xml"
  /\ exists d, assets_hrefs_of "tiles/N05E100_15_.xml" = Ok d
               /\ Dict.keys d = dual_keys.
Proof.
  split; [reflexivity|]. eexists. split; [vm_compute; reflexivity|reflexivity].
Qed.

(** The unpacking failure and the unsupported-format error are both of the
    class [ValueError]; the index failure is not. *)
Remark grouper_error_classes :
  class_of (ValueError_unpack 2 1) = class_of ValueError_unknown_type
  /\ class_of IndexError_string <> class_of ValueError_unknown_type.
Proof. split; [reflexivity|discriminate]. Qed.

End Grouper.

(** ** The filename descriptor *)

Section Descriptor.

(** [FILENAME_PARTS.match] reads six characters and nothing else. *)
Lemma match_FILENAME_PARTS (s : string) :
  re.match_ FILENAME_PARTS s =
  match s with
  | String m (String b1 (String b2 (String p (String o (String d _))))) =>
      if re.class_matches (re.OneOf "F|U") m
         && re.is_word b1 && re.is_word b2
         && re.class_matches (re.OneOf "D|Q") p
         && re.class_matches (re.OneOf "A|D") o
         && re.class_matches (re.OneOf "R|L") d
      then Some [("MODE", String m "");
                 ("BEAM_NUMBER", String b1 (String b2 ""));
                 ("POLARIZATIONS", String p "");
                 ("ORBIT", String o "");
                 ("OBSERVATION", String d "")]
      else None
  | _ => None
  end.
Proof.
  unfold FILENAME_PARTS.
  change re.is_word with (re.class_matches re.Word).
  destruct s as [|m [|b1 [|b2 [|p [|o [|d rest]]]]]];
    cbn [re.match_ re.take_class re.class re.count re.name];
    repeat match goal with
           | |- context [re.class_matches ?k ?c] =>
               destruct (re.class_matches k c);
               cbn [re.match_ re.take_class re.class re.count re.name andb]
           end;
    reflexivity.
Qed.

(** Without the bar, a bracket expression [[x|y]] is the class [[xy]]. *)
Lemma bar_class (c x y : ascii) :
  c <> "|"%char ->
  re.class_matches (re.OneOf (String x (String "|" (String y ""))))  c
  = Str.mem c (String x (String y "")).
Proof.
  intros N. simpl.
  destruct (Str.chr_eqb "|" c) eqn:E.
  - apply chr_eqb_eq in E. congruence.
  - reflexivity.
Qed.

(** Without the underscore, an ASCII word character is alphanumeric. *)
Lemma word_class (c : ascii) :
  is_ascii c = true -> c <> "_"%char ->
  re.is_word c = re.is_ascii_alnum c.
Proof.
  intros A N. unfold re.is_word.
  assert (L : re.is_latin1_alnum c = false).
  { unfold is_ascii in A. apply N.ltb_lt in A.
    unfold re.is_latin1_alnum, re.in_range.
    repeat match goal with
           | |- context [(?a <=? N_of_ascii c)%N] =>
               replace (a <=? N_of_ascii c)%N with false
                 by (symmetry; apply N.leb_gt; lia)
           end.
    reflexivity. }
  assert (U : Str.chr_eqb c "_" = false).
  { destruct (Str.chr_eqb c "_") eqn:E; [|reflexivity].
    apply chr_eqb_eq in E. congruence. }
  rewrite L, U, !orb_false_r. reflexivity.
Qed.

Lemma mem_cons_false (c x : ascii) (s : string) :
  Str.mem c (String x s) = false -> x <> c /\ Str.mem c s = false.
Proof.
  simpl. intros H. apply orb_false_iff in H. destruct H as [E M].
  split; [|assumption]. intros ->. rewrite chr_eqb_refl in E. discriminate.
Qed.

End Descriptor.

Section DescriptorParse.

Lemma all_ascii_cons (c : ascii) (s : string) :
  Str.all_chars is_ascii (String c s) = true ->
  is_ascii c = true /\ Str.all_chars is_ascii s = true.
Proof. simpl. intros H. apply andb_true_iff in H. exact H. Qed.

(** On ASCII text without bar and underscore, the pattern of the code and
    the pattern of the specification accept the same strings. *)
Lemma match_iff_spec_code_prefix (code : string) :
  Str.all_chars is_ascii code = true ->
  Str.mem "|" code = false ->
  Str.mem "_" code = false ->
  ((exists m, re.match_ FILENAME_PARTS code = Some m)
   <-> spec_code_prefix code = true).
Proof.
  intros A B U. rewrite match_FILENAME_PARTS.
  destruct code as [|m [|b1 [|b2 [|p [|o [|d rest]]]]]];
    try (split; [intros [? ?]|]; discriminate).
  repeat match goal with
         | H : Str.all_chars is_ascii (String _ _) = true |- _ =>
             apply all_ascii_cons in H; destruct H as [? ?]
         | H : Str.mem _ (String _ _) = false |- _ =>
             apply mem_cons_false in H; destruct H as [? ?]
         end.
  rewrite !bar_class by congruence.
  rewrite !word_class by (assumption || congruence).
  unfold spec_code_prefix.
  destruct (Str.mem m "FU" && re.is_ascii_alnum b1 && re.is_ascii_alnum b2
            && Str.mem p "DQ" && Str.mem o "AD" && Str.mem d "RL").
  - split; [reflexivity|]. intros _. eexists. reflexivity.
  - split; [intros [? ?]|]; discriminate.
Qed.

Lemma short_code_rejected (code : string) :
  String.length code < 6 -> re.match_ FILENAME_PARTS code = None.
Proof.
  intros L. rewrite match_FILENAME_PARTS.
  destruct code as [|m [|b1 [|b2 [|p [|o [|d rest]]]]]];
    try reflexivity.
  simpl in L. lia.
Qed.

End DescriptorParse.

(** ** Dictionaries *)

Section DictFacts.

Context {V : Type}.

Lemma get_set_same (d : dict V) (k : string) (v : V) :
  Dict.get (Dict.set d k v) k = Some v.
Proof.
  induction d as [|[k' v'] d IH]; simpl.
  - rewrite String.eqb_refl. reflexivity.
  - destruct (String.eqb k' k) eqn:E; simpl.
    + rewrite String.eqb_refl. reflexivity.
    + rewrite E. exact IH.
Qed.

Lemma get_set_other (d : dict V) (k k' : string) (v : V) :
  k <> k' -> Dict.get (Dict.set d k v) k' = Dict.get d k'.
Proof.
  intros N. induction d as [|[k0 v0] d IH]; simpl.
  - apply String.eqb_neq in N. rewrite N. reflexivity.
  - destruct (String.eqb k0 k) eqn:E; simpl.
    + apply String.eqb_eq in E. subst k0.
      apply String.eqb_neq in N. rewrite N. reflexivity.
    + destruct (String.eqb k0 k'); [reflexivity|exact IH].
Qed.

Lemma set_set (d : dict V) (k : string) (v w : V) :
  Dict.set (Dict.set d k v) k w = Dict.set d k w.
Proof.
  induction d as [|[k' v'] d IH]; simpl.
  - rewrite String.eqb_refl. reflexivity.
  - destruct (String.eqb k' k) eqn:E; simpl.
    + rewrite String.eqb_refl. reflexivity.
    + rewrite E, IH. reflexivity.
Qed.

End DictFacts.

(** ** The stages of [create_item] *)

Section Stages.

Variable co : constants.
Variable rasterio_open : string -> result rasterio.DatasetReader.
Variable isoparse : string -> result pystac.datetime.

(** [create_item], stage by stage. *)
Lemma create_item_stages (assets_hrefs : dict string) (root_href : string)
    (read_href_modifier : option (string -> string)) :
  create_item co rasterio_open isoparse assets_hrefs root_href
    read_href_modifier =
  match general_parameters assets_hrefs with
  | Err e => Raised e None
  | Ok r =>
      match read_raster rasterio_open (modifier_of read_href_modifier)
              (asset_href r) with
      | Err e => Raised e None
      | Ok ra =>
          match new_item isoparse root_href r ra with
          | Err e => Raised e None
          | Ok (item, collection) =>
              match set_common_metadata co (year r) item with
              | (Err e, i1) => Raised e (Some i1)
              | (Ok _, i1) =>
                  match set_projection co ra i1 with
                  | (Err e, i2) => Raised e (Some i2)
                  | (Ok _, i2) =>
                      match set_sar co collection r i2 with
                      | (Err e, i3) => Raised e (Some i3)
                      | (Ok _, i3) =>
                          match for_each assets_hrefs
                                  (add_one_asset co root_href r) i3 with
                          | (Err e, i4) => Raised e (Some i4)
                          | (Ok _, i4) => Returned i4
                          end
                      end
                  end
              end
          end
      end
  end.
Proof.
  unfold create_item, modifier_of, rbind, mbind.
  destruct (general_parameters assets_hrefs) as [r|e]; [|reflexivity].
  destruct (read_raster rasterio_open _ (asset_href r)) as [ra|e];
    [|reflexivity].
  destruct (new_item isoparse root_href r ra) as [[item collection]|e];
    [|reflexivity].
  destruct (set_common_metadata co (year r) item) as [[u|e] i1];
    [|reflexivity].
  destruct (set_projection co ra i1) as [[u2|e] i2]; [|reflexivity].
  destruct (set_sar co collection r i2) as [[u3|e] i3]; [|reflexivity].
  reflexivity.
Qed.

(** The general parameters fail by indexing a list only: once the third
    token exists the starred unpacking of line 183 has its two names. *)
Lemma general_parameters_error (assets_hrefs : dict string) (e : exn) :
  general_parameters assets_hrefs = Err e -> e = IndexError_list.
Proof.
  clear co rasterio_open isoparse.
  unfold general_parameters. intros H.
  destruct (list_index (Dict.values assets_hrefs) 0) as [h|e0] eqn:Eh.
  2:{ cbn [rbind] in H. injection H as <-. unfold list_index in Eh.
      destruct (nth_error (Dict.values assets_hrefs) 0); [discriminate|].
      injection Eh as <-. reflexivity. }
  cbn [rbind] in H.
  destruct (list_index (Str.split "_" (os_path.basename h)) 1)
    as [y|e1] eqn:Ey.
  2:{ cbn [rbind] in H. injection H as <-. unfold list_index in Ey.
      destruct (nth_error (Str.split "_" (os_path.basename h)) 1);
        [discriminate|].
      injection Ey as <-. reflexivity. }
  cbn [rbind] in H.
  destruct (list_index
              (Str.split "_" (os_path.basename (fst (os_path.splitext h)))) 2)
    as [band|e2] eqn:Eb.
  2:{ cbn [rbind] in H. injection H as <-. unfold list_index in Eb.
      destruct (nth_error
                  (Str.split "_"
                     (os_path.basename (fst (os_path.splitext h)))) 2);
        [discriminate|].
      injection Eb as <-. reflexivity. }
  cbn [rbind] in H.
  destruct (String.eqb band "C"); [discriminate|].
  exfalso. unfold list_index in Eb.
  assert (L : 2 < List.length
                    (Str.split "_"
                       (os_path.basename (fst (os_path.splitext h))))).
  { apply nth_error_Some.
    destruct (nth_error
                (Str.split "_"
                   (os_path.basename (fst (os_path.splitext h)))) 2);
      discriminate. }
  unfold unpack_star2 in H. rewrite <- length_rev in L.
  destruct (rev (Str.split "_"
                   (os_path.basename (fst (os_path.splitext h)))))
    as [|b [|u a]]; cbn in L; try lia.
  discriminate.
Qed.

(** The raster stage: the CRS test. *)
Lemma read_raster_not_4326 (m : string -> string) (href : string)
    (ds : rasterio.DatasetReader) (c : rasterio.CRS) :
  rasterio_open (m href) = Ok ds ->
  rasterio.crs ds = Some c ->
  rasterio.to_epsg c <> Some 4326%Z ->
  read_raster rasterio_open m href = Err (ValueError_not_epsg4326 href).
Proof.
  intros Ho Hc Hn. unfold read_raster. rewrite Ho. simpl. rewrite Hc. simpl.
  destruct (rasterio.to_epsg c) as [z|]; simpl; [|reflexivity].
  destruct (Z.eqb_spec z 4326); [|reflexivity].
  subst z. exfalso. apply Hn. reflexivity.
Qed.

(** The first asset is the one [general_parameters] reads. *)
Lemma general_parameters_first (assets_hrefs : dict string)
    (r : Representative) :
  general_parameters assets_hrefs = Ok r ->
  list_index (Dict.values assets_hrefs) 0 = Ok (asset_href r)
  /\ filename r = os_path.basename (fst (os_path.splitext (asset_href r)))
  /\ list_index (Str.split "_" (os_path.basename (asset_href r))) 1
     = Ok (year r)
  /\ exists band,
       list_index (Str.split "_" (filename r)) 2 = Ok band
       /\ is_fnf r = String.eqb band "C".
Proof.
  unfold general_parameters. intros H.
  destruct (list_index (Dict.values assets_hrefs) 0) as [h|] eqn:Eh;
    [|discriminate].
  cbn [rbind] in H.
  destruct (list_index (Str.split "_" (os_path.basename h)) 1) as [y|] eqn:Ey;
    [|discriminate].
  cbn [rbind] in H.
  destruct (list_index
              (Str.split "_" (os_path.basename (fst (os_path.splitext h)))) 2)
    as [band|] eqn:Eb; [|discriminate].
  cbn [rbind] in H.
  assert (G : forall root,
             Ok {| asset_href := h;
                   filename := os_path.basename (fst (os_path.splitext h));
                   year := y; is_fnf := String.eqb band "C";
                   item_root := root |} = Ok r ->
             Ok h = Ok (asset_href r)
             /\ filename r
                = os_path.basename (fst (os_path.splitext (asset_href r)))
             /\ list_index (Str.split "_" (os_path.basename (asset_href r))) 1
                = Ok (year r)
             /\ exists band,
                  list_index (Str.split "_" (filename r)) 2 = Ok band
                  /\ is_fnf r = String.eqb band "C").
  { intros root E. injection E as <-. cbn.
    do 2 (split; [reflexivity|]). split; [exact Ey|].
    exists band. split; [exact Eb|reflexivity]. }
  destruct (String.eqb band "C").
  - cbn [rbind] in H. exact (G _ H).
  - destruct (unpack_star2
                (Str.split "_" (os_path.basename (fst (os_path.splitext h)))))
      as [[[a u] b]|]; [|discriminate].
    cbn [rbind] in H. exact (G _ H).
Qed.

(** The Item as constructed has four properties, no extension and no
    asset. *)
Lemma new_item_shape (root_href : string) (r : Representative) (ra : Raster)
    (item : pystac.Item) (collection : string) :
  new_item isoparse root_href r ra = Ok (item, collection) ->
  exists band,
    list_index (Str.split "_" (filename r)) 2 = Ok band
    /\ collection = (if String.eqb band "C" then "alos-fnf-mosaic"
                     else "alos-palsar-mosaic")
    /\ Dict.keys (pystac.properties item)
       = ["title"; "description"; "start_datetime"; "end_datetime"]
    /\ pystac.stac_extensions item = []
    /\ pystac.assets item = [].
Proof.
  unfold new_item. intros H.
  destruct (list_index (Str.split "_" (filename r)) 2) as [band|];
    [|discriminate].
  exists band. split; [reflexivity|]. cbn [rbind] in H.
  destruct (String.eqb band "C");
    (destruct (isoparse _) as [dt|]; [|discriminate]);
    cbn [rbind] in H; injection H as <- <-; repeat split.
Qed.

(** The platform stage: the entry of each table that the year selects. *)
Lemma set_common_metadata_run (year : string) (y : Z)
    (i i1 : pystac.Item) :
  PyInt.int year = Ok y ->
  set_common_metadata co year i = (Ok tt, i1) ->
  exists p ins,
    nth_error (ALOS_PALSAR_PLATFORMS co) (if (15 <=? y)%Z then 1 else 0)
    = Some p
    /\ nth_error (ALOS_PALSAR_INSTRUMENTS co) (if (15 <=? y)%Z then 1 else 0)
       = Some ins
    /\ i1 = pystac.set_property "gsd" (ALOS_PALSAR_GSD co)
              (pystac.set_property "instruments" (VList [VStr ins])
                 (pystac.set_property "platform" (VStr p) i)).
Proof.
  intros Hy. unfold set_common_metadata, mbind, lift, modify, list_index.
  rewrite Hy.
  destruct (15 <=? y)%Z;
    (destruct (nth_error (ALOS_PALSAR_PLATFORMS co) _) as [p|];
       [|discriminate]);
    (destruct (nth_error (ALOS_PALSAR_INSTRUMENTS co) _) as [ins|];
       [|discriminate]);
    intros H; injection H as <-; exists p, ins; repeat split.
Qed.

Lemma set_projection_run (ra : Raster) (i : pystac.Item) :
  exists i2,
    set_projection co ra i = (Ok tt, i2)
    /\ pystac.assets i2 = pystac.assets i
    /\ forall k, In k ["platform"; "instruments"] ->
                 Dict.get (pystac.properties i2) k
                 = Dict.get (pystac.properties i) k.
Proof.
  eexists. split; [reflexivity|]. split; [reflexivity|].
  intros k [<-|[<-|[]]]; cbn [pystac.properties pystac.set_property
    pystac.with_properties pystac.ext pystac.with_stac_extensions];
    rewrite !get_set_other by discriminate; reflexivity.
Qed.

(** The descriptor stage leaves the platform, the instruments and the
    assets as they are, whether it raises or not. *)
Lemma set_sar_keeps (collection : string) (r : Representative)
    (i i3 : pystac.Item) (res : result unit) :
  set_sar co collection r i = (res, i3) ->
  pystac.assets i3 = pystac.assets i
  /\ forall k, In k ["platform"; "instruments"] ->
               Dict.get (pystac.properties i3) k
               = Dict.get (pystac.properties i) k.
Proof.
  unfold set_sar, mbind, lift, modify, mret. intros H.
  destruct (String.eqb collection "alos-palsar-mosaic");
    [|injection H as <- <-; split; [reflexivity|intros; reflexivity]].
  repeat match type of H with
         | context [match ?x with Ok _ => _ | Err _ => _ end] => destruct x
         | context [match ?x with Some _ => _ | None => _ end] => destruct x
         end;
    injection H as <- <-;
    (split; [reflexivity|]);
    intros k [<-|[<-|[]]];
    cbn [pystac.properties pystac.set_property pystac.with_properties
         pystac.ext pystac.with_stac_extensions];
    rewrite ?get_set_other by discriminate; reflexivity.
Qed.

(** The descriptor stage of a mosaic whose code the pattern rejects: the
    malformed-code error, with no descriptor field set. *)
Lemma set_sar_rejects (r : Representative) (i : pystac.Item) (code : string) :
  list_last (Str.split "_" (filename r)) = Ok code ->
  re.match_ FILENAME_PARTS code = None ->
  set_sar co "alos-palsar-mosaic" r i
  = (Err (ValueError_pattern (filename r) (asset_href r)),
     pystac.ext pystac.SatExtension (pystac.ext pystac.SarExtension i)).
Proof.
  intros Hc Hm. unfold set_sar, mbind, lift, modify.
  cbn [String.eqb Ascii.eqb Bool.eqb]. rewrite Hc, Hm. reflexivity.
Qed.

(** One turn of the loop stores [asset_of] under the key and leaves the
    properties as they are. *)
Lemma add_one_asset_run (root_href : string) (r : Representative) (y : Z)
    (key location : string) (i : pystac.Item) :
  PyInt.int (year r) = Ok y ->
  exists i',
    add_one_asset co root_href r (key, location) i = (Ok tt, i')
    /\ pystac.properties i' = pystac.properties i
    /\ pystac.assets i'
       = Dict.set (pystac.assets i) key
           (asset_of co root_href r y key location).
Proof.
  intros Hy. unfold add_one_asset, asset_of, asset_location.
  set (href := if (0 <? String.length root_href)%nat
               then os_path.join root_href (os_path.basename location)
               else location).
  destruct (Str.endswith href ".xml");
    unfold mbind, modify, get_item, lift, mret, Dict.item;
    cbn [pystac.assets pystac.add_asset pystac.with_assets];
    rewrite get_set_same; cbn [pystac.media_type pystac.MediaType_eqb].
  - eexists. split; [reflexivity|]. split; reflexivity.
  - rewrite Hy.
    destruct (Dict.get (ALOS_BANDS co) key) as [[|e b]|];
      cbn [truthy_dict];
      destruct (String.eqb key "C"); try destruct (String.eqb key "mask");
      (eexists; split; [reflexivity|]; split; [reflexivity|]);
      cbn [pystac.assets pystac.update_asset pystac.with_assets pystac.ext
           pystac.with_stac_extensions pystac.add_asset];
      rewrite ?get_set_same, ?set_set;
      cbn [pystac.with_extra_fields pystac.extra_fields pystac.href
           pystac.media_type pystac.roles pystac.title];
      rewrite ?get_set_same, ?set_set;
      cbn [pystac.with_extra_fields pystac.extra_fields pystac.href
           pystac.media_type pystac.roles pystac.title];
      reflexivity.
Qed.

(** The loop over the assets: it does not raise once the year has been
    read, it leaves the properties as they are, and it stores under each
    key of the mapping the Asset of that key. *)
Lemma add_assets_run (root_href : string) (r : Representative) (y : Z)
    (l : dict string) :
  PyInt.int (year r) = Ok y ->
  forall i,
  exists i',
    for_each l (add_one_asset co root_href r) i = (Ok tt, i')
    /\ pystac.properties i' = pystac.properties i
    /\ (forall k, ~ In k (Dict.keys l) ->
                  Dict.get (pystac.assets i') k = Dict.get (pystac.assets i) k)
    /\ (NoDup (Dict.keys l) ->
        forall k v, In (k, v) l ->
                    Dict.get (pystac.assets i') k
                    = Some (asset_of co root_href r y k v)).
Proof.
  clear rasterio_open isoparse.
  intros Hy. induction l as [|[k0 v0] l IH]; intros i.
  - exists i. split; [reflexivity|]. split; [reflexivity|].
    split; [reflexivity|]. intros _ k v [].
  - destruct (add_one_asset_run root_href r y k0 v0 i Hy)
      as (i1 & R1 & P1 & A1).
    destruct (IH i1) as (i' & R & P & Out & In_).
    exists i'. split; [|split; [|split]].
    + cbn [for_each]. unfold mbind. rewrite R1. exact R.
    + rewrite P. exact P1.
    + intros k N. cbn in N. rewrite Out by tauto. rewrite A1.
      apply get_set_other. tauto.
    + intros N k v I. cbn in N. inversion N as [|? ? N0 N1]; subst.
      destruct I as [E|I].
      * injection E as -> ->. rewrite Out by exact N0. rewrite A1.
        apply get_set_same.
      * apply In_; assumption.
Qed.

End Stages.

(** ** The derived Item *)

Section Derived.

Variable co : constants.
Variable rasterio_open : string -> result rasterio.DatasetReader.
Variable isoparse : string -> result pystac.datetime.

(** What a returned Item owes to each stage. *)
Lemma create_item_returned (assets_hrefs : dict string) (root_href : string)
    (read_href_modifier : option (string -> string)) (item : pystac.Item)
    (r : Representative) (y : Z) :
  create_item co rasterio_open isoparse assets_hrefs root_href
    read_href_modifier = Returned item ->
  general_parameters assets_hrefs = Ok r ->
  PyInt.int (year r) = Ok y ->
  (exists p ins,
      nth_error (ALOS_PALSAR_PLATFORMS co) (if (15 <=? y)%Z then 1 else 0)
      = Some p
      /\ nth_error (ALOS_PALSAR_INSTRUMENTS co)
           (if (15 <=? y)%Z then 1 else 0) = Some ins
      /\ Dict.get (pystac.properties item) "platform" = Some (VStr p)
      /\ Dict.get (pystac.properties item) "instruments"
         = Some (VList [VStr ins]))
  /\ (NoDup (Dict.keys assets_hrefs) ->
      forall k v, In (k, v) assets_hrefs ->
                  Dict.get (pystac.assets item) k
                  = Some (asset_of co root_href r y k v)).
Proof.
  intros H Hr Hy. rewrite create_item_stages, Hr in H.
  destruct (read_raster rasterio_open _ (asset_href r)) as [ra|];
    [|discriminate].
  destruct (new_item isoparse root_href r ra) as [[item0 collection]|];
    [|discriminate].
  destruct (set_common_metadata co (year r) item0) as [[[]|] i1] eqn:S1;
    [|discriminate].
  destruct (set_common_metadata_run co _ _ _ _ Hy S1)
    as (p & ins & Hp & Hi & ->).
  destruct (set_projection_run co ra
              (pystac.set_property "gsd" (ALOS_PALSAR_GSD co)
                 (pystac.set_property "instruments" (VList [VStr ins])
                    (pystac.set_property "platform" (VStr p) item0))))
    as (i2 & S2 & A2 & K2).
  rewrite S2 in H.
  destruct (set_sar co collection r i2) as [[[]|] i3] eqn:S3; [|discriminate].
  destruct (set_sar_keeps co _ _ _ _ _ S3) as [A3 K3].
  destruct (add_assets_run co root_href r y assets_hrefs Hy i3)
    as (i4 & S4 & P4 & _ & In4).
  rewrite S4 in H. injection H as <-.
  split.
  - exists p, ins. split; [exact Hp|]. split; [exact Hi|].
    rewrite P4.
    rewrite !K3, !K2 by (simpl; tauto).
    cbn [pystac.properties pystac.set_property pystac.with_properties].
    rewrite !get_set_other by discriminate.
    rewrite !get_set_same.
    rewrite get_set_other by discriminate. rewrite get_set_same.
    split; reflexivity.
  - exact In4.
Qed.

End Derived.

Section Nodata.

Lemma nodata_for_spec (y : Z) (key : string) :
  nodata_for y key = spec_nodata (2000 + y) key.
Proof.
  unfold nodata_for, spec_nodata.
  replace (2017 <=? 2000 + y)%Z with (17 <=? y)%Z
    by (destruct (Z.leb_spec 17 y), (Z.leb_spec 2017 (2000 + y));
        (reflexivity || lia)).
  destruct (17 <=? y)%Z; [|reflexivity].
  unfold nodata_by_band. cbn [Dict.get existsb].
  rewrite !(String.eqb_sym key).
  destruct (String.eqb "HH" key); [reflexivity|].
  destruct (String.eqb "HV" key); [reflexivity|].
  destruct (String.eqb "mask" key) eqn:M.
  - apply String.eqb_eq in M. subst key. reflexivity.
  - destruct (String.eqb "linci" key); [reflexivity|].
    destruct (String.eqb "date" key); [reflexivity|].
    destruct (String.eqb "C" key); reflexivity.
Qed.

End Nodata.

(** ** The descriptor parse within [create_item] *)

Section LastToken.

(** No token of [s.split(sep)] contains the separator. *)
Lemma split_tokens (sep : ascii) (s t : string) :
  In t (Str.split sep s) -> Str.mem sep t = false.
Proof.
  revert t. induction s as [|c s IH]; simpl; intros t H.
  - destruct H as [<-|[]]. reflexivity.
  - destruct (Str.chr_eqb c sep) eqn:E.
    + destruct H as [<-|H]; [reflexivity|]. apply IH. exact H.
    + destruct (Str.split sep s) as [|h tl].
      * destruct H as [<-|[]]. simpl. rewrite E. reflexivity.
      * destruct H as [<-|H].
        -- simpl. rewrite E. apply IH. left. reflexivity.
        -- apply IH. right. exact H.
Qed.

Lemma list_last_in {A : Type} (l : list A) (a : A) :
  list_last l = Ok a -> In a l.
Proof.
  unfold list_last. intros H. apply in_rev.
  destruct (rev l) as [|x r]; [discriminate|].
  injection H as ->. left. reflexivity.
Qed.

(** The last underscore-delimited token contains no underscore. *)
Lemma last_token_no_underscore (name code : string) :
  list_last (Str.split "_" name) = Ok code -> Str.mem "_" code = false.
Proof.
  intros H. apply (split_tokens "_" name). apply list_last_in. exact H.
Qed.

Lemma get_not_in {V : Type} (d : dict V) (k : string) :
  ~ In k (Dict.keys d) -> Dict.get d k = None.
Proof.
  induction d as [|[k' v] d IH]; simpl; intros N; [reflexivity|].
  destruct (String.eqb k' k) eqn:E.
  - apply String.eqb_eq in E. tauto.
  - apply IH. tauto.
Qed.

End LastToken.

Section DescriptorStage.

Variable co : constants.

Lemma set_common_metadata_reads_year (year : string) (i i1 : pystac.Item) :
  set_common_metadata co year i = (Ok tt, i1) ->
  exists y, PyInt.int year = Ok y.
Proof.
  unfold set_common_metadata, mbind, lift.
  destruct (PyInt.int year) as [y|]; [|discriminate].
  intros _. exists y. reflexivity.
Qed.

(** The descriptor stage of a mosaic whose code the pattern accepts. *)
Lemma set_sar_accepts (r : Representative) (i : pystac.Item)
    (code mode beam pol orbit obs : string) :
  list_last (Str.split "_" (filename r)) = Ok code ->
  re.match_ FILENAME_PARTS code
  = Some [("MODE", mode); ("BEAM_NUMBER", beam); ("POLARIZATIONS", pol);
          ("ORBIT", orbit); ("OBSERVATION", obs)] ->
  exists i3,
    set_sar co "alos-palsar-mosaic" r i = (Ok tt, i3)
    /\ pystac.assets i3 = pystac.assets i
    /\ (forall k, In k ["platform"; "instruments"] ->
                  Dict.get (pystac.properties i3) k
                  = Dict.get (pystac.properties i) k)
    /\ Dict.get (pystac.properties i3) "sar:instrument_mode"
       = Some (VStr mode)
    /\ Dict.get (pystac.properties i3) "sar:observation_direction"
       = Some (if String.eqb obs "L" then pystac.ObservationDirection.LEFT
               else pystac.ObservationDirection.RIGHT)
    /\ Dict.get (pystac.properties i3) "sar:polarizations"
       = Some (if String.eqb pol "D" then ALOS_DUAL_POLARIZATIONS co
               else ALOS_QUAD_POLARIZATIONS co)
    /\ Dict.get (pystac.properties i3) "sat:orbit_state"
       = Some (if String.eqb orbit "A" then pystac.OrbitState.ASCENDING
               else pystac.OrbitState.DESCENDING)
    /\ Dict.get (pystac.properties i3) "palsar:beam_number"
       = Some (VStr beam)
    /\ Dict.get (pystac.properties i3) "palsar:number_of_polarizations"
       = Some (VStr pol).
Proof.
  intros Hc Hm. unfold set_sar, mbind, lift, modify.
  cbn [String.eqb Ascii.eqb Bool.eqb]. rewrite Hc, Hm.
  cbn [Dict.item Dict.get String.eqb Ascii.eqb Bool.eqb].
  eexists. split; [reflexivity|]. split; [reflexivity|].
  cbn [pystac.properties pystac.set_property pystac.with_properties
       pystac.ext pystac.with_stac_extensions].
  split.
  { intros k [<-|[<-|[]]]; rewrite !get_set_other by discriminate;
      reflexivity. }
  repeat split;
    rewrite ?get_set_other by discriminate; apply get_set_same.
Qed.

End DescriptorStage.

(** ** A derivation that returns *)

Section Returns.

Variable co : constants.
Variable rasterio_open : string -> result rasterio.DatasetReader.
Variable isoparse : string -> result pystac.datetime.

Lemma read_raster_4326 (m : string -> string) (href : string)
    (ds : rasterio.DatasetReader) (c : rasterio.CRS) :
  rasterio_open (m href) = Ok ds ->
  rasterio.crs ds = Some c ->
  rasterio.to_epsg c = Some 4326%Z ->
  exists ra, read_raster rasterio_open m href = Ok ra.
Proof.
  intros Ho Hc He. unfold read_raster. rewrite Ho. cbn [rbind].
  rewrite Hc. cbn [rbind]. rewrite He. eexists. reflexivity.
Qed.

Lemma new_item_mosaic (root_href : string) (r : Representative) (ra : Raster)
    (band : string) (dt : pystac.datetime) :
  list_index (Str.split "_" (filename r)) 2 = Ok band ->
  String.eqb band "C" = false ->
  isoparse ("20" ++ year r ++ "-01-01T00:00:00Z") = Ok dt ->
  exists item0,
    new_item isoparse root_href r ra = Ok (item0, "alos-palsar-mosaic").
Proof.
  intros Hb Hc Hd. unfold new_item. rewrite Hb. cbn [rbind]. rewrite Hc, Hd.
  eexists. reflexivity.
Qed.

Lemma set_common_metadata_returns (year : string) (y : Z) (p ins : string)
    (i : pystac.Item) :
  PyInt.int year = Ok y ->
  nth_error (ALOS_PALSAR_PLATFORMS co) (if (15 <=? y)%Z then 1 else 0)
  = Some p ->
  nth_error (ALOS_PALSAR_INSTRUMENTS co) (if (15 <=? y)%Z then 1 else 0)
  = Some ins ->
  set_common_metadata co year i
  = (Ok tt,
     pystac.set_property "gsd" (ALOS_PALSAR_GSD co)
       (pystac.set_property "instruments" (VList [VStr ins])
          (pystac.set_property "platform" (VStr p) i))).
Proof.
  intros Hy Hp Hi.
  unfold set_common_metadata, mbind, lift, modify, list_index. rewrite Hy.
  destruct (15 <=? y)%Z; rewrite Hp, Hi; reflexivity.
Qed.

(** A mosaic whose raster, timestamp, year, tables and code are in order
    is derived, with the descriptor of its code and the pair of its
    year. *)
Lemma create_item_mosaic_returns (assets_hrefs : dict string)
    (root_href : string) (read_href_modifier : option (string -> string))
    (r : Representative) (ds : rasterio.DatasetReader) (c : rasterio.CRS)
    (band : string) (dt : pystac.datetime) (y : Z) (p ins : string)
    (code mode beam pol orbit obs : string) :
  general_parameters assets_hrefs = Ok r ->
  rasterio_open (modifier_of read_href_modifier (asset_href r)) = Ok ds ->
  rasterio.crs ds = Some c ->
  rasterio.to_epsg c = Some 4326%Z ->
  list_index (Str.split "_" (filename r)) 2 = Ok band ->
  String.eqb band "C" = false ->
  isoparse ("20" ++ year r ++ "-01-01T00:00:00Z") = Ok dt ->
  PyInt.int (year r) = Ok y ->
  nth_error (ALOS_PALSAR_PLATFORMS co) (if (15 <=? y)%Z then 1 else 0)
  = Some p ->
  nth_error (ALOS_PALSAR_INSTRUMENTS co) (if (15 <=? y)%Z then 1 else 0)
  = Some ins ->
  list_last (Str.split "_" (filename r)) = Ok code ->
  re.match_ FILENAME_PARTS code
  = Some [("MODE", mode); ("BEAM_NUMBER", beam); ("POLARIZATIONS", pol);
          ("ORBIT", orbit); ("OBSERVATION", obs)] ->
  exists item,
    create_item co rasterio_open isoparse assets_hrefs root_href
      read_href_modifier = Returned item
    /\ item_pair item = Some (VStr p, VList [VStr ins])
    /\ Dict.get (pystac.properties item) "sar:instrument_mode"
       = Some (VStr mode)
    /\ Dict.get (pystac.properties item) "sar:observation_direction"
       = Some (if String.eqb obs "L" then pystac.ObservationDirection.LEFT
               else pystac.ObservationDirection.RIGHT)
    /\ Dict.get (pystac.properties item) "sar:polarizations"
       = Some (if String.eqb pol "D" then ALOS_DUAL_POLARIZATIONS co
               else ALOS_QUAD_POLARIZATIONS co)
    /\ Dict.get (pystac.properties item) "sat:orbit_state"
       = Some (if String.eqb orbit "A" then pystac.OrbitState.ASCENDING
               else pystac.OrbitState.DESCENDING)
    /\ Dict.get (pystac.properties item) "palsar:beam_number"
       = Some (VStr beam)
    /\ Dict.get (pystac.properties item) "palsar:number_of_polarizations"
       = Some (VStr pol).
Proof.
  intros Hr Ho Hc He Hb Hnc Hd Hy Hp Hi Hcode Hm.
  rewrite create_item_stages, Hr.
  destruct (read_raster_4326 _ _ ds c Ho Hc He) as [ra ->].
  destruct (new_item_mosaic root_href r ra band dt Hb Hnc Hd) as [item0 ->].
  rewrite (set_common_metadata_returns _ y p ins item0 Hy Hp Hi).
  destruct (set_projection_run co ra
              (pystac.set_property "gsd" (ALOS_PALSAR_GSD co)
                 (pystac.set_property "instruments" (VList [VStr ins])
                    (pystac.set_property "platform" (VStr p) item0))))
    as (i2 & -> & _ & K2).
  destruct (set_sar_accepts co r i2 code mode beam pol orbit obs Hcode Hm)
    as (i3 & -> & _ & K3 & D1 & D2 & D3 & D4 & D5 & D6).
  destruct (add_assets_run co root_href r y assets_hrefs Hy i3)
    as (i4 & -> & P4 & _).
  exists i4. split; [reflexivity|]. unfold item_pair. rewrite P4.
  split; [|repeat split; assumption].
  rewrite !K3, !K2 by (simpl; tauto).
  cbn [pystac.properties pystac.set_property pystac.with_properties].
  rewrite (get_set_other _ "gsd" "platform") by discriminate.
  rewrite (get_set_other _ "instruments" "platform") by discriminate.
  rewrite get_set_same.
  rewrite (get_set_other _ "gsd" "instruments") by discriminate.
  rewrite get_set_same. reflexivity.
Qed.

End Returns.

(** * The claims of the specification *)

(** C1, as stated, fails: the pattern has six characters, one for the
    mode, two for the beam number and one for each of the three other
    fields, and a code of six characters is accepted. *)
Lemma descriptor_parse_accepts_six_characters :
  re.match_ FILENAME_PARTS "F02DAR"
  = Some [("MODE", "F"); ("BEAM_NUMBER", "02"); ("POLARIZATIONS", "D");
          ("ORBIT", "A"); ("OBSERVATION", "R")]
  /\ String.length "F02DAR" <> 5.
Proof. split; [reflexivity|discriminate]. Qed.

(** The bar of a bracket expression such as [[F|U]] is one of its
    characters. *)
Remark descriptor_parse_accepts_bar :
  re.match_ FILENAME_PARTS "|02DAR"
  = Some [("MODE", "|"); ("BEAM_NUMBER", "02"); ("POLARIZATIONS", "D");
          ("ORBIT", "A"); ("OBSERVATION", "R")].
Proof. reflexivity. Qed.

(** C1, amended. For the last underscore-delimited token of the
    representative filename, when it is ASCII text without a bar, the
    descriptor parse succeeds exactly when the token starts with six
    characters that match [[FU][A-Za-z0-9]{2}[DQ][AD][RL]] in the order
    mode, beam number, polarization count, orbit direction, observation
    side; a token of fewer than six characters never parses; and when the
    parse of a mosaic fails after the earlier stages of the derivation
    have succeeded, [create_item] raises the malformed-code error with no
    asset and no descriptor field set in the Item under construction. *)
Theorem descriptor_parse_by_prefix :
  (forall name code : string,
      list_last (Str.split "_" name) = Ok code ->
      Str.all_chars is_ascii code = true ->
      Str.mem "|" code = false ->
      ((exists m, re.match_ FILENAME_PARTS code = Some m)
       <-> spec_code_prefix code = true))
  /\ (forall code : string,
        String.length code < 6 -> re.match_ FILENAME_PARTS code = None)
  /\ (forall (co : constants)
             (rasterio_open : string -> result rasterio.DatasetReader)
             (isoparse : string -> result pystac.datetime)
             (assets_hrefs : dict string) (root_href : string)
             (read_href_modifier : option (string -> string))
             (r : Representative) (ra : Raster)
             (item0 i1 : pystac.Item) (code : string),
         general_parameters assets_hrefs = Ok r ->
         read_raster rasterio_open (modifier_of read_href_modifier)
           (asset_href r) = Ok ra ->
         new_item isoparse root_href r ra
         = Ok (item0, "alos-palsar-mosaic") ->
         set_common_metadata co (year r) item0 = (Ok tt, i1) ->
         list_last (Str.split "_" (filename r)) = Ok code ->
         re.match_ FILENAME_PARTS code = None ->
         exists partial,
           create_item co rasterio_open isoparse assets_hrefs root_href
             read_href_modifier
           = Raised (ValueError_pattern (filename r) (asset_href r))
               (Some partial)
           /\ pystac.assets partial = []
           /\ forall k, In k descriptor_keys ->
                        Dict.get (pystac.properties partial) k = None).
Proof.
  split; [|split].
  - intros name code Hl Ha Hb. apply match_iff_spec_code_prefix; try assumption.
    exact (last_token_no_underscore name code Hl).
  - exact short_code_rejected.
  - intros co ro iso assets root m r ra item0 i1 code
           Hr Hra Hni Hcm Hcode Hm.
    rewrite create_item_stages, Hr, Hra, Hni, Hcm.
    destruct (set_common_metadata_reads_year co _ _ _ Hcm) as [y Hy].
    destruct (set_common_metadata_run co _ _ _ _ Hy Hcm)
      as (p & ins & _ & _ & ->).
    destruct (new_item_shape iso _ _ _ _ _ Hni) as (band & _ & _ & Hk & _ & Ha).
    unfold set_projection, mbind, modify.
    rewrite (set_sar_rejects co r _ code Hcode Hm).
    eexists. split; [reflexivity|]. split; [exact Ha|].
    intros k Hin.
    cbn [pystac.properties pystac.set_property pystac.with_properties
         pystac.ext pystac.with_stac_extensions].
    assert (N : ~ In k (Dict.keys (pystac.properties item0))).
    { rewrite Hk. unfold descriptor_keys in Hin. simpl in Hin. simpl.
      intuition (subst; discriminate). }
    assert (D : forall k', In k' ["platform"; "instruments"; "gsd";
                                  "proj:epsg"; "proj:bbox"; "proj:shape";
                                  "proj:transform"] -> k' <> k).
    { unfold descriptor_keys in Hin. simpl in Hin. simpl.
      intuition (subst; discriminate). }
    rewrite !get_set_other by (apply D; simpl; tauto).
    apply get_not_in. exact N.
Qed.

Lemma descriptor_parse_by_prefix_witness :
  (exists m, re.match_ FILENAME_PARTS "F02DAR" = Some m)
  /\ exists partial,
       example_item 4326
         [("date", "tiles/N05E100_17_date_F02QAX.tif");
          ("metadata", "tiles/N05E100_17_F02QAX.xml")]
       = Raised (ValueError_pattern "N05E100_17_date_F02QAX"
                   "tiles/N05E100_17_date_F02QAX.tif")
           (Some partial).
Proof.
  split.
  - apply (proj1 descriptor_parse_by_prefix "N05E100_15_date_F02DAR" "F02DAR");
      reflexivity.
  - assert (S : exists r ra item0 i1,
               general_parameters
                 [("date", "tiles/N05E100_17_date_F02QAX.tif");
                  ("metadata", "tiles/N05E100_17_F02QAX.xml")] = Ok r
               /\ filename r = "N05E100_17_date_F02QAX"
               /\ asset_href r = "tiles/N05E100_17_date_F02QAX.tif"
               /\ read_raster (Example.rasterio_open 4326) (modifier_of None)
                    (asset_href r) = Ok ra
               /\ new_item Example.isoparse "" r ra
                  = Ok (item0, "alos-palsar-mosaic")
               /\ set_common_metadata Example.co (year r) item0 = (Ok tt, i1)
               /\ list_last (Str.split "_" (filename r)) = Ok "F02QAX").
    { do 4 eexists.
      split; [vm_compute; reflexivity|].
      split; [vm_compute; reflexivity|].
      split; [vm_compute; reflexivity|].
      split; [vm_compute; reflexivity|].
      split; [vm_compute; reflexivity|].
      split; [vm_compute; reflexivity|].
      vm_compute; reflexivity. }
    destruct S as (r & ra & item0 & i1 & Hr & Hf & Hh & Hra & Hni & Hcm & Hc).
    destruct (proj2 (proj2 descriptor_parse_by_prefix)
                Example.co (Example.rasterio_open 4326) Example.isoparse
                _ "" None r ra item0 i1 "F02QAX"
                Hr Hra Hni Hcm Hc eq_refl) as (partial & H & _).
    exists partial. rewrite H, Hf, Hh. reflexivity.
Defined.

(** C2, as stated, fails: the year 15 of the example is the year 2015,
    which selects the second generation of the platform and instrument
    tables, not the first. *)
Lemma example_year_15_is_second_generation :
  exists item,
    example_item_from_href 4326 "N05E100_15_F02DAR.xml" = Returned item
    /\ item_pair item = generation_pair Example.co 1
    /\ item_pair item <> generation_pair Example.co 0.
Proof.
  eexists. split; [vm_compute; reflexivity|].
  split; [vm_compute; reflexivity|vm_compute; discriminate].
Qed.

(** C2, amended. The metadata name [N05E100_15_F02DAR.xml] groups into the
    six assets keyed [date, linci, mask, HH, HV, metadata]; its year 15
    selects the second-generation platform and instrument; and its mode
    descriptor [F02DAR] parses to the mode [F], dual polarization, the
    ascending orbit and the right-looking observation direction. *)
Theorem example_N05E100_15 :
  forall (co : constants)
         (rasterio_open : string -> result rasterio.DatasetReader)
         (isoparse : string -> result pystac.datetime)
         (read_href_modifier : option (string -> string))
         (dataset : rasterio.DatasetReader) (crs : rasterio.CRS)
         (dt : pystac.datetime)
         (platform1 platform2 instrument1 instrument2 : string)
         (platforms instruments : list string),
    rasterio_open
      (modifier_of read_href_modifier
         "N05E100_15_F02DAR.xml/N05E100_15_date_F02DAR.tif") = Ok dataset ->
    rasterio.crs dataset = Some crs ->
    rasterio.to_epsg crs = Some 4326%Z ->
    isoparse "2015-01-01T00:00:00Z" = Ok dt ->
    ALOS_PALSAR_PLATFORMS co = platform1 :: platform2 :: platforms ->
    ALOS_PALSAR_INSTRUMENTS co = instrument1 :: instrument2 :: instruments ->
    exists d item,
      assets_hrefs_of "N05E100_15_F02DAR.xml" = Ok d
      /\ Dict.keys d = ["date"; "linci"; "mask"; "HH"; "HV"; "metadata"]
      /\ create_item_from_href co rasterio_open isoparse
           "N05E100_15_F02DAR.xml" read_href_modifier = Returned item
      /\ item_pair item = Some (VStr platform2, VList [VStr instrument2])
      /\ Dict.get (pystac.properties item) "sar:instrument_mode"
         = Some (VStr "F")
      /\ Dict.get (pystac.properties item) "palsar:number_of_polarizations"
         = Some (VStr "D")
      /\ Dict.get (pystac.properties item) "sar:polarizations"
         = Some (ALOS_DUAL_POLARIZATIONS co)
      /\ Dict.get (pystac.properties item) "sat:orbit_state"
         = Some pystac.OrbitState.ASCENDING
      /\ Dict.get (pystac.properties item) "sar:observation_direction"
         = Some pystac.ObservationDirection.RIGHT.
Proof.
  intros co ro iso m ds crs dt p1 p2 i1 i2 ps ins Ho Hc He Hd Hp Hi.
  assert (G : exists d,
             assets_hrefs_of "N05E100_15_F02DAR.xml" = Ok d
             /\ Dict.keys d = ["date"; "linci"; "mask"; "HH"; "HV"; "metadata"]
             /\ general_parameters d
                = Ok {| asset_href :=
                          "N05E100_15_F02DAR.xml/N05E100_15_date_F02DAR.tif";
                        filename := "N05E100_15_date_F02DAR";
                        year := "15"; is_fnf := false;
                        item_root := "N05E100_15_F02DAR" |}).
  { eexists. split; [vm_compute; reflexivity|].
    split; vm_compute; reflexivity. }
  destruct G as (d & Hg & Hk & Hr).
  destruct (create_item_mosaic_returns co ro iso d "" m _ ds crs
              "date" dt 15%Z p2 i2 "F02DAR" "F" "02" "D" "A" "R" Hr)
    as (item & H & Hpair & D1 & D2 & D3 & D4 & _ & D6);
    try reflexivity; try assumption.
  - rewrite Hp. reflexivity.
  - rewrite Hi. reflexivity.
  - exists d, item. unfold create_item_from_href. rewrite Hg.
    repeat split; assumption.
Qed.

Lemma example_N05E100_15_witness :
  exists item,
    example_item_from_href 4326 "N05E100_15_F02DAR.xml" = Returned item
    /\ item_pair item = Some (VStr "ALOS-2", VList [VStr "PALSAR-2"]).
Proof.
  destruct (example_N05E100_15
              Example.co (Example.rasterio_open 4326) Example.isoparse None
              (Example.dataset 4326) {| rasterio.to_epsg := Some 4326%Z |}
              {| pystac.dt_year := 2015; pystac.dt_month := 1;
                 pystac.dt_day := 1; pystac.dt_hour := 0;
                 pystac.dt_minute := 0; pystac.dt_second := 0;
                 pystac.dt_utc := true |}
              "ALOS" "ALOS-2" "PALSAR" "PALSAR-2" [] []
              eq_refl eq_refl eq_refl eq_refl eq_refl eq_refl)
    as (d & item & _ & _ & H & Hpair & _).
  exists item. split; [exact H|exact Hpair].
Defined.

(** C3. A raster-kind asset whose band key has an entry in the band table
    carries one raster band whose nodata value is, for an acquisition year
    from 2017 on, 1 for the bands [HH], [HV], [linci] and [date] and 0 for
    [mask], [C] and every other band, and, for an earlier acquisition
    year, 0 for every band. *)
Theorem nodata_by_year_and_band :
  forall (co : constants)
         (rasterio_open : string -> result rasterio.DatasetReader)
         (isoparse : string -> result pystac.datetime)
         (assets_hrefs : dict string) (root_href : string)
         (read_href_modifier : option (string -> string))
         (item : pystac.Item) (r : Representative) (y : Z)
         (key location : string) (band : dict value),
    create_item co rasterio_open isoparse assets_hrefs root_href
      read_href_modifier = Returned item ->
    general_parameters assets_hrefs = Ok r ->
    PyInt.int (year r) = Ok y ->
    NoDup (Dict.keys assets_hrefs) ->
    In (key, location) assets_hrefs ->
    Str.endswith (asset_location root_href location) ".xml" = false ->
    Dict.get (ALOS_BANDS co) key = Some band ->
    band <> [] ->
    exists a,
      Dict.get (pystac.assets item) key = Some a
      /\ pystac.media_type a = pystac.COG
      /\ Dict.get (pystac.extra_fields a) "raster:bands"
         = Some (VList [pystac.RasterBand_create
                          (spec_nodata (2000 + y) key)
                          (Dict.get band "data_type")]).
Proof.
  intros co ro iso assets root m item r y key location band
         H Hr Hy Hn Hin Hx Hb Hne.
  destruct (create_item_returned co ro iso _ _ _ _ _ _ H Hr Hy) as [_ A].
  specialize (A Hn key location Hin).
  eexists. split; [exact A|].
  unfold asset_of. rewrite Hx, Hb.
  destruct band as [|e b]; [contradiction|].
  split; [reflexivity|].
  cbn [pystac.extra_fields]. rewrite nodata_for_spec.
  destruct (String.eqb key "C");
    [|destruct (String.eqb key "mask")];
    rewrite ?get_set_other by discriminate; reflexivity.
Qed.

Lemma nodata_by_year_and_band_witness :
  match example_item 4326 Example.mosaic_2017 with
  | Returned item =>
      exists a,
        Dict.get (pystac.assets item) "HH" = Some a
        /\ Dict.get (pystac.extra_fields a) "raster:bands"
           = Some (VList [VDict [("nodata", VInt 1);
                                 ("data_type", VStr "uint16")]])
  | Raised _ _ => False
  end.
Proof.
  assert (E : exists item,
             example_item 4326 Example.mosaic_2017 = Returned item)
    by (vm_compute; eexists; reflexivity).
  destruct E as [item E]. rewrite E.
  assert (R : exists r,
             general_parameters Example.mosaic_2017 = Ok r
             /\ PyInt.int (year r) = Ok 17%Z)
    by (eexists; split; [vm_compute; reflexivity|vm_compute; reflexivity]).
  destruct R as (r & Hr & Hy).
  destruct (nodata_by_year_and_band
              _ _ _ _ _ _ item r 17%Z
              "HH" "tiles/N05E100_17_sl_HH_F02QAR.tif"
              (Example.band "uint16") E Hr Hy)
    as (a & Ha & _ & Hb).
  - unfold Example.mosaic_2017.
    repeat (constructor; [simpl; intuition discriminate|]). constructor.
  - simpl. tauto.
  - reflexivity.
  - reflexivity.
  - discriminate.
  - exists a. split; [exact Ha|exact Hb].
Defined.

(** C4. The platform and instrument pair of a derived Item is the
    second-generation pair of the tables for every acquisition year from
    2015 on, the year 2015 included, and the first-generation pair for
    every earlier year. *)
Theorem platform_by_year :
  forall (co : constants)
         (rasterio_open : string -> result rasterio.DatasetReader)
         (isoparse : string -> result pystac.datetime)
         (assets_hrefs : dict string) (root_href : string)
         (read_href_modifier : option (string -> string))
         (item : pystac.Item) (r : Representative) (y : Z),
    create_item co rasterio_open isoparse assets_hrefs root_href
      read_href_modifier = Returned item ->
    general_parameters assets_hrefs = Ok r ->
    PyInt.int (year r) = Ok y ->
    item_pair item <> None
    /\ (2015 <= 2000 + y -> item_pair item = generation_pair co 1)%Z
    /\ (2000 + y = 2015 -> item_pair item = generation_pair co 1)%Z
    /\ (2000 + y < 2015 -> item_pair item = generation_pair co 0)%Z.
Proof.
  intros co ro iso assets root m item r y H Hr Hy.
  destruct (create_item_returned co ro iso _ _ _ _ _ _ H Hr Hy)
    as [(p & ins & Hp & Hi & Gp & Gi) _].
  assert (E : item_pair item = Some (VStr p, VList [VStr ins]))
    by (unfold item_pair; rewrite Gp, Gi; reflexivity).
  assert (Ge : (15 <= y -> item_pair item = generation_pair co 1)%Z).
  { intros L. apply Z.leb_le in L. rewrite L in Hp, Hi.
    unfold generation_pair. rewrite Hp, Hi. exact E. }
  split; [rewrite E; discriminate|].
  split; [intros L; apply Ge; lia|].
  split; [intros L; apply Ge; lia|].
  intros L. assert (L' : (15 <=? y)%Z = false) by (apply Z.leb_gt; lia).
  rewrite L' in Hp, Hi. unfold generation_pair. rewrite Hp, Hi. exact E.
Qed.

Lemma platform_by_year_witness :
  match example_item 4326 Example.forest_2010 with
  | Returned item => item_pair item = generation_pair Example.co 0
  | Raised _ _ => False
  end.
Proof.
  assert (E : exists item,
             example_item 4326 Example.forest_2010 = Returned item)
    by (vm_compute; eexists; reflexivity).
  destruct E as [item E]. rewrite E.
  assert (R : exists r,
             general_parameters Example.forest_2010 = Ok r
             /\ PyInt.int (year r) = Ok 10%Z)
    by (eexists; split; [vm_compute; reflexivity|vm_compute; reflexivity]).
  destruct R as (r & Hr & Hy).
  destruct (platform_by_year _ _ _ _ _ _ item r 10%Z E Hr Hy)
    as (_ & _ & _ & L).
  apply L. lia.
Defined.

(** C5. The mapping grouped from a mosaic metadata name has one entry per
    band key: eight entries under the keys [date, linci, mask, HH, HV, VH,
    VV, metadata] when the fourth character of the mode code is [Q], and
    six entries under the keys [date, linci, mask, HH, HV, metadata]
    otherwise. *)
Theorem grouper_keys_by_polarization :
  forall (asset_href : string) (d : dict string),
    Str.endswith (os_path.basename asset_href) ".xml" = true ->
    assets_hrefs_of asset_href = Ok d ->
    exists code c,
      mode_code (os_path.basename asset_href) = Some code
      /\ Str.get code 3 = Some c
      /\ NoDup (Dict.keys d)
      /\ Dict.get d "metadata" = Some asset_href
      /\ (c = "Q"%char -> Dict.keys d = quad_keys /\ List.length d = 8)
      /\ (c <> "Q"%char -> Dict.keys d = dual_keys /\ List.length d = 6).
Proof.
  intros asset_href d H Hd.
  pose proof (assets_hrefs_of_xml_cases _ H) as C.
  destruct (mode_code (os_path.basename asset_href)) as [code|] eqn:Hm;
    [|destruct C as [_ C]; rewrite C in Hd; discriminate].
  destruct (Str.get code 3) as [c|] eqn:G; [|rewrite C in Hd; discriminate].
  destruct C as (d' & Hd' & Hk). rewrite Hd in Hd'. injection Hd' as <-.
  exists code, c. split; [reflexivity|]. split; [exact G|].
  assert (Hlen : List.length d = List.length (Dict.keys d))
    by (unfold Dict.keys; rewrite length_map; reflexivity).
  assert (Hmeta : Dict.get d "metadata" = Some asset_href).
  { rewrite (assets_hrefs_of_xml _ H) in Hd.
    destruct (rsplit1_first "/" asset_href) as [prefix E]. rewrite E in Hd.
    destruct (unpack2 (Str.rsplit1 "_" (os_path.basename asset_href)))
      as [[p q]|]; [|discriminate].
    cbn [rbind fst] in Hd.
    destruct (str_index (fst (os_path.splitext q)) 3) as [x|]; [|discriminate].
    cbn [rbind] in Hd. injection Hd as <-.
    destruct (String.eqb x "Q"); reflexivity. }
  destruct (Str.chr_eqb c "Q") eqn:Q.
  - apply chr_eqb_eq in Q. subst c. rewrite Hlen, Hk.
    split; [|split; [assumption|split]].
    + unfold quad_keys.
      repeat (constructor; [simpl; intuition discriminate|]). constructor.
    + intros _. split; reflexivity.
    + intros N. exfalso. apply N. reflexivity.
  - rewrite Hlen, Hk. split; [|split; [assumption|split]].
    + unfold dual_keys.
      repeat (constructor; [simpl; intuition discriminate|]). constructor.
    + intros ->. rewrite chr_eqb_refl in Q. discriminate.
    + intros _. split; reflexivity.
Qed.

Lemma grouper_keys_by_polarization_witness :
  exists code c,
    mode_code "N05E100_17_F02QAR.xml" = Some code
    /\ Str.get code 3 = Some c
    /\ NoDup quad_keys.
Proof.
  destruct (grouper_keys_by_polarization
              "tiles/N05E100_17_F02QAR.xml" _ eq_refl eq_refl) as (code & c & Hc & Hg & Hn & _ & _).
  exists code, c. split; [exact Hc|]. split; [exact Hg|]. exact Hn.
Defined.

(** C6, as stated, fails: a raster whose reference system is not
    EPSG:4326 does not always give the invalid-geometry error.  The name
    of the asset is read before the raster is opened, so that a name with
    fewer than three tokens raises [IndexError] whatever the raster is;
    and a raster without a reference system raises [AttributeError] at
    [dataset.crs.to_epsg()]. *)
Lemma non_4326_raises_other_errors :
  (Example.rasterio_open 3857 "tiles/N05E100_C.tif"
   = Ok (Example.dataset 3857)
   /\ example_item 3857 [("C", "tiles/N05E100_C.tif")]
      = Raised IndexError_list None
   /\ class_of IndexError_list <> ValueError)
  /\ (create_item Example.co
        (fun _ =>
           Ok {| rasterio.crs := None;
                 rasterio.bounds := rasterio.bounds (Example.dataset 3857);
                 rasterio.transform := [];
                 rasterio.shape := [4500; 4500]%Z |})
        Example.isoparse Example.forest_2010 "" None
      = Raised (AttributeError "to_epsg") None
      /\ class_of (AttributeError "to_epsg") <> ValueError).
Proof.
  split; (split; [vm_compute; reflexivity|]);
    [split; [vm_compute; reflexivity|discriminate]|discriminate].
Qed.

(** C6, amended. When the raster of the first asset opens and its
    coordinate reference system is not EPSG:4326, [create_item] raises
    and no Item has been constructed when it does.  The exception is the
    invalid-geometry error of line 188 when the general parameters can be
    read from the name of the asset and the raster has a reference
    system; it is [AttributeError] when the raster has no reference
    system, and [IndexError] when the name is too short for the general
    parameters, which lines 175-184 read before the raster is opened. *)
Theorem non_4326_raises_before_item :
  forall (co : constants)
         (rasterio_open : string -> result rasterio.DatasetReader)
         (isoparse : string -> result pystac.datetime)
         (assets_hrefs : dict string) (root_href : string)
         (read_href_modifier : option (string -> string))
         (href : string) (dataset : rasterio.DatasetReader),
    list_index (Dict.values assets_hrefs) 0 = Ok href ->
    rasterio_open (modifier_of read_href_modifier href) = Ok dataset ->
    (forall crs,
        rasterio.crs dataset = Some crs ->
        rasterio.to_epsg crs <> Some 4326%Z) ->
    (exists e,
        create_item co rasterio_open isoparse assets_hrefs root_href
          read_href_modifier = Raised e None)
    /\ (forall r crs,
           general_parameters assets_hrefs = Ok r ->
           rasterio.crs dataset = Some crs ->
           create_item co rasterio_open isoparse assets_hrefs root_href
             read_href_modifier
           = Raised (ValueError_not_epsg4326 href) None)
    /\ (forall r,
           general_parameters assets_hrefs = Ok r ->
           rasterio.crs dataset = None ->
           create_item co rasterio_open isoparse assets_hrefs root_href
             read_href_modifier
           = Raised (AttributeError "to_epsg") None)
    /\ (forall e,
           general_parameters assets_hrefs = Err e ->
           create_item co rasterio_open isoparse assets_hrefs root_href
             read_href_modifier
           = Raised IndexError_list None).
Proof.
  intros co ro iso assets root m href ds Hh Ho Hn.
  assert (G : forall r crs,
             general_parameters assets = Ok r ->
             rasterio.crs ds = Some crs ->
             create_item co ro iso assets root m
             = Raised (ValueError_not_epsg4326 href) None).
  { intros r crs Hr Hc. rewrite create_item_stages, Hr.
    destruct (general_parameters_first _ _ Hr) as [Hf _].
    rewrite Hh in Hf. injection Hf as <-.
    rewrite (read_raster_not_4326 ro _ _ ds crs Ho Hc (Hn crs Hc)).
    reflexivity. }
  assert (A : forall r,
             general_parameters assets = Ok r ->
             rasterio.crs ds = None ->
             create_item co ro iso assets root m
             = Raised (AttributeError "to_epsg") None).
  { intros r Hr Hc. rewrite create_item_stages, Hr.
    destruct (general_parameters_first _ _ Hr) as [Hf _].
    rewrite Hh in Hf. injection Hf as <-.
    unfold read_raster. rewrite Ho. cbn [rbind]. rewrite Hc. reflexivity. }
  assert (I : forall e,
             general_parameters assets = Err e ->
             create_item co ro iso assets root m
             = Raised IndexError_list None).
  { intros e Hr. rewrite create_item_stages, Hr.
    rewrite (general_parameters_error _ _ Hr). reflexivity. }
  split; [|split; [exact G|split; [exact A|exact I]]].
  destruct (general_parameters assets) as [r|e] eqn:Hr.
  - destruct (rasterio.crs ds) as [crs|] eqn:Hc.
    + eexists. apply (G r crs); reflexivity.
    + eexists. apply (A r); reflexivity.
  - eexists. apply (I e). reflexivity.
Qed.

Lemma non_4326_raises_before_item_witness :
  example_item 3857 Example.mosaic_2017
  = Raised (ValueError_not_epsg4326 "tiles/N05E100_17_date_F02QAR.tif") None.
Proof.
  assert (R : exists r, general_parameters Example.mosaic_2017 = Ok r)
    by (vm_compute; eexists; reflexivity).
  destruct R as [r Hr].
  assert (N : forall crs,
             rasterio.crs (Example.dataset 3857) = Some crs ->
             rasterio.to_epsg crs <> Some 4326%Z).
  { intros crs E. injection E as <-. discriminate. }
  apply (proj1 (proj2 (non_4326_raises_before_item
                         Example.co (Example.rasterio_open 3857)
                         Example.isoparse Example.mosaic_2017 "" None
                         "tiles/N05E100_17_date_F02QAR.tif"
                         (Example.dataset 3857)
                         eq_refl eq_refl N))
           r {| rasterio.to_epsg := Some 3857%Z |} Hr eq_refl).
Defined.

(** C7. The Grouper raises the unsupported-format error
    ([ValueError("Unknown type")]) exactly for the paths whose basename
    ends neither in [_C.tif] nor in [.xml]: it raises it for every such
    path, for no path of one of the two shapes, and it returns no mapping
    for an unrecognised shape; [create_item_from_href] propagates the error
    with no Item under construction. *)
Theorem grouper_unknown_type_iff_unrecognised :
  forall asset_href : string,
    (assets_hrefs_of asset_href = Err ValueError_unknown_type
     <-> recognised asset_href = false)
    /\ (forall d, assets_hrefs_of asset_href = Ok d ->
                  recognised asset_href = true)
    /\ (recognised asset_href = false ->
        forall co rasterio_open isoparse read_href_modifier,
          create_item_from_href co rasterio_open isoparse asset_href
            read_href_modifier
          = Raised ValueError_unknown_type None).
Proof.
  intros asset_href. split; [split|split].
  - intros H. destruct (recognised asset_href) eqn:R; [|reflexivity].
    exfalso. exact (recognised_not_unknown _ R H).
  - apply unrecognised_raises.
  - intros d H. destruct (recognised asset_href) eqn:R; [reflexivity|].
    rewrite (unrecognised_raises _ R) in H. discriminate.
  - intros R co ro iso m. unfold create_item_from_href.
    rewrite (unrecognised_raises _ R). reflexivity.
Qed.

Lemma grouper_unknown_type_iff_unrecognised_witness :
  recognised "tiles/N05E100_15_sl_HH_F02DAR.tif" = false
  /\ create_item_from_href Example.co (Example.rasterio_open 4326)
       Example.isoparse "tiles/N05E100_15_sl_HH_F02DAR.tif" None
     = Raised ValueError_unknown_type None.
Proof.
  split; [reflexivity|].
  apply (proj2 (proj2 (grouper_unknown_type_iff_unrecognised
                         "tiles/N05E100_15_sl_HH_F02DAR.tif")));
    reflexivity.
Defined.

(** C8, as stated, fails: [FILENAME_PARTS.match] accepts a code that
    continues after its sixth character, and the parsed fields rebuild the
    first six characters only. *)
Lemma descriptor_round_trip_fails_on_longer_code :
  exists m,
    re.match_ FILENAME_PARTS "F02DARX" = Some m
    /\ descriptor_code m = Ok "F02DAR"
    /\ descriptor_code m <> Ok "F02DARX".
Proof.
  eexists. split; [reflexivity|]. split; [reflexivity|]. discriminate.
Qed.

(** C8, amended. For every code the descriptor parse accepts, the parsed
    fields concatenated in the order mode, beam number, polarization
    count, orbit direction, observation side are the first six characters
    of the code; the round trip is the identity on the codes of exactly
    six characters. *)
Theorem descriptor_round_trip_on_prefix :
  forall (code : string) (m : dict string),
    re.match_ FILENAME_PARTS code = Some m ->
    descriptor_code m = Ok (Str.take 6 code)
    /\ 6 <= String.length code
    /\ (String.length code = 6 -> descriptor_code m = Ok code).
Proof.
  intros code m H. rewrite match_FILENAME_PARTS in H.
  destruct code as [|c0 [|c1 [|c2 [|c3 [|c4 [|c5 rest]]]]]];
    try discriminate.
  destruct (re.class_matches (re.OneOf "F|U") c0 && re.is_word c1
            && re.is_word c2 && re.class_matches (re.OneOf "D|Q") c3
            && re.class_matches (re.OneOf "A|D") c4
            && re.class_matches (re.OneOf "R|L") c5); [|discriminate].
  injection H as <-.
  split; [reflexivity|]. split; [simpl; lia|].
  intros L. destruct rest; [reflexivity|simpl in L; lia].
Qed.

Lemma descriptor_round_trip_on_prefix_witness :
  descriptor_code
    [("MODE", "U"); ("BEAM_NUMBER", "B4"); ("POLARIZATIONS", "Q");
     ("ORBIT", "D"); ("OBSERVATION", "L")]
  = Ok "UB4QDL".
Proof.
  apply (descriptor_round_trip_on_prefix "UB4QDL"); reflexivity.
Defined.

(** C9, as stated, fails: the name [N05E100_15_.xml] ends in [.xml], its
    last underscore-delimited token without the extension is empty, and
    the Grouper returns a mapping.  [os.path.splitext] finds no extension
    in a name made of dots before its last dot, so that the Grouper
    indexes [.xml] and reads [l]. *)
Lemma grouper_returns_on_empty_token :
  os_path.basename "tiles/N05E100_15_.xml"
  = ("N05E100_15" ++ "_" ++ "" ++ ".xml")%string
  /\ String.length "" < 4
  /\ mode_code "N05E100_15_.xml" = Some ".xml"
  /\ exists d, assets_hrefs_of "tiles/N05E100_15_.xml" = Ok d
               /\ Dict.keys d = dual_keys.
Proof.
  split; [reflexivity|]. split; [simpl; lia|]. split; [reflexivity|].
  eexists. split; [vm_compute; reflexivity|reflexivity].
Qed.

(** C9, amended. On a name ending in [.xml] the Grouper never raises its
    typed unsupported-format error.  A stem without underscore fails the
    unpacking of line 137 ([ValueError: not enough values to unpack]).
    For a name [<prefix>_<token>.xml], where the token has no underscore,
    the Grouper returns a mapping exactly when the token has at least
    four characters or is made of dots only, the empty token included;
    otherwise it fails the indexing of line 140 ([IndexError: string
    index out of range]).  A token made of dots only keeps its [.xml]
    under [os.path.splitext] and gives the mapping of a dual-polarization
    mosaic.  In terms of the mode code, the text after the last
    underscore as [os.path.splitext] strips it: a mode code of fewer than
    four characters fails the indexing, and a mapping is returned only
    when the mode code has at least four characters. *)
Theorem grouper_xml_needs_four_characters :
  forall asset_href : string,
    Str.endswith (os_path.basename asset_href) ".xml" = true ->
    (forall stem,
        os_path.basename asset_href = (stem ++ ".xml")%string ->
        Str.mem "_" stem = false ->
        assets_hrefs_of asset_href = Err (ValueError_unpack 2 1))
    /\ (forall code,
           mode_code (os_path.basename asset_href) = Some code ->
           String.length code < 4 ->
           assets_hrefs_of asset_href = Err IndexError_string)
    /\ (forall pre tok,
           os_path.basename asset_href = (pre ++ "_" ++ tok ++ ".xml")%string ->
           Str.mem "_" tok = false ->
           Str.all_chars os_path.is_dot tok = false ->
           String.length tok < 4 ->
           assets_hrefs_of asset_href = Err IndexError_string)
    /\ (forall d,
           assets_hrefs_of asset_href = Ok d ->
           exists code,
             mode_code (os_path.basename asset_href) = Some code
             /\ 4 <= String.length code)
    /\ (forall pre tok,
           os_path.basename asset_href = (pre ++ "_" ++ tok ++ ".xml")%string ->
           Str.mem "_" tok = false ->
           ((exists d, assets_hrefs_of asset_href = Ok d)
            <-> (4 <= String.length tok
                 \/ Str.all_chars os_path.is_dot tok = true))
           /\ (Str.all_chars os_path.is_dot tok = true ->
               exists d, assets_hrefs_of asset_href = Ok d
                         /\ Dict.keys d = dual_keys)
           /\ ((exists d, assets_hrefs_of asset_href = Ok d)
               \/ assets_hrefs_of asset_href = Err IndexError_string))
    /\ assets_hrefs_of asset_href <> Err ValueError_unknown_type.
Proof.
  intros asset_href H.
  pose proof (assets_hrefs_of_xml_cases _ H) as C.
  assert (B : forall code,
             mode_code (os_path.basename asset_href) = Some code ->
             String.length code < 4 ->
             assets_hrefs_of asset_href = Err IndexError_string).
  { intros code Hc Hl. rewrite Hc in C.
    rewrite (get_out_of_range code 3) in C by lia. exact C. }
  split; [|split; [exact B|split; [|split; [|split]]]].
  - intros stem E Hs.
    assert (Hm : Str.mem "_" (os_path.basename asset_href) = false)
      by (rewrite E, mem_app, Hs; reflexivity).
    unfold mode_code in C. apply rcut_none in Hm. rewrite Hm in C.
    apply C.
  - intros pre tok E Hu Hd Hl.
    exact (proj2 (proj2 (assets_hrefs_of_token asset_href pre tok H E Hu))
             Hd Hl).
  - intros d Hd.
    destruct (mode_code (os_path.basename asset_href)) as [code|].
    + exists code. split; [reflexivity|].
      destruct (Str.get code 3) as [c|] eqn:G.
      * apply get_some_in_range in G. lia.
      * rewrite C in Hd. discriminate.
    + destruct C as [_ C]. rewrite C in Hd. discriminate.
  - intros pre tok E Hu.
    destruct (assets_hrefs_of_token asset_href pre tok H E Hu)
      as (Dots & Long & Short).
    destruct (Str.all_chars os_path.is_dot tok) eqn:Hd.
    + destruct (Dots eq_refl) as (d & Hok & Hk).
      split; [|split].
      * split; [intros _; right; reflexivity|intros _; exists d; exact Hok].
      * intros _. exists d. split; [exact Hok|exact Hk].
      * left. exists d. exact Hok.
    + destruct (Nat.lt_ge_cases (String.length tok) 4) as [L|L].
      * pose proof (Short eq_refl L) as F.
        split; [|split].
        -- split.
           ++ intros [d Hok]. rewrite F in Hok. discriminate.
           ++ intros [G|G]; [lia|discriminate].
        -- discriminate.
        -- right. exact F.
      * destruct (Long eq_refl L) as [d Hok].
        split; [|split].
        -- split; [intros _; left; exact L|intros _; exists d; exact Hok].
        -- discriminate.
        -- left. exists d. exact Hok.
  - apply recognised_not_unknown. unfold recognised. rewrite H.
    apply orb_true_r.
Qed.

Lemma grouper_xml_needs_four_characters_witness :
  assets_hrefs_of "tiles/N05E100.xml" = Err (ValueError_unpack 2 1)
  /\ assets_hrefs_of "tiles/N05E100_15_F02.xml" = Err IndexError_string.
Proof.
  split.
  - apply (proj1 (grouper_xml_needs_four_characters
                    "tiles/N05E100.xml" eq_refl) "N05E100");
      reflexivity.
  - apply (proj1 (proj2 (grouper_xml_needs_four_characters
                           "tiles/N05E100_15_F02.xml" eq_refl)) "F02");
      [reflexivity|simpl; lia].
Defined.

(** C10. The Grouper does not validate the mode code: on every [.xml]
    name whose mode code has at least four characters it returns a
    mapping, with the quad-polarization keys ([VH] and [VV] added) exactly
    when the fourth character is [Q], and with the dual-polarization keys
    for every other fourth character, whether the descriptor pattern
    allows that character or not. *)
Theorem grouper_quad_iff_fourth_is_Q :
  forall (asset_href code : string),
    Str.endswith (os_path.basename asset_href) ".xml" = true ->
    mode_code (os_path.basename asset_href) = Some code ->
    4 <= String.length code ->
    exists d,
      assets_hrefs_of asset_href = Ok d
      /\ (In "VH" (Dict.keys d) /\ In "VV" (Dict.keys d)
          <-> Str.get code 3 = Some "Q"%char)
      /\ (Str.get code 3 = Some "Q"%char -> Dict.keys d = quad_keys)
      /\ (Str.get code 3 <> Some "Q"%char -> Dict.keys d = dual_keys).
Proof.
  intros asset_href code H Hc Hl.
  pose proof (assets_hrefs_of_xml_cases _ H) as C. rewrite Hc in C.
  destruct (get_in_range code 3) as [c G]; [lia|].
  rewrite G in C. destruct C as (d & Hd & Hk).
  exists d. split; [assumption|]. rewrite G.
  destruct (Str.chr_eqb c "Q") eqn:Q.
  - apply chr_eqb_eq in Q. subst c. rewrite Hk.
    split; [|split].
    + split; [reflexivity|]. intros _. unfold quad_keys. simpl. tauto.
    + reflexivity.
    + intros N. exfalso. apply N. reflexivity.
  - assert (N : Some c <> Some "Q"%char).
    { intros E. injection E as ->. rewrite chr_eqb_refl in Q. discriminate. }
    rewrite Hk. split; [|split].
    + split; [|intros E; exfalso; exact (N E)].
      unfold dual_keys. simpl. intros [V _].
      repeat (destruct V as [V|V]; [discriminate|]). destruct V.
    + intros E. exfalso. exact (N E).
    + reflexivity.
Qed.

Lemma grouper_quad_iff_fourth_is_Q_witness :
  exists d,
    assets_hrefs_of "tiles/N05E100_15_F02XAR.xml" = Ok d
    /\ Dict.keys d = dual_keys.
Proof.
  destruct (grouper_quad_iff_fourth_is_Q
              "tiles/N05E100_15_F02XAR.xml" "F02XAR"
              eq_refl eq_refl) as (d & Hd & _ & _ & Hk).
  - simpl. lia.
  - exists d. split; [exact Hd|]. apply Hk. discriminate.
Defined.

(** * The normal form of [create_item] *)

(** ** More on strings and paths *)

Section MoreStrings.

Lemma append_assoc (a b c : string) :
  ((a ++ b) ++ c = a ++ (b ++ c))%string.
Proof.
  induction a as [|x a IH]; simpl; [reflexivity|]. rewrite IH. reflexivity.
Qed.

Lemma rev_onto_app (a b acc : string) :
  Str.rev_onto (a ++ b) acc = Str.rev_onto b (Str.rev_onto a acc).
Proof.
  revert acc. induction a as [|x a IH]; simpl; intros acc; [reflexivity|].
  apply IH.
Qed.

Lemma rev_onto_acc (s acc : string) :
  Str.rev_onto s acc = (Str.rev s ++ acc)%string.
Proof.
  unfold Str.rev. revert acc. induction s as [|x s IH]; simpl; intros acc.
  - reflexivity.
  - rewrite IH, (IH (String x EmptyString)).
    rewrite append_assoc. reflexivity.
Qed.

Lemma startswith_app (x y : string) : Str.startswith (x ++ y) x = true.
Proof.
  induction x as [|c x IH]; simpl; [destruct y; reflexivity|].
  rewrite chr_eqb_refl. exact IH.
Qed.

(** A name that ends in [.tif] does not end in [.xml]. *)
Lemma endswith_tif_not_xml (s : string) :
  Str.endswith (s ++ ".tif") ".xml" = false.
Proof.
  unfold Str.endswith, Str.rev at 1.
  rewrite rev_onto_app. cbn [Str.rev_onto].
  rewrite rev_onto_acc. reflexivity.
Qed.

Lemma split_nonempty (sep : ascii) (s : string) : Str.split sep s <> [].
Proof.
  destruct s as [|c s]; simpl; [discriminate|].
  destruct (Str.chr_eqb c sep); [discriminate|].
  destruct (Str.split sep s); discriminate.
Qed.

(** [s.split(sep)] of a string without the separator is [[s]]. *)
Lemma split_no_sep (sep : ascii) (s : string) :
  Str.mem sep s = false -> Str.split sep s = [s].
Proof.
  induction s as [|c s IH]; simpl; [reflexivity|].
  intros H. apply orb_false_iff in H. destruct H as [E M].
  rewrite E, (IH M). reflexivity.
Qed.

(** [(a + sep + b).split(sep) == a.split(sep) + b.split(sep)] *)
Lemma split_app (sep : ascii) (a b : string) :
  Str.split sep (a ++ String sep b) = (Str.split sep a ++ Str.split sep b)%list.
Proof.
  induction a as [|c a IH]; simpl.
  - rewrite chr_eqb_refl. reflexivity.
  - rewrite IH. destruct (Str.chr_eqb c sep); [reflexivity|].
    destruct (Str.split sep a) as [|h t] eqn:E.
    + exfalso. exact (split_nonempty sep a E).
    + reflexivity.
Qed.

Lemma join_cons_char (sep : string) (c : ascii) (h : string)
    (t : list string) :
  Str.join sep (String c h :: t) = String c (Str.join sep (h :: t)).
Proof. destruct t; reflexivity. Qed.

(** [sep.join(s.split(sep)) == s] *)
Lemma join_split (sep : ascii) (s : string) :
  Str.join (String sep "") (Str.split sep s) = s.
Proof.
  induction s as [|c s IH]; simpl; [reflexivity|].
  destruct (Str.chr_eqb c sep) eqn:E.
  - apply chr_eqb_eq in E. subst c.
    destruct (Str.split sep s) as [|h t] eqn:S.
    + exfalso. exact (split_nonempty sep s S).
    + cbn [Str.join]. cbn [Str.join] in IH. rewrite IH. reflexivity.
  - destruct (Str.split sep s) as [|h t] eqn:S.
    + exfalso. exact (split_nonempty sep s S).
    + rewrite join_cons_char, IH. reflexivity.
Qed.

Lemma all_chars_app (p : ascii -> bool) (a b : string) :
  Str.all_chars p (a ++ b) = Str.all_chars p a && Str.all_chars p b.
Proof.
  induction a as [|c a IH]; simpl; [reflexivity|].
  rewrite IH. apply andb_assoc.
Qed.

(** [os.path.basename] of a path without slash is the path. *)
Lemma basename_no_sep (p : string) :
  Str.mem "/" p = false -> os_path.basename p = p.
Proof.
  intros H. unfold os_path.basename. apply rcut_none in H. rewrite H.
  reflexivity.
Qed.

(** [os.path.basename(dir + "/" + name) == name] for a name without
    slash. *)
Lemma basename_app (dir name : string) :
  Str.mem "/" name = false ->
  os_path.basename (dir ++ String "/" name) = name.
Proof.
  intros H. unfold os_path.basename. rewrite (rcut_app "/" dir name H).
  reflexivity.
Qed.

(** [os.path.splitext(p + "." + e) == (p, "." + e)] when [e] has neither
    dot nor slash and the last component of [p] is not made of dots. *)
Lemma splitext_app (p e : string) :
  Str.mem "." e = false ->
  Str.mem "/" e = false ->
  Str.all_chars os_path.is_dot (os_path.basename p) = false ->
  os_path.splitext (p ++ String "." e) = (p, String "." e).
Proof.
  intros Hd Hs Hn. unfold os_path.splitext.
  rewrite (rcut_app "." p e Hd), Hs, Hn. reflexivity.
Qed.

End MoreStrings.

(** ** When [create_item] returns *)

Section ReturnsIff.

Variable co : constants.
Variable rasterio_open : string -> result rasterio.DatasetReader.
Variable isoparse : string -> result pystac.datetime.

Lemma read_raster_inv (m : string -> string) (href : string) (ra : Raster) :
  read_raster rasterio_open m href = Ok ra ->
  exists ds c,
    rasterio_open (m href) = Ok ds
    /\ rasterio.crs ds = Some c
    /\ rasterio.to_epsg c = Some 4326%Z
    /\ ra = {| raster_bbox := rasterio.bounds_list (rasterio.bounds ds);
               raster_geometry := box_mapping (rasterio.bounds ds);
               raster_transform := rasterio.transform ds;
               raster_shape := rasterio.shape ds |}.
Proof.
  unfold read_raster. intros H.
  destruct (rasterio_open (m href)) as [ds|] eqn:Eo; [|discriminate].
  cbn [rbind] in H.
  destruct (rasterio.crs ds) as [c|] eqn:Ec; [|discriminate].
  cbn [rbind] in H.
  destruct (rasterio.to_epsg c) as [z|] eqn:E; [|discriminate].
  cbn [epsg_is_4326] in H.
  destruct (Z.eqb_spec z 4326); [|discriminate].
  subst z. cbn [negb] in H. injection H as <-.
  exists ds, c. repeat split; reflexivity || assumption.
Qed.

(** The Item of line 218, with its collection. *)
Lemma new_item_inv (root_href : string) (r : Representative) (ra : Raster)
    (item : pystac.Item) (collection : string) :
  new_item isoparse root_href r ra = Ok (item, collection) ->
  exists band dt,
    list_index (Str.split "_" (filename r)) 2 = Ok band
    /\ isoparse ("20" ++ year r ++ "-01-01T00:00:00Z") = Ok dt
    /\ collection = (if String.eqb band "C" then "alos-fnf-mosaic"
                     else "alos-palsar-mosaic")
    /\ pystac.id item = (item_root r ++
                         if String.eqb band "C" then "_FNF" else "_MOS")%string
    /\ pystac.item_datetime item = dt
    /\ pystac.bbox item = raster_bbox ra
    /\ pystac.geometry item = raster_geometry ra
    /\ pystac.collection_id item = Some collection
    /\ pystac.links item
       = [ {| pystac.rel := "collection";
              pystac.target :=
                os_path.join root_href (collection ++ ".json") |} ]
    /\ pystac.properties item
       = [("title", VStr (pystac.id item));
          ("description",
           VStr (if String.eqb band "C"
                 then "Forest/Non-Forest Classification"
                 else "Annual PALSAR Mosaic"));
          ("start_datetime", VStr ("20" ++ year r ++ "-01-01T00:00:00Z"));
          ("end_datetime", VStr ("20" ++ year r ++ "-12-31T23:59:59Z"))]
    /\ pystac.stac_extensions item = []
    /\ pystac.assets item = [].
Proof.
  unfold new_item. intros H.
  destruct (list_index (Str.split "_" (filename r)) 2) as [band|];
    [|discriminate].
  cbn [rbind] in H. exists band.
  destruct (String.eqb band "C");
    (destruct (isoparse _) as [dt|] eqn:E; [|discriminate]);
    cbn [rbind] in H; injection H as <- <-;
    exists dt; repeat (split; [reflexivity|]); reflexivity.
Qed.

(** The descriptor stage does nothing for the forest collection. *)
Lemma set_sar_forest (r : Representative) (i : pystac.Item) :
  set_sar co "alos-fnf-mosaic" r i = (Ok tt, i).
Proof. reflexivity. Qed.

Lemma list_last_split (sep : ascii) (s : string) :
  exists t, list_last (Str.split sep s) = Ok t.
Proof.
  unfold list_last.
  destruct (rev (Str.split sep s)) as [|t l] eqn:E.
  - exfalso. apply (split_nonempty sep s).
    rewrite <- (rev_involutive (Str.split sep s)), E. reflexivity.
  - exists t. reflexivity.
Qed.

(** The fields of an accepted code. *)
Lemma match_fields (code : string) (m : dict string) :
  re.match_ FILENAME_PARTS code = Some m ->
  exists c0 c1 c2 c3 c4 c5 rest,
    code = String c0 (String c1 (String c2 (String c3 (String c4
             (String c5 rest)))))
    /\ m = [("MODE", String c0 ""); ("BEAM_NUMBER", String c1 (String c2 ""));
            ("POLARIZATIONS", String c3 ""); ("ORBIT", String c4 "");
            ("OBSERVATION", String c5 "")]
    /\ re.class_matches (re.OneOf "F|U") c0 = true
    /\ re.is_word c1 = true /\ re.is_word c2 = true
    /\ re.class_matches (re.OneOf "D|Q") c3 = true
    /\ re.class_matches (re.OneOf "A|D") c4 = true
    /\ re.class_matches (re.OneOf "R|L") c5 = true.
Proof.
  rewrite match_FILENAME_PARTS.
  destruct code as [|c0 [|c1 [|c2 [|c3 [|c4 [|c5 rest]]]]]];
    try discriminate.
  destruct (re.class_matches (re.OneOf "F|U") c0) eqn:E0; [|discriminate].
  destruct (re.is_word c1) eqn:E1; [|discriminate].
  destruct (re.is_word c2) eqn:E2; [|discriminate].
  destruct (re.class_matches (re.OneOf "D|Q") c3) eqn:E3; [|discriminate].
  destruct (re.class_matches (re.OneOf "A|D") c4) eqn:E4; [|discriminate].
  destruct (re.class_matches (re.OneOf "R|L") c5) eqn:E5; [|discriminate].
  cbn [andb]. intros H. injection H as <-.
  exists c0, c1, c2, c3, c4, c5, rest. repeat split; assumption.
Qed.

(** The descriptor stage of a mosaic returns exactly when the pattern
    accepts the last token of the filename. *)
Lemma set_sar_mosaic_inv (r : Representative) (i i3 : pystac.Item) :
  set_sar co "alos-palsar-mosaic" r i = (Ok tt, i3) ->
  exists code m,
    list_last (Str.split "_" (filename r)) = Ok code
    /\ re.match_ FILENAME_PARTS code = Some m.
Proof.
  intros H. destruct (list_last_split "_" (filename r)) as [code Hc].
  exists code. destruct (re.match_ FILENAME_PARTS code) as [m|] eqn:Hm.
  - exists m. split; [exact Hc|reflexivity].
  - rewrite (set_sar_rejects co r i code Hc Hm) in H. discriminate.
Qed.

End ReturnsIff.

(** ** The Item [create_item] returns *)

Section NormalForm.

Variable co : constants.
Variable rasterio_open : string -> result rasterio.DatasetReader.
Variable isoparse : string -> result pystac.datetime.

Lemma item_ext (i j : pystac.Item) :
  pystac.id i = pystac.id j ->
  pystac.geometry i = pystac.geometry j ->
  pystac.bbox i = pystac.bbox j ->
  pystac.item_datetime i = pystac.item_datetime j ->
  pystac.properties i = pystac.properties j ->
  pystac.stac_extensions i = pystac.stac_extensions j ->
  pystac.collection_id i = pystac.collection_id j ->
  pystac.links i = pystac.links j ->
  pystac.assets i = pystac.assets j ->
  i = j.
Proof.
  destruct i, j. cbn. intros. subst. reflexivity.
Qed.

Lemma same_frame_refl (i : pystac.Item) : same_frame i i.
Proof. repeat split. Qed.

Lemma same_frame_trans (i j k : pystac.Item) :
  same_frame i j -> same_frame j k -> same_frame i k.
Proof.
  unfold same_frame. intros (A1 & A2 & A3 & A4 & A5 & A6)
                            (B1 & B2 & B3 & B4 & B5 & B6).
  repeat split; congruence.
Qed.

Lemma ext_list_idempotent (e : pystac.extension)
    (l : list pystac.extension) :
  ext_list e (ext_list e l) = ext_list e l.
Proof.
  unfold ext_list.
  destruct (existsb (pystac.extension_eqb e) l) eqn:E.
  - rewrite E. reflexivity.
  - rewrite existsb_app, E. cbn.
    replace (pystac.extension_eqb e e) with true by (destruct e; reflexivity).
    reflexivity.
Qed.

(** One turn of the loop: what it leaves of the Item it finds. *)
Lemma add_one_asset_effect (root_href : string) (r : Representative) (y : Z)
    (key location : string) (i : pystac.Item) :
  PyInt.int (year r) = Ok y ->
  exists i',
    add_one_asset co root_href r (key, location) i = (Ok tt, i')
    /\ same_frame i i'
    /\ pystac.properties i' = pystac.properties i
    /\ pystac.assets i'
       = Dict.set (pystac.assets i) key
           (asset_of co root_href r y key location)
    /\ pystac.stac_extensions i'
       = if raster_kind root_href (key, location)
         then ext_list pystac.RasterExtension (pystac.stac_extensions i)
         else pystac.stac_extensions i.
Proof.
  clear rasterio_open isoparse.
  intros Hy.
  destruct (add_one_asset_run co root_href r y key location i Hy)
    as (i' & R & P & A).
  exists i'. split; [exact R|].
  revert R. unfold add_one_asset, raster_kind, asset_location. cbn [snd].
  set (href := if (0 <? String.length root_href)%nat
               then os_path.join root_href (os_path.basename location)
               else location).
  destruct (Str.endswith href ".xml");
    unfold mbind, modify, get_item, lift, mret, Dict.item;
    cbn [pystac.assets pystac.add_asset pystac.with_assets];
    rewrite get_set_same; cbn [pystac.media_type pystac.MediaType_eqb negb].
  - intros R. injection R as <-.
    split; [repeat split|]. split; [exact P|]. split; [exact A|reflexivity].
  - rewrite Hy.
    destruct (Dict.get (ALOS_BANDS co) key) as [[|e b]|];
      cbn [truthy_dict];
      destruct (String.eqb key "C"); try destruct (String.eqb key "mask");
      intros R; injection R as <-;
      (split; [repeat split|]); (split; [exact P|]);
      (split; [exact A|reflexivity]).
Qed.

(** The loop over the whole mapping. *)
Lemma add_assets_effect (root_href : string) (r : Representative) (y : Z)
    (l : dict string) :
  PyInt.int (year r) = Ok y ->
  forall i,
  exists i',
    for_each l (add_one_asset co root_href r) i = (Ok tt, i')
    /\ same_frame i i'
    /\ pystac.properties i' = pystac.properties i
    /\ pystac.assets i'
       = fold_left
           (fun d kv => Dict.set d (fst kv)
                          (asset_of co root_href r y (fst kv) (snd kv)))
           l (pystac.assets i)
    /\ pystac.stac_extensions i'
       = if existsb (raster_kind root_href) l
         then ext_list pystac.RasterExtension (pystac.stac_extensions i)
         else pystac.stac_extensions i.
Proof.
  clear rasterio_open isoparse.
  intros Hy. induction l as [|[k v] l IH]; intros i.
  - exists i. split; [reflexivity|]. split; [apply same_frame_refl|].
    repeat split.
  - destruct (add_one_asset_effect root_href r y k v i Hy)
      as (i1 & R1 & F1 & P1 & A1 & E1).
    destruct (IH i1) as (i' & R & F & P & A & E).
    exists i'. split; [|split; [|split; [|split]]].
    + cbn [for_each]. unfold mbind. rewrite R1. exact R.
    + exact (same_frame_trans _ _ _ F1 F).
    + rewrite P. exact P1.
    + rewrite A, A1. reflexivity.
    + rewrite E, E1. cbn [existsb].
      destruct (raster_kind root_href (k, v)); cbn [orb].
      * rewrite ext_list_idempotent.
        destruct (existsb (raster_kind root_href) l); reflexivity.
      * reflexivity.
Qed.

(** The pattern and the descriptor of a code. *)
Lemma match_descriptor (code : string) :
  re.match_ FILENAME_PARTS code
  = match descriptor_of code with
    | Some d =>
        Some [("MODE", chr (d_mode d));
              ("BEAM_NUMBER", String (d_beam1 d) (chr (d_beam2 d)));
              ("POLARIZATIONS", chr (d_polarizations d));
              ("ORBIT", chr (d_orbit d));
              ("OBSERVATION", chr (d_observation d))]
    | None => None
    end.
Proof.
  rewrite match_FILENAME_PARTS. unfold descriptor_of.
  destruct code as [|c0 [|c1 [|c2 [|c3 [|c4 [|c5 rest]]]]]];
    try reflexivity.
  destruct (re.class_matches (re.OneOf "F|U") c0 && re.is_word c1
            && re.is_word c2 && re.class_matches (re.OneOf "D|Q") c3
            && re.class_matches (re.OneOf "A|D") c4
            && re.class_matches (re.OneOf "R|L") c5); reflexivity.
Qed.

(** The descriptor stage of a mosaic with an accepted code: the two
    extensions and the nine properties. *)
Lemma set_sar_descriptor (r : Representative) (i : pystac.Item)
    (code : string) (d : Descriptor) :
  list_last (Str.split "_" (filename r)) = Ok code ->
  descriptor_of code = Some d ->
  exists i3,
    set_sar co "alos-palsar-mosaic" r i = (Ok tt, i3)
    /\ same_frame i i3
    /\ pystac.assets i3 = pystac.assets i
    /\ pystac.stac_extensions i3
       = ext_list pystac.SatExtension
           (ext_list pystac.SarExtension (pystac.stac_extensions i))
    /\ pystac.properties i3
       = dict_merge (pystac.properties i) (descriptor_properties co d).
Proof.
  clear rasterio_open isoparse.
  intros Hc Hd. unfold set_sar, mbind, lift, modify.
  cbn [String.eqb Ascii.eqb Bool.eqb]. rewrite Hc, match_descriptor, Hd.
  cbn [Dict.item Dict.get String.eqb Ascii.eqb Bool.eqb].
  eexists. split; [reflexivity|]. repeat split.
Qed.

End NormalForm.

Section Characterisation.

Variable co : constants.
Variable rasterio_open : string -> result rasterio.DatasetReader.
Variable isoparse : string -> result pystac.datetime.

(** Under the conditions of [derivable], [create_item] returns the Item
    [derived_item]. *)
Lemma create_item_forward (assets_hrefs : dict string) (root_href : string)
    (read_href_modifier : option (string -> string)) (g : Ingredients) :
  derivable co rasterio_open isoparse assets_hrefs read_href_modifier g ->
  create_item co rasterio_open isoparse assets_hrefs root_href
    read_href_modifier
  = Returned (derived_item co root_href assets_hrefs g).
Proof.
  destruct g as [r ds dt y p ins od]. unfold derivable.
  cbn [g_parameters g_dataset g_datetime g_year g_platform g_instrument
       g_descriptor].
  intros (Hr & Ho & (c & Hc & He) & Hd & Hy & Hp & Hi & Hdesc).
  rewrite create_item_stages, Hr.
  unfold read_raster. rewrite Ho. cbn [rbind]. rewrite Hc. cbn [rbind].
  rewrite He. cbn [epsg_is_4326 Z.eqb Pos.eqb negb].
  destruct (general_parameters_first _ _ Hr) as (_ & _ & _ & band & Hb & Hf).
  unfold new_item. rewrite Hb. cbn [rbind]. rewrite <- Hf.
  destruct (is_fnf r) eqn:Ef; rewrite Hd; cbn [rbind];
    rewrite (set_common_metadata_returns co _ y p ins _ Hy Hp Hi);
    unfold set_projection, mbind, modify.
  - rewrite set_sar_forest.
    match goal with
    | |- context [for_each _ _ ?i] =>
        destruct (add_assets_effect co root_href r y assets_hrefs Hy i)
          as (i4 & -> & F & P & A & E)
    end.
    f_equal. destruct F as (F1 & F2 & F3 & F4 & F5 & F6).
    subst od. apply item_ext; cbn;
      unfold item_id_of, collection_of, derived_properties, derived_assets;
      cbn; rewrite ?Ef;
      try assumption.
    rewrite E. cbn.
    destruct (existsb (raster_kind root_href) assets_hrefs); reflexivity.
  - destruct Hdesc as (code & d & Hcode & Hdes & ->).
    match goal with
    | |- context [set_sar co _ r ?i] =>
        destruct (set_sar_descriptor co r i code d Hcode Hdes)
          as (i3 & -> & F3 & A3 & E3 & P3)
    end.
    destruct (add_assets_effect co root_href r y assets_hrefs Hy i3)
      as (i4 & -> & F & P & A & E).
    f_equal.
    destruct (same_frame_trans _ _ _ F3 F) as (F1 & F2 & F4 & F5 & F6 & F7).
    apply item_ext; cbn;
      unfold item_id_of, collection_of, derived_properties, derived_assets;
      cbn; rewrite ?Ef;
      try assumption;
      try (rewrite P, P3; reflexivity);
      try (rewrite A, A3; reflexivity).
    rewrite E, E3. cbn.
    destruct (existsb (raster_kind root_href) assets_hrefs); reflexivity.
Qed.

(** When [create_item] returns, the conditions of [derivable] hold. *)
Lemma create_item_backward (assets_hrefs : dict string) (root_href : string)
    (read_href_modifier : option (string -> string)) (item : pystac.Item) :
  create_item co rasterio_open isoparse assets_hrefs root_href
    read_href_modifier = Returned item ->
  exists g,
    derivable co rasterio_open isoparse assets_hrefs read_href_modifier g.
Proof.
  intros H. rewrite create_item_stages in H.
  destruct (general_parameters assets_hrefs) as [r|] eqn:Hr; [|discriminate].
  destruct (read_raster rasterio_open _ (asset_href r)) as [ra|] eqn:Hra;
    [|discriminate].
  destruct (new_item isoparse root_href r ra) as [[item0 collection]|] eqn:Hn;
    [|discriminate].
  destruct (set_common_metadata co (year r) item0) as [[[]|] i1] eqn:S1;
    [|discriminate].
  destruct (set_projection_run co ra i1) as (i2 & S2 & _). rewrite S2 in H.
  destruct (set_sar co collection r i2) as [[[]|] i3] eqn:S3; [|discriminate].
  clear H.
  destruct (read_raster_inv _ _ _ _ Hra) as (ds & c & Ho & Hc & He & _).
  destruct (new_item_inv _ _ _ _ _ _ Hn)
    as (band & dt & Hb & Hd & Hcoll & _).
  destruct (set_common_metadata_reads_year co _ _ _ S1) as [y Hy].
  destruct (set_common_metadata_run co _ _ _ _ Hy S1)
    as (p & ins & Hp & Hi & _).
  destruct (general_parameters_first _ _ Hr) as (_ & _ & _ & band' & Hb' & Hf).
  rewrite Hb in Hb'. injection Hb' as <-.
  destruct (is_fnf r) eqn:Ef.
  - exists {| g_parameters := r; g_dataset := ds; g_datetime := dt;
              g_year := y; g_platform := p; g_instrument := ins;
              g_descriptor := None |}.
    unfold derivable. cbn. rewrite Ef.
    repeat (split; [assumption || (exists c; split; assumption)|]).
    reflexivity.
  - rewrite <- Hf in Hcoll. subst collection.
    destruct (set_sar_mosaic_inv co _ _ _ S3) as (code & m & Hcode & Hm).
    rewrite match_descriptor in Hm.
    destruct (descriptor_of code) as [d|] eqn:Hdes; [|discriminate].
    exists {| g_parameters := r; g_dataset := ds; g_datetime := dt;
              g_year := y; g_platform := p; g_instrument := ins;
              g_descriptor := Some d |}.
    unfold derivable. cbn. rewrite Ef.
    repeat (split; [assumption || (exists c; split; assumption)|]).
    exists code, d. repeat split; assumption.
Qed.

End Characterisation.

Section Corollaries.

Variable co : constants.
Variable rasterio_open : string -> result rasterio.DatasetReader.
Variable isoparse : string -> result pystac.datetime.

(** [d[k] = v] for a key that [d] does not have appends the entry. *)
Lemma set_absent {V : Type} (d : dict V) (k : string) (v : V) :
  ~ In k (Dict.keys d) -> Dict.set d k v = (d ++ [(k, v)])%list.
Proof.
  clear co rasterio_open isoparse.
  induction d as [|[k' v'] d IH]; cbn; intros N; [reflexivity|].
  destruct (String.eqb k' k) eqn:E.
  - apply String.eqb_eq in E. tauto.
  - rewrite IH by tauto. reflexivity.
Qed.

(** Filling a dictionary from a mapping with distinct keys keeps the
    entries in the order of the mapping. *)
Lemma fold_set_distinct {V : Type} (f : string -> string -> V)
    (l : dict string) (d : dict V) :
  NoDup (Dict.keys d ++ Dict.keys l) ->
  fold_left (fun d kv => Dict.set d (fst kv) (f (fst kv) (snd kv))) l d
  = (d ++ map (fun kv => (fst kv, f (fst kv) (snd kv))) l)%list.
Proof.
  clear co rasterio_open isoparse.
  revert d. induction l as [|[k v] l IH]; cbn; intros d N.
  - rewrite app_nil_r. reflexivity.
  - assert (Nk : ~ In k (Dict.keys d)).
    { apply NoDup_remove_2 in N. intros I. apply N.
      apply in_or_app. left. exact I. }
    rewrite (set_absent d k (f k v) Nk), IH.
    + rewrite <- app_assoc. reflexivity.
    + unfold Dict.keys in *. rewrite map_app. cbn.
      rewrite <- app_assoc. cbn.
      apply NoDup_remove_1 in N as N1.
      apply NoDup_remove_2 in N as N2.
      clear IH Nk. revert N1 N2.
      generalize (map fst d) (map fst l). intros a b.
      induction a as [|x a IHa]; cbn; intros N1 N2.
      * constructor; assumption.
      * inversion N1 as [|? ? Nx N1']; subst. constructor.
        -- intros I. apply in_app_or in I. destruct I as [I|[<-|I]].
           ++ apply Nx. apply in_or_app. left. exact I.
           ++ apply N2. left. reflexivity.
           ++ apply Nx. apply in_or_app. right. exact I.
        -- apply IHa; [exact N1'|]. intros I. apply N2. right. exact I.
Qed.

Lemma derived_assets_distinct (root_href : string) (r : Representative)
    (y : Z) (assets_hrefs : dict string) :
  NoDup (Dict.keys assets_hrefs) ->
  derived_assets co root_href r y assets_hrefs
  = map (fun kv => (fst kv, asset_of co root_href r y (fst kv) (snd kv)))
      assets_hrefs.
Proof.
  clear rasterio_open isoparse.
  intros N. unfold derived_assets.
  rewrite (fold_set_distinct (asset_of co root_href r y)); [reflexivity|].
  exact N.
Qed.

End Corollaries.

Section ReturnedItem.

Variable co : constants.
Variable rasterio_open : string -> result rasterio.DatasetReader.
Variable isoparse : string -> result pystac.datetime.

Lemma returned_is_derived (assets_hrefs : dict string)
    (root_href : string) (read_href_modifier : option (string -> string))
    (item : pystac.Item) :
  create_item co rasterio_open isoparse assets_hrefs root_href
    read_href_modifier = Returned item ->
  exists g,
    derivable co rasterio_open isoparse assets_hrefs read_href_modifier g
    /\ item = derived_item co root_href assets_hrefs g.
Proof.
  intros H.
  destruct (create_item_backward co rasterio_open isoparse _ _ _ _ H)
    as [g D].
  exists g. split; [exact D|].
  pose proof (create_item_forward co rasterio_open isoparse
                assets_hrefs root_href read_href_modifier g D) as F.
  rewrite H in F. injection F as ->. reflexivity.
Qed.

(** The lookup in a mapping with distinct keys that was transformed entry
    by entry. *)
Lemma get_map_distinct {V : Type} (f : string -> string -> V)
    (l : dict string) (k v : string) :
  NoDup (Dict.keys l) -> In (k, v) l ->
  Dict.get (map (fun kv => (fst kv, f (fst kv) (snd kv))) l) k
  = Some (f k v).
Proof.
  clear co rasterio_open isoparse.
  induction l as [|[k' v'] l IH]; cbn; intros N I; [contradiction|].
  inversion N as [|? ? Nk N']; subst.
  destruct I as [I|I].
  - injection I as -> ->. rewrite String.eqb_refl. reflexivity.
  - destruct (String.eqb k' k) eqn:E.
    + apply String.eqb_eq in E. subst k'. exfalso. apply Nk.
      change k with (fst (k, v)). apply in_map. exact I.
    + apply IH; assumption.
Qed.

End ReturnedItem.

(** * Further properties of the code *)

(** ** What [create_item] returns *)

(** X1. [create_item] returns an Item exactly when the general parameters
    can be read from the first location of the mapping, the raster at that
    location (once rewritten by the modifier) opens and is in EPSG:4326,
    the start timestamp parses, the year is an integer literal for which
    the platform and instrument tables have an entry, and, for a mosaic,
    the last token of the file name starts with a descriptor; and the Item
    it then returns is the one these ingredients determine. *)
Theorem create_item_returns_exactly :
  forall (co : constants)
         (rasterio_open : string -> result rasterio.DatasetReader)
         (isoparse : string -> result pystac.datetime)
         (assets_hrefs : dict string) (root_href : string)
         (read_href_modifier : option (string -> string))
         (item : pystac.Item),
    create_item co rasterio_open isoparse assets_hrefs root_href
      read_href_modifier = Returned item
    <-> exists g,
          derivable co rasterio_open isoparse assets_hrefs
            read_href_modifier g
          /\ item = derived_item co root_href assets_hrefs g.
Proof.
  intros co ro iso assets root m item. split.
  - apply returned_is_derived.
  - intros (g & D & ->). apply create_item_forward. exact D.
Qed.

Lemma create_item_returns_exactly_witness :
  exists item,
    example_item 4326 Example.forest_2010 = Returned item
    /\ exists g,
         derivable Example.co (Example.rasterio_open 4326) Example.isoparse
           Example.forest_2010 None g
         /\ item = derived_item Example.co "" Example.forest_2010 g.
Proof.
  assert (E : exists item,
             example_item 4326 Example.forest_2010 = Returned item)
    by (vm_compute; eexists; reflexivity).
  destruct E as [item E]. exists item. split; [exact E|].
  exact (proj1 (create_item_returns_exactly _ _ _ _ _ _ item) E).
Defined.

(** X2. A returned Item has exactly these properties, in this order: the
    eleven of every Item ([title], [description], the two timestamps,
    [platform], [instruments], [gsd] and the four projection attributes),
    followed, for a mosaic and only for a mosaic, by the nine properties
    of the radar descriptor. *)
Theorem item_property_keys :
  forall (co : constants)
         (rasterio_open : string -> result rasterio.DatasetReader)
         (isoparse : string -> result pystac.datetime)
         (assets_hrefs : dict string) (root_href : string)
         (read_href_modifier : option (string -> string))
         (item : pystac.Item),
    create_item co rasterio_open isoparse assets_hrefs root_href
      read_href_modifier = Returned item ->
    exists r,
      general_parameters assets_hrefs = Ok r
      /\ Dict.keys (pystac.properties item)
         = (["title"; "description"; "start_datetime"; "end_datetime";
             "platform"; "instruments"; "gsd"; "proj:epsg"; "proj:bbox";
             "proj:shape"; "proj:transform"]
            ++ (if is_fnf r then [] else descriptor_keys))%list.
Proof.
  intros co ro iso assets root m item H.
  destruct (returned_is_derived co ro iso _ _ _ _ H) as (g & D & ->).
  destruct D as (Hr & _ & _ & _ & _ & _ & _ & Hd).
  exists (g_parameters g). split; [exact Hr|].
  cbn [derived_item pystac.properties]. unfold derived_properties, Dict.keys.
  rewrite map_app. cbn [map fst]. f_equal.
  destruct (is_fnf (g_parameters g)).
  - rewrite Hd. reflexivity.
  - destruct Hd as (code & d & _ & _ & ->). reflexivity.
Qed.

Lemma item_property_keys_witness :
  exists item,
    example_item 4326 Example.mosaic_2017 = Returned item
    /\ List.length (Dict.keys (pystac.properties item)) = 20.
Proof.
  assert (E : exists item,
             example_item 4326 Example.mosaic_2017 = Returned item)
    by (vm_compute; eexists; reflexivity).
  destruct E as [item E]. exists item. split; [exact E|].
  destruct (item_property_keys _ _ _ _ _ _ item E) as (r & Hr & ->).
  assert (F : is_fnf r = false).
  { assert (R : match general_parameters Example.mosaic_2017 with
                | Ok r' => is_fnf r' = false
                | Err _ => False
                end) by (vm_compute; reflexivity).
    rewrite Hr in R. exact R. }
  rewrite F. reflexivity.
Defined.

(** X3. The identifier of a returned Item is the item root followed by
    [_FNF] for a forest classification and by [_MOS] for a mosaic; its
    title is its identifier; its collection is [alos-fnf-mosaic] or
    [alos-palsar-mosaic] accordingly; and its only link is the
    [collection] link, whose target is the collection's name with [.json]
    joined to [root_href]. *)
Theorem item_identity_and_collection :
  forall (co : constants)
         (rasterio_open : string -> result rasterio.DatasetReader)
         (isoparse : string -> result pystac.datetime)
         (assets_hrefs : dict string) (root_href : string)
         (read_href_modifier : option (string -> string))
         (item : pystac.Item),
    create_item co rasterio_open isoparse assets_hrefs root_href
      read_href_modifier = Returned item ->
    exists r collection,
      general_parameters assets_hrefs = Ok r
      /\ collection = (if is_fnf r then "alos-fnf-mosaic"
                       else "alos-palsar-mosaic")
      /\ pystac.id item
         = (item_root r ++ (if is_fnf r then "_FNF" else "_MOS"))%string
      /\ Dict.get (pystac.properties item) "title"
         = Some (VStr (pystac.id item))
      /\ pystac.collection_id item = Some collection
      /\ pystac.links item
         = [ {| pystac.rel := "collection";
                pystac.target :=
                  os_path.join root_href (collection ++ ".json") |} ].
Proof.
  intros co ro iso assets root m item H.
  destruct (returned_is_derived co ro iso _ _ _ _ H) as (g & D & ->).
  destruct D as (Hr & _).
  exists (g_parameters g), (collection_of (g_parameters g)).
  split; [exact Hr|]. repeat split.
Qed.

Lemma item_identity_and_collection_witness :
  exists item,
    example_item 4326 Example.forest_2010 = Returned item
    /\ pystac.collection_id item = Some "alos-fnf-mosaic".
Proof.
  assert (E : exists item,
             example_item 4326 Example.forest_2010 = Returned item)
    by (vm_compute; eexists; reflexivity).
  destruct E as [item E]. exists item. split; [exact E|].
  destruct (item_identity_and_collection _ _ _ _ _ _ item E)
    as (r & c & Hr & Hc & _ & _ & Hi & _).
  assert (F : is_fnf r = true).
  { assert (R : match general_parameters Example.forest_2010 with
                | Ok r' => is_fnf r' = true
                | Err _ => False
                end) by (vm_compute; reflexivity).
    rewrite Hr in R. exact R. }
  rewrite F in Hc. rewrite Hi, Hc. reflexivity.
Defined.

(** X4. The time span of a returned Item is the calendar year written
    [20yy], where [yy] is the second underscore-separated token of the
    name of the first location of the mapping: the Item starts on 1
    January at 00:00:00Z and ends on 31 December at 23:59:59Z of that
    year, and its datetime is the parsed start. *)
Theorem item_time_span :
  forall (co : constants)
         (rasterio_open : string -> result rasterio.DatasetReader)
         (isoparse : string -> result pystac.datetime)
         (assets_hrefs : dict string) (root_href : string)
         (read_href_modifier : option (string -> string))
         (item : pystac.Item),
    create_item co rasterio_open isoparse assets_hrefs root_href
      read_href_modifier = Returned item ->
    exists first yy,
      list_index (Dict.values assets_hrefs) 0 = Ok first
      /\ list_index (Str.split "_" (os_path.basename first)) 1 = Ok yy
      /\ Dict.get (pystac.properties item) "start_datetime"
         = Some (VStr ("20" ++ yy ++ "-01-01T00:00:00Z"))
      /\ Dict.get (pystac.properties item) "end_datetime"
         = Some (VStr ("20" ++ yy ++ "-12-31T23:59:59Z"))
      /\ isoparse ("20" ++ yy ++ "-01-01T00:00:00Z")%string
         = Ok (pystac.item_datetime item).
Proof.
  intros co ro iso assets root m item H.
  destruct (returned_is_derived co ro iso _ _ _ _ H) as (g & D & ->).
  destruct D as (Hr & _ & _ & Hd & _).
  destruct (general_parameters_first _ _ Hr) as (Hf & _ & Hy & _).
  exists (asset_href (g_parameters g)), (year (g_parameters g)).
  repeat split; assumption.
Qed.

Lemma item_time_span_witness :
  exists item,
    example_item 4326 Example.mosaic_2017 = Returned item
    /\ Dict.get (pystac.properties item) "end_datetime"
       = Some (VStr "2017-12-31T23:59:59Z").
Proof.
  assert (E : exists item,
             example_item 4326 Example.mosaic_2017 = Returned item)
    by (vm_compute; eexists; reflexivity).
  destruct E as [item E]. exists item. split; [exact E|].
  destruct (item_time_span _ _ _ _ _ _ item E)
    as (first & yy & Hf & Hy & _ & He & _).
  injection Hf as <-. injection Hy as <-. exact He.
Defined.

(** X5. The spatial attributes of a returned Item all come from the one
    raster [create_item] opens, the one at the first location of the
    mapping as rewritten by the modifier: the bounding box is the list of
    its bounds, the geometry the box of these bounds, [proj:bbox] equals
    the bounding box of the Item, [proj:shape] and [proj:transform] are
    its shape and transform; that raster is in EPSG:4326, while
    [proj:epsg] is the constant of the tables. *)
Theorem item_spatial_attributes :
  forall (co : constants)
         (rasterio_open : string -> result rasterio.DatasetReader)
         (isoparse : string -> result pystac.datetime)
         (assets_hrefs : dict string) (root_href : string)
         (read_href_modifier : option (string -> string))
         (item : pystac.Item),
    create_item co rasterio_open isoparse assets_hrefs root_href
      read_href_modifier = Returned item ->
    exists first dataset crs,
      list_index (Dict.values assets_hrefs) 0 = Ok first
      /\ rasterio_open (modifier_of read_href_modifier first) = Ok dataset
      /\ rasterio.crs dataset = Some crs
      /\ rasterio.to_epsg crs = Some 4326%Z
      /\ pystac.bbox item = rasterio.bounds_list (rasterio.bounds dataset)
      /\ pystac.geometry item = box_mapping (rasterio.bounds dataset)
      /\ Dict.get (pystac.properties item) "proj:bbox"
         = Some (VList (map VFloat (pystac.bbox item)))
      /\ Dict.get (pystac.properties item) "proj:shape"
         = Some (VList (map VInt (rasterio.shape dataset)))
      /\ Dict.get (pystac.properties item) "proj:transform"
         = Some (VList (map VFloat (rasterio.transform dataset)))
      /\ Dict.get (pystac.properties item) "proj:epsg"
         = Some (ALOS_PALSAR_EPSG co).
Proof.
  intros co ro iso assets root m item H.
  destruct (returned_is_derived co ro iso _ _ _ _ H) as (g & D & ->).
  destruct D as (Hr & Ho & (c & Hc & He) & _).
  destruct (general_parameters_first _ _ Hr) as (Hf & _).
  exists (asset_href (g_parameters g)), (g_dataset g), c.
  repeat split; assumption.
Qed.

Lemma item_spatial_attributes_witness :
  exists item,
    example_item 4326 Example.mosaic_2017 = Returned item
    /\ Dict.get (pystac.properties item) "proj:shape"
       = Some (VList [VInt 4500; VInt 4500]).
Proof.
  assert (E : exists item,
             example_item 4326 Example.mosaic_2017 = Returned item)
    by (vm_compute; eexists; reflexivity).
  destruct E as [item E]. exists item. split; [exact E|].
  destruct (item_spatial_attributes _ _ _ _ _ _ item E)
    as (first & ds & c & Hf & Ho & _ & _ & _ & _ & _ & Hs & _).
  injection Hf as <-. injection Ho as <-. exact Hs.
Defined.

(** X6. [create_item] opens one raster and no other: the one at the first
    location of the mapping, as rewritten by the modifier.  Two raster
    readers, and two modifiers, that agree there give the same outcome,
    whatever they do on the other locations of the mapping. *)
Theorem only_first_location_is_read :
  forall (co : constants)
         (rasterio_open rasterio_open' : string -> result rasterio.DatasetReader)
         (isoparse : string -> result pystac.datetime)
         (assets_hrefs : dict string) (root_href : string)
         (read_href_modifier read_href_modifier' : option (string -> string)),
    (forall first,
        list_index (Dict.values assets_hrefs) 0 = Ok first ->
        rasterio_open (modifier_of read_href_modifier first)
        = rasterio_open' (modifier_of read_href_modifier' first)) ->
    create_item co rasterio_open isoparse assets_hrefs root_href
      read_href_modifier
    = create_item co rasterio_open' isoparse assets_hrefs root_href
        read_href_modifier'.
Proof.
  intros co ro ro' iso assets root m m' A.
  rewrite !create_item_stages.
  destruct (general_parameters assets) as [r|e] eqn:Hr; [|reflexivity].
  destruct (general_parameters_first _ _ Hr) as (Hf & _).
  specialize (A _ Hf).
  assert (R : read_raster ro (modifier_of m) (asset_href r)
              = read_raster ro' (modifier_of m') (asset_href r))
    by (unfold read_raster; rewrite A; reflexivity).
  rewrite R. reflexivity.
Qed.

Lemma only_first_location_is_read_witness :
  create_item Example.co (Example.rasterio_open 4326) Example.isoparse
    Example.mosaic_2017 "" None
  = create_item Example.co
      (fun location =>
         if String.eqb location "mirror/N05E100_17_date_F02QAR.tif"
         then Ok (Example.dataset 4326)
         else Err (ExternalError "RasterioIOError"))
      Example.isoparse Example.mosaic_2017 ""
      (Some (fun location => ("mirror/" ++ os_path.basename location)%string)).
Proof.
  apply only_first_location_is_read.
  intros first Hf. injection Hf as <-. reflexivity.
Defined.

(** X7. A returned Item has one asset per entry of the mapping, under the
    same keys in the same order.  The asset of an entry is at the location
    of the entry, or, when [root_href] is not empty, at the name of that
    location joined to [root_href]; it is an XML asset with the role
    [metadata] when this location ends in [.xml] and a COG asset with the
    role [data] otherwise; and its title is [FNF] in a forest
    classification and its key in a mosaic. *)
Theorem item_assets_follow_mapping :
  forall (co : constants)
         (rasterio_open : string -> result rasterio.DatasetReader)
         (isoparse : string -> result pystac.datetime)
         (assets_hrefs : dict string) (root_href : string)
         (read_href_modifier : option (string -> string))
         (item : pystac.Item),
    create_item co rasterio_open isoparse assets_hrefs root_href
      read_href_modifier = Returned item ->
    NoDup (Dict.keys assets_hrefs) ->
    exists r,
      general_parameters assets_hrefs = Ok r
      /\ Dict.keys (pystac.assets item) = Dict.keys assets_hrefs
      /\ forall key location,
           In (key, location) assets_hrefs ->
           exists a,
             Dict.get (pystac.assets item) key = Some a
             /\ pystac.href a
                = (if (0 <? String.length root_href)%nat
                   then os_path.join root_href (os_path.basename location)
                   else location)
             /\ (pystac.media_type a, pystac.roles a)
                = (if Str.endswith (pystac.href a) ".xml"
                   then (pystac.XML, ["metadata"])
                   else (pystac.COG, ["data"]))
             /\ pystac.title a = (if is_fnf r then "FNF" else key).
Proof.
  intros co ro iso assets root m item H N.
  destruct (returned_is_derived co ro iso _ _ _ _ H) as (g & D & ->).
  destruct D as (Hr & _).
  exists (g_parameters g). split; [exact Hr|].
  cbn [derived_item pystac.assets].
  rewrite (derived_assets_distinct co root _ _ _ N).
  split.
  - unfold Dict.keys. rewrite map_map. reflexivity.
  - intros key location I.
    exists (asset_of co root (g_parameters g) (g_year g) key location).
    split.
    + exact (get_map_distinct
               (asset_of co root (g_parameters g) (g_year g))
               assets key location N I).
    + unfold asset_of, asset_location.
      destruct (Str.endswith _ ".xml") eqn:E;
        cbn [pystac.href pystac.media_type pystac.roles pystac.title];
        rewrite E; repeat split.
Qed.

Lemma item_assets_follow_mapping_witness :
  exists item,
    create_item Example.co (Example.rasterio_open 4326) Example.isoparse
      Example.mosaic_2017 "https://example.org/alos" None = Returned item
    /\ Dict.keys (pystac.assets item) = quad_keys
    /\ exists a,
         Dict.get (pystac.assets item) "metadata" = Some a
         /\ pystac.href a = "https://example.org/alos/N05E100_17_F02QAR.xml".
Proof.
  assert (E : exists item,
             create_item Example.co (Example.rasterio_open 4326)
               Example.isoparse Example.mosaic_2017
               "https://example.org/alos" None = Returned item)
    by (vm_compute; eexists; reflexivity).
  destruct E as [item E]. exists item. split; [exact E|].
  assert (N : NoDup (Dict.keys Example.mosaic_2017)).
  { unfold Example.mosaic_2017.
    repeat (constructor; [simpl; intuition discriminate|]). constructor. }
  destruct (item_assets_follow_mapping _ _ _ _ _ _ item E N)
    as (r & _ & K & A).
  split; [exact K|].
  destruct (A "metadata" "tiles/N05E100_17_F02QAR.xml") as (a & Ha & Hh & _).
  - simpl. tauto.
  - exists a. split; [exact Ha|exact Hh].
Defined.

(** X8. The extra fields of the assets of a returned Item.  A metadata
    (XML) asset has none.  A raster (COG) asset has a [raster:bands]
    field exactly when the band table has a non-empty entry for its key,
    followed by a [classification:classes] field exactly when its key is
    [C], where it holds the forest classes, or [mask], where it holds the
    mask classes; it has no other field. *)
Theorem asset_extra_fields :
  forall (co : constants)
         (rasterio_open : string -> result rasterio.DatasetReader)
         (isoparse : string -> result pystac.datetime)
         (assets_hrefs : dict string) (root_href : string)
         (read_href_modifier : option (string -> string))
         (item : pystac.Item) (key location : string),
    create_item co rasterio_open isoparse assets_hrefs root_href
      read_href_modifier = Returned item ->
    NoDup (Dict.keys assets_hrefs) ->
    In (key, location) assets_hrefs ->
    exists a r y,
      Dict.get (pystac.assets item) key = Some a
      /\ general_parameters assets_hrefs = Ok r
      /\ PyInt.int (year r) = Ok y
      /\ pystac.extra_fields a
         = (if pystac.MediaType_eqb (pystac.media_type a) pystac.COG then
              (if truthy_dict (Dict.get (ALOS_BANDS co) key) then
                 [("raster:bands",
                   VList [pystac.RasterBand_create (nodata_for y key)
                            match Dict.get (ALOS_BANDS co) key with
                            | Some b => Dict.get b "data_type"
                            | None => None
                            end])]
               else [])
              ++ (if String.eqb key "C" then
                    [("classification:classes",
                      ALOS_FNF_CLASSIFICATION_CLASSES co)]
                  else if String.eqb key "mask" then
                    [("classification:classes",
                      ALOS_MASK_CLASSIFICATION_CLASSES co)]
                  else [])
            else [])%list.
Proof.
  intros co ro iso assets root m item key location H N I.
  destruct (returned_is_derived co ro iso _ _ _ _ H) as (g & D & ->).
  destruct D as (Hr & _ & _ & _ & Hy & _).
  exists (asset_of co root (g_parameters g) (g_year g) key location),
         (g_parameters g), (g_year g).
  split.
  { cbn [derived_item pystac.assets].
    rewrite (derived_assets_distinct co root _ _ _ N).
    exact (get_map_distinct
             (asset_of co root (g_parameters g) (g_year g))
             assets key location N I). }
  split; [exact Hr|]. split; [exact Hy|].
  unfold asset_of.
  destruct (Str.endswith _ ".xml"); [reflexivity|].
  cbn [pystac.media_type pystac.extra_fields pystac.MediaType_eqb].
  destruct (Dict.get (ALOS_BANDS co) key) as [[|e b]|];
    cbn [truthy_dict];
    destruct (String.eqb key "C");
    try destruct (String.eqb key "mask"); reflexivity.
Qed.

Lemma asset_extra_fields_witness :
  exists item a,
    example_item 4326 Example.mosaic_2017 = Returned item
    /\ Dict.get (pystac.assets item) "mask" = Some a
    /\ Dict.keys (pystac.extra_fields a)
       = ["raster:bands"; "classification:classes"].
Proof.
  assert (E : exists item,
             example_item 4326 Example.mosaic_2017 = Returned item)
    by (vm_compute; eexists; reflexivity).
  destruct E as [item E].
  assert (N : NoDup (Dict.keys Example.mosaic_2017)).
  { unfold Example.mosaic_2017.
    repeat (constructor; [simpl; intuition discriminate|]). constructor. }
  assert (I : In ("mask", "tiles/N05E100_17_mask_F02QAR.tif")
                Example.mosaic_2017) by (simpl; tauto).
  destruct (asset_extra_fields _ _ _ _ _ _ item _ _ E N I)
    as (a & r & y & Ha & _ & _ & Hx).
  exists item, a. split; [exact E|]. split; [exact Ha|].
  assert (M : match example_item 4326 Example.mosaic_2017 with
              | Returned i =>
                  match Dict.get (pystac.assets i) "mask" with
                  | Some b => pystac.media_type b = pystac.COG
                  | None => False
                  end
              | Raised _ _ => False
              end) by (vm_compute; reflexivity).
  rewrite E, Ha in M. rewrite Hx, M. reflexivity.
Defined.

(** X9. The extensions a returned Item lists are, in this order and
    without repetition: the projection extension, always; the SAR and
    satellite extensions, for a mosaic and only for a mosaic; the raster
    extension, exactly when some entry of the mapping becomes a raster
    (COG) asset. *)
Theorem item_extensions :
  forall (co : constants)
         (rasterio_open : string -> result rasterio.DatasetReader)
         (isoparse : string -> result pystac.datetime)
         (assets_hrefs : dict string) (root_href : string)
         (read_href_modifier : option (string -> string))
         (item : pystac.Item),
    create_item co rasterio_open isoparse assets_hrefs root_href
      read_href_modifier = Returned item ->
    exists r,
      general_parameters assets_hrefs = Ok r
      /\ pystac.stac_extensions item
         = ([pystac.ProjectionExtension]
            ++ (if is_fnf r then []
                else [pystac.SarExtension; pystac.SatExtension])
            ++ (if existsb
                     (fun kv =>
                        negb (Str.endswith
                                (if (0 <? String.length root_href)%nat
                                 then os_path.join root_href
                                        (os_path.basename (snd kv))
                                 else snd kv) ".xml"))
                     assets_hrefs
                then [pystac.RasterExtension] else []))%list
      /\ NoDup (pystac.stac_extensions item).
Proof.
  intros co ro iso assets root m item H.
  destruct (returned_is_derived co ro iso _ _ _ _ H) as (g & D & ->).
  destruct D as (Hr & _).
  exists (g_parameters g). split; [exact Hr|]. split; [reflexivity|].
  cbn [derived_item pystac.stac_extensions].
  destruct (is_fnf (g_parameters g));
    destruct (existsb (raster_kind root) assets); cbn [app];
    repeat (constructor; [simpl; intuition discriminate|]); constructor.
Qed.

Lemma item_extensions_witness :
  exists item,
    example_item 4326 Example.forest_2010 = Returned item
    /\ pystac.stac_extensions item
       = [pystac.ProjectionExtension; pystac.RasterExtension].
Proof.
  assert (E : exists item,
             example_item 4326 Example.forest_2010 = Returned item)
    by (vm_compute; eexists; reflexivity).
  destruct E as [item E]. exists item. split; [exact E|].
  destruct (item_extensions _ _ _ _ _ _ item E) as (r & Hr & -> & _).
  assert (F : is_fnf r = true).
  { assert (R : match general_parameters Example.forest_2010 with
                | Ok r' => is_fnf r' = true
                | Err _ => False
                end) by (vm_compute; reflexivity).
    rewrite Hr in R. exact R. }
  rewrite F. reflexivity.
Defined.

(** X10. The radar properties of a returned mosaic Item are read from the
    first six characters of the last underscore-separated token of the
    stem of the first location: the first is the instrument mode, the
    second and third the beam number, the fourth the polarization count;
    the polarizations are the dual ones when the fourth is [D] and the
    quad ones otherwise, the orbit is ascending when the fifth is [A] and
    descending otherwise, the observation direction is left when the
    sixth is [L] and right otherwise; the frequency band, the product type
    and the correction factor are the constants of the tables. *)
Theorem mosaic_radar_properties :
  forall (co : constants)
         (rasterio_open : string -> result rasterio.DatasetReader)
         (isoparse : string -> result pystac.datetime)
         (assets_hrefs : dict string) (root_href : string)
         (read_href_modifier : option (string -> string))
         (item : pystac.Item),
    create_item co rasterio_open isoparse assets_hrefs root_href
      read_href_modifier = Returned item ->
    pystac.collection_id item = Some "alos-palsar-mosaic" ->
    exists first code,
      list_index (Dict.values assets_hrefs) 0 = Ok first
      /\ list_last (Str.split "_"
                      (os_path.basename (fst (os_path.splitext first))))
         = Ok code
      /\ 6 <= String.length code
      /\ Dict.get (pystac.properties item) "sar:instrument_mode"
         = Some (VStr (substring 0 1 code))
      /\ Dict.get (pystac.properties item) "palsar:beam_number"
         = Some (VStr (substring 1 2 code))
      /\ Dict.get (pystac.properties item) "palsar:number_of_polarizations"
         = Some (VStr (substring 3 1 code))
      /\ Dict.get (pystac.properties item) "sar:polarizations"
         = Some (if String.eqb (substring 3 1 code) "D"
                 then ALOS_DUAL_POLARIZATIONS co
                 else ALOS_QUAD_POLARIZATIONS co)
      /\ Dict.get (pystac.properties item) "sat:orbit_state"
         = Some (if String.eqb (substring 4 1 code) "A"
                 then pystac.OrbitState.ASCENDING
                 else pystac.OrbitState.DESCENDING)
      /\ Dict.get (pystac.properties item) "sar:observation_direction"
         = Some (if String.eqb (substring 5 1 code) "L"
                 then pystac.ObservationDirection.LEFT
                 else pystac.ObservationDirection.RIGHT)
      /\ Dict.get (pystac.properties item) "sar:frequency_band"
         = Some (ALOS_FREQUENCY_BAND co)
      /\ Dict.get (pystac.properties item) "sar:product_type"
         = Some (ALOS_PRODUCT_TYPE co)
      /\ Dict.get (pystac.properties item) "cf" = Some (ALOS_PALSAR_CF co).
Proof.
  intros co ro iso assets root m item H C.
  destruct (returned_is_derived co ro iso _ _ _ _ H) as (g & D & ->).
  destruct D as (Hr & _ & _ & _ & _ & _ & _ & Hd).
  destruct (general_parameters_first _ _ Hr) as (Hf & Hn & _).
  cbn [derived_item pystac.collection_id] in C. unfold collection_of in C.
  destruct (is_fnf (g_parameters g)); [discriminate|].
  destruct Hd as (code & d & Hc & Hdesc & Hg).
  exists (asset_href (g_parameters g)), code.
  split; [exact Hf|]. split; [rewrite <- Hn; exact Hc|].
  destruct code as [|c0 [|c1 [|c2 [|c3 [|c4 [|c5 rest]]]]]];
    try discriminate.
  cbn [descriptor_of] in Hdesc.
  destruct (re.class_matches (re.OneOf "F|U") c0 && re.is_word c1
            && re.is_word c2 && re.class_matches (re.OneOf "D|Q") c3
            && re.class_matches (re.OneOf "A|D") c4
            && re.class_matches (re.OneOf "R|L") c5); [|discriminate].
  injection Hdesc as <-.
  split; [cbn [String.length]; lia|].
  cbn [derived_item pystac.properties]. unfold derived_properties.
  rewrite Hg.
  repeat split. destruct rest; reflexivity.
Qed.

Lemma mosaic_radar_properties_witness :
  exists item,
    example_item 4326 Example.mosaic_2017 = Returned item
    /\ Dict.get (pystac.properties item) "palsar:beam_number"
       = Some (VStr "02").
Proof.
  assert (E : exists item,
             example_item 4326 Example.mosaic_2017 = Returned item)
    by (vm_compute; eexists; reflexivity).
  destruct E as [item E]. exists item. split; [exact E|].
  assert (C : match example_item 4326 Example.mosaic_2017 with
              | Returned i => pystac.collection_id i
                              = Some "alos-palsar-mosaic"
              | Raised _ _ => False
              end) by (vm_compute; reflexivity).
  rewrite E in C.
  destruct (mosaic_radar_properties _ _ _ _ _ _ item E C)
    as (first & code & Hf & Hc & _ & _ & Hb & _).
  injection Hf as <-.
  assert (L : list_last
                (Str.split "_"
                   (os_path.basename
                      (fst (os_path.splitext
                              "tiles/N05E100_17_date_F02QAR.tif"))))
              = Ok "F02QAR") by (vm_compute; reflexivity).
  rewrite L in Hc. injection Hc as <-. exact Hb.
Defined.

(** ** When [create_item] raises *)

Section Failures.

Lemma append_empty (s : string) : (s ++ "")%string = s.
Proof. induction s as [|c s IH]; cbn; [|rewrite IH]; reflexivity. Qed.

Lemma length_split_cons (sep c : ascii) (r : string) :
  List.length (Str.split sep (String c r))
  = if Str.chr_eqb c sep then S (List.length (Str.split sep r))
    else List.length (Str.split sep r).
Proof.
  cbn [Str.split]. destruct (Str.chr_eqb c sep); [reflexivity|].
  destruct (Str.split sep r) eqn:E; [|reflexivity].
  exfalso. exact (split_nonempty sep r E).
Qed.

(** A longer string has at least as many tokens. *)
Lemma split_length_app (sep : ascii) (a b : string) :
  List.length (Str.split sep a) <= List.length (Str.split sep (a ++ b)).
Proof.
  induction a as [|c a IH].
  - cbn [append Str.split List.length].
    destruct (Str.split sep b) eqn:E;
      [exfalso; exact (split_nonempty sep b E)|]. cbn. lia.
  - change (String c a ++ b)%string with (String c (a ++ b)).
    rewrite !length_split_cons. destruct (Str.chr_eqb c sep); lia.
Qed.

Lemma rcut_app_tail (sep : ascii) (a e : string) :
  Str.mem sep e = false ->
  Str.rcut sep (a ++ e)
  = match Str.rcut sep a with
    | Some (p, q) => Some (p, (q ++ e)%string)
    | None => None
    end.
Proof.
  intros M. induction a as [|c a IH].
  - cbn. apply rcut_none. exact M.
  - cbn [append Str.rcut]. rewrite IH.
    destruct (Str.rcut sep a) as [[p q]|]; [reflexivity|].
    destruct (Str.chr_eqb c sep); reflexivity.
Qed.

(** [os.path.basename(a + e) == os.path.basename(a) + e] for a tail
    without slash. *)
Lemma basename_app_tail (a e : string) :
  Str.mem "/" e = false ->
  os_path.basename (a ++ e) = (os_path.basename a ++ e)%string.
Proof.
  intros M. unfold os_path.basename. rewrite (rcut_app_tail "/" a e M).
  destruct (Str.rcut "/" a) as [[p q]|]; reflexivity.
Qed.

(** [os.path.splitext] cuts a tail without slash. *)
Lemma splitext_prefix (p : string) :
  exists e, p = (fst (os_path.splitext p) ++ e)%string
            /\ Str.mem "/" e = false.
Proof.
  unfold os_path.splitext.
  destruct (Str.rcut "." p) as [[root e]|] eqn:E.
  - destruct (Str.mem "/" e) eqn:M.
    + exists ""%string. cbn [fst]. rewrite append_empty. split; reflexivity.
    + destruct (Str.all_chars os_path.is_dot (os_path.basename root)).
      * exists ""%string. cbn [fst]. rewrite append_empty.
        split; reflexivity.
      * exists (String "." e). cbn [fst]. apply rcut_some in E.
        destruct E as [-> _]. split; [reflexivity|].
        cbn. exact M.
  - exists ""%string. cbn [fst]. rewrite append_empty. split; reflexivity.
Qed.

(** The stem of a location has no more tokens than its name. *)
Lemma stem_tokens (h : string) :
  List.length (Str.split "_" (os_path.basename (fst (os_path.splitext h))))
  <= List.length (Str.split "_" (os_path.basename h)).
Proof.
  destruct (splitext_prefix h) as (e & E & M).
  rewrite E at 2. rewrite (basename_app_tail _ _ M).
  apply split_length_app.
Qed.

Lemma list_index_length {A : Type} (l : list A) (i : nat) :
  match list_index l i with
  | Ok _ => i < List.length l
  | Err e => e = IndexError_list /\ List.length l <= i
  end.
Proof.
  unfold list_index. destruct (nth_error l i) eqn:E.
  - apply nth_error_Some. rewrite E. discriminate.
  - split; [reflexivity|]. apply nth_error_None. exact E.
Qed.

Lemma unpack_star2_returns {A : Type} (l : list A) :
  2 <= List.length l -> exists x, unpack_star2 l = Ok x.
Proof.
  intros L. unfold unpack_star2. rewrite <- length_rev in L.
  destruct (rev l) as [|b [|u a]]; cbn in L; try lia.
  eexists. reflexivity.
Qed.

(** The general parameters are read exactly when the stem of the first
    location has three tokens; nothing else can fail. *)
Lemma general_parameters_cases (assets_hrefs : dict string) :
  match general_parameters assets_hrefs with
  | Ok r =>
      list_index (Dict.values assets_hrefs) 0 = Ok (asset_href r)
      /\ 3 <= List.length (Str.split "_" (filename r))
  | Err e =>
      e = IndexError_list
      /\ forall first,
           list_index (Dict.values assets_hrefs) 0 = Ok first ->
           List.length
             (Str.split "_"
                (os_path.basename (fst (os_path.splitext first)))) < 3
  end.
Proof.
  unfold general_parameters.
  pose proof (list_index_length (Dict.values assets_hrefs) 0) as L0.
  destruct (list_index (Dict.values assets_hrefs) 0) as [h|e];
    cbn [rbind].
  2:{ split; [apply L0|]. intros first F. discriminate. }
  pose proof (stem_tokens h) as S.
  pose proof (list_index_length (Str.split "_" (os_path.basename h)) 1)
    as L1.
  destruct (list_index (Str.split "_" (os_path.basename h)) 1) as [y|e];
    cbn [rbind].
  2:{ split; [apply L1|]. intros first F. injection F as <-.
      destruct L1 as [_ L1]. lia. }
  pose proof (list_index_length
                (Str.split "_"
                   (os_path.basename (fst (os_path.splitext h)))) 2) as L2.
  destruct (list_index
              (Str.split "_" (os_path.basename (fst (os_path.splitext h))))
              2) as [band|e]; cbn [rbind].
  2:{ split; [apply L2|]. intros first F. injection F as <-.
      destruct L2 as [_ L2]. lia. }
  destruct (String.eqb band "C"); cbn [rbind].
  - split; [reflexivity|]. cbn [filename]. lia.
  - destruct (unpack_star2_returns
                (Str.split "_"
                   (os_path.basename (fst (os_path.splitext h)))))
      as [[[a u] b] ->]; [lia|].
    cbn [rbind]. split; [reflexivity|]. cbn [filename]. lia.
Qed.

Lemma int_error (s : string) (e : exn) :
  PyInt.int s = Err e -> e = ValueError_int s.
Proof.
  unfold PyInt.int. destruct (PyInt.signed (PyInt.strip s)).
  - destruct (PyInt.max_str_digits <? PyInt.count_digits s)%nat;
      [|discriminate].
    intros H. injection H as <-. reflexivity.
  - intros H. injection H as <-. reflexivity.
Qed.

Variable co : constants.

(** The platform stage fails on a year that is no integer literal, or on
    a table without the entry of the year, and leaves the Item without
    assets. *)
Lemma set_common_metadata_fails (year : string) (i i1 : pystac.Item)
    (e : exn) :
  set_common_metadata co year i = (Err e, i1) ->
  (e = ValueError_int year \/ e = IndexError_list)
  /\ pystac.assets i1 = pystac.assets i
  /\ pystac.id i1 = pystac.id i.
Proof.
  unfold set_common_metadata, mbind, lift, modify, list_index.
  destruct (PyInt.int year) as [y|e'] eqn:Ey.
  - destruct (15 <=? y)%Z;
      (destruct (nth_error (ALOS_PALSAR_PLATFORMS co) _) as [p|];
         [|intros H; injection H as <- <-; repeat split; right; reflexivity]);
      (destruct (nth_error (ALOS_PALSAR_INSTRUMENTS co) _) as [ins|];
         [|intros H; injection H as <- <-; repeat split; right; reflexivity]);
      discriminate.
  - intros H. injection H as <- <-. apply int_error in Ey.
    repeat split. left. exact Ey.
Qed.

(** The descriptor stage fails only for a mosaic, with the malformed-code
    error. *)
Lemma set_sar_fails (collection : string) (r : Representative)
    (i i3 : pystac.Item) (e : exn) :
  set_sar co collection r i = (Err e, i3) ->
  collection = "alos-palsar-mosaic"
  /\ e = ValueError_pattern (filename r) (asset_href r).
Proof.
  intros H.
  destruct (String.eqb collection "alos-palsar-mosaic") eqn:Ec.
  - apply String.eqb_eq in Ec. subst collection. split; [reflexivity|].
    destruct (list_last_split "_" (filename r)) as [code Hc].
    destruct (re.match_ FILENAME_PARTS code) as [m|] eqn:Hm.
    + destruct (match_fields code m Hm)
        as (c0 & c1 & c2 & c3 & c4 & c5 & rest & _ & -> & _).
      destruct (set_sar_accepts co r i code _ _ _ _ _ Hc Hm)
        as (i' & Hs & _).
      rewrite Hs in H. discriminate.
    + rewrite (set_sar_rejects co r i code Hc Hm) in H.
      injection H as <- _. reflexivity.
  - unfold set_sar in H. rewrite Ec in H. discriminate.
Qed.

End Failures.

(** X11. [create_item] reads its general parameters from the first
    location of the mapping, and can do so exactly when the mapping is
    not empty and the stem of the name of that location has at least
    three underscore-separated tokens.  Otherwise it raises [IndexError],
    whatever the raster reader and the other arguments are, and no Item
    is under construction. *)
Theorem short_name_raises_index_error :
  forall (assets_hrefs : dict string),
    match general_parameters assets_hrefs with
    | Ok r =>
        list_index (Dict.values assets_hrefs) 0 = Ok (asset_href r)
        /\ filename r
           = os_path.basename (fst (os_path.splitext (asset_href r)))
        /\ 3 <= List.length (Str.split "_" (filename r))
    | Err _ =>
        (forall first,
            list_index (Dict.values assets_hrefs) 0 = Ok first ->
            List.length
              (Str.split "_"
                 (os_path.basename (fst (os_path.splitext first)))) < 3)
        /\ forall (co : constants)
                  (rasterio_open : string -> result rasterio.DatasetReader)
                  (isoparse : string -> result pystac.datetime)
                  (root_href : string)
                  (read_href_modifier : option (string -> string)),
             create_item co rasterio_open isoparse assets_hrefs root_href
               read_href_modifier = Raised IndexError_list None
    end.
Proof.
  intros assets. pose proof (general_parameters_cases assets) as C.
  destruct (general_parameters assets) as [r|e] eqn:Hr.
  - destruct C as [Hf Hl].
    destruct (general_parameters_first _ _ Hr) as (_ & Hn & _).
    split; [exact Hf|]. split; [exact Hn|exact Hl].
  - destruct C as [-> Hs]. split; [exact Hs|].
    intros co ro iso root m. rewrite create_item_stages, Hr. reflexivity.
Qed.

Lemma short_name_raises_index_error_witness :
  create_item Example.co (Example.rasterio_open 4326) Example.isoparse
    [("C", "tiles/N05E100_C.tif")] "" None = Raised IndexError_list None.
Proof.
  pose proof (short_name_raises_index_error [("C", "tiles/N05E100_C.tif")])
    as T.
  assert (G : general_parameters [("C", "tiles/N05E100_C.tif")]
              = Err IndexError_list) by (vm_compute; reflexivity).
  rewrite G in T. destruct T as [_ T]. apply T.
Defined.

(** X12. Before the Item is constructed, [create_item] can fail in five
    ways only, tried in this order: the general parameters cannot be read
    from the first location; the raster at that location does not open,
    in which case the error of the raster reader is raised as it is; the
    raster has no reference system; its reference system is not
    EPSG:4326; the start timestamp does not parse.  The year is not
    converted to an integer, and the mode code is not looked at, before
    all of these have passed. *)
Theorem failures_before_construction :
  forall (co : constants)
         (rasterio_open : string -> result rasterio.DatasetReader)
         (isoparse : string -> result pystac.datetime)
         (assets_hrefs : dict string) (root_href : string)
         (read_href_modifier : option (string -> string))
         (e : exn),
    create_item co rasterio_open isoparse assets_hrefs root_href
      read_href_modifier = Raised e None ->
    general_parameters assets_hrefs = Err e
    \/ exists r,
         general_parameters assets_hrefs = Ok r
         /\ (rasterio_open (modifier_of read_href_modifier (asset_href r))
             = Err e
             \/ exists dataset,
                  rasterio_open
                    (modifier_of read_href_modifier (asset_href r))
                  = Ok dataset
                  /\ ((rasterio.crs dataset = None
                       /\ e = AttributeError "to_epsg")
                      \/ (exists crs,
                             rasterio.crs dataset = Some crs
                             /\ rasterio.to_epsg crs <> Some 4326%Z
                             /\ e = ValueError_not_epsg4326 (asset_href r))
                      \/ (exists crs,
                             rasterio.crs dataset = Some crs
                             /\ rasterio.to_epsg crs = Some 4326%Z
                             /\ isoparse
                                  ("20" ++ year r ++ "-01-01T00:00:00Z")%string
                                = Err e))).
Proof.
  intros co ro iso assets root m e H.
  rewrite create_item_stages in H.
  destruct (general_parameters assets) as [r|e0] eqn:Hr.
  2:{ left. injection H as <-. reflexivity. }
  right. exists r. split; [reflexivity|].
  destruct (general_parameters_first _ _ Hr) as (_ & _ & _ & band & Hb & _).
  unfold read_raster in H.
  destruct (ro (modifier_of m (asset_href r))) as [ds|e1] eqn:Ho.
  2:{ left. injection H as <-. reflexivity. }
  right. exists ds. split; [reflexivity|].
  cbn [rbind] in H.
  destruct (rasterio.crs ds) as [c|] eqn:Hc; cbn [rbind] in H.
  2:{ left. injection H as <-. split; reflexivity. }
  right.
  destruct (rasterio.to_epsg c) as [z|] eqn:Hz; cbn [epsg_is_4326 negb] in H.
  2:{ left. exists c. injection H as <-.
      split; [reflexivity|]. rewrite Hz.
      split; [discriminate|reflexivity]. }
  destruct (Z.eqb_spec z 4326) as [->|N]; cbn [negb] in H.
  2:{ left. exists c. injection H as <-.
      split; [reflexivity|]. rewrite Hz.
      split; [congruence|reflexivity]. }
  right. exists c. split; [reflexivity|]. split; [exact Hz|].
  unfold new_item in H. rewrite Hb in H. cbn [rbind] in H.
  destruct (String.eqb band "C");
    (destruct (iso ("20" ++ year r ++ "-01-01T00:00:00Z")%string)
       as [dt|e2]; cbn [rbind] in H;
     [|injection H as <-; reflexivity]);
    exfalso;
    repeat match type of H with
           | context [match ?x with (_, _) => _ end] =>
               destruct x as [[?|?] ?]
           end; discriminate.
Qed.

Lemma failures_before_construction_witness :
  create_item Example.co (Example.rasterio_open 4326) Example.isoparse
    [("metadata", "tiles/N05E100_xx_F02DAR.xml")] "" None
  = Raised (ExternalError "RasterioIOError") None.
Proof.
  assert (E : exists e,
             create_item Example.co (Example.rasterio_open 4326)
               Example.isoparse
               [("metadata", "tiles/N05E100_xx_F02DAR.xml")] "" None
             = Raised e None)
    by (vm_compute; eexists; reflexivity).
  destruct E as [e E]. rewrite E.
  destruct (failures_before_construction _ _ _ _ _ _ e E)
    as [G|(r & Hr & [Ho|(ds & Ho & _)])].
  - assert (R : match general_parameters
                        [("metadata", "tiles/N05E100_xx_F02DAR.xml")] with
                | Ok _ => True
                | Err _ => False
                end) by (vm_compute; exact I).
    rewrite G in R. destruct R.
  - assert (R : match general_parameters
                        [("metadata", "tiles/N05E100_xx_F02DAR.xml")] with
                | Ok r' =>
                    Example.rasterio_open 4326 (modifier_of None (asset_href r'))
                    = Err (ExternalError "RasterioIOError")
                | Err _ => False
                end) by (vm_compute; reflexivity).
    rewrite Hr in R. rewrite R in Ho. injection Ho as <-. reflexivity.
  - assert (R : match general_parameters
                        [("metadata", "tiles/N05E100_xx_F02DAR.xml")] with
                | Ok r' =>
                    Example.rasterio_open 4326 (modifier_of None (asset_href r'))
                    = Err (ExternalError "RasterioIOError")
                | Err _ => False
                end) by (vm_compute; reflexivity).
    rewrite Hr in R. rewrite R in Ho. discriminate.
Defined.

(** X13. Once the Item is constructed, [create_item] can fail in three
    ways only: the year token is no integer literal ([ValueError]); the
    platform or instrument table has no entry for the year
    ([IndexError]); or, for a mosaic, the last token of the stem does not
    start with a descriptor (the malformed-code [ValueError]).  The loop
    over the assets never raises: the Item under construction carries its
    identifier and no asset. *)
Theorem failures_after_construction :
  forall (co : constants)
         (rasterio_open : string -> result rasterio.DatasetReader)
         (isoparse : string -> result pystac.datetime)
         (assets_hrefs : dict string) (root_href : string)
         (read_href_modifier : option (string -> string))
         (e : exn) (partial : pystac.Item),
    create_item co rasterio_open isoparse assets_hrefs root_href
      read_href_modifier = Raised e (Some partial) ->
    exists r,
      general_parameters assets_hrefs = Ok r
      /\ pystac.id partial
         = (item_root r ++ (if is_fnf r then "_FNF" else "_MOS"))%string
      /\ pystac.assets partial = []
      /\ (e = ValueError_int (year r)
          \/ e = IndexError_list
          \/ (is_fnf r = false
              /\ e = ValueError_pattern (filename r) (asset_href r))).
Proof.
  intros co ro iso assets root m e partial H.
  rewrite create_item_stages in H.
  destruct (general_parameters assets) as [r|e0] eqn:Hr; [|discriminate].
  exists r. split; [reflexivity|].
  destruct (read_raster ro _ (asset_href r)) as [ra|]; [|discriminate].
  destruct (new_item iso root r ra) as [[item0 collection]|] eqn:Hn;
    [|discriminate].
  destruct (new_item_inv iso _ _ _ _ _ Hn)
    as (band & dt & Hb & _ & Hc & Hid & _ & _ & _ & _ & _ & _ & _ & Ha).
  destruct (general_parameters_first _ _ Hr) as (_ & _ & _ & band' & Hb' & Hf).
  rewrite Hb in Hb'. injection Hb' as <-. rewrite <- Hf in Hid, Hc.
  destruct (set_common_metadata co (year r) item0) as [[u|e1] i1] eqn:H1.
  2:{ injection H as <- <-.
      destruct (set_common_metadata_fails co _ _ _ _ H1) as (E & A & I).
      rewrite I, A. split; [exact Hid|]. split; [exact Ha|].
      destruct E as [E|E]; [left|right; left]; exact E. }
  destruct u.
  destruct (set_common_metadata_reads_year co _ _ _ H1) as [y Hy].
  destruct (set_common_metadata_run co _ y _ _ Hy H1)
    as (p & ins & _ & _ & ->).
  destruct (set_projection_run co ra
              (pystac.set_property "gsd" (ALOS_PALSAR_GSD co)
                 (pystac.set_property "instruments" (VList [VStr ins])
                    (pystac.set_property "platform" (VStr p) item0))))
    as (i2 & H2 & A2 & _).
  assert (I2 : pystac.id i2 = pystac.id item0).
  { unfold set_projection, mbind, modify in H2. injection H2 as <-.
    reflexivity. }
  rewrite H2 in H.
  destruct (set_sar co collection r i2) as [[u|e3] i3] eqn:H3.
  2:{ injection H as <- <-.
      destruct (set_sar_fails co _ _ _ _ _ H3) as (Ec & E).
      destruct (set_sar_keeps co _ _ _ _ _ H3) as (A3 & _).
      assert (I3 : pystac.id i3 = pystac.id i2).
      { clear - H3. unfold set_sar, mbind, lift, modify, mret in H3.
        destruct (String.eqb collection "alos-palsar-mosaic");
          [|injection H3 as _ <-; reflexivity].
        repeat match type of H3 with
               | context [match ?x with Ok _ => _ | Err _ => _ end] =>
                   destruct x
               | context [match ?x with Some _ => _ | None => _ end] =>
                   destruct x
               end;
          injection H3 as _ <-; reflexivity. }
      rewrite I3, I2, A3, A2. split; [exact Hid|]. split; [exact Ha|].
      right. right. split; [|exact E].
      rewrite Ec in Hc. destruct (is_fnf r); [discriminate|reflexivity]. }
  destruct (add_assets_run co root r y assets Hy i3) as (i4 & H4 & _).
  rewrite H4 in H. discriminate.
Qed.

Lemma failures_after_construction_witness :
  exists partial,
    create_item Example.co (Example.rasterio_open 4326) Example.isoparse
      [("date", "tiles/N05E100_17_date_X02QAR.tif")] "" None
    = Raised (ValueError_pattern "N05E100_17_date_X02QAR"
                "tiles/N05E100_17_date_X02QAR.tif") (Some partial)
    /\ pystac.id partial = "N05E100_17_X02QAR_MOS"
    /\ pystac.assets partial = [].
Proof.
  assert (E : exists partial,
             create_item Example.co (Example.rasterio_open 4326)
               Example.isoparse
               [("date", "tiles/N05E100_17_date_X02QAR.tif")] "" None
             = Raised (ValueError_pattern "N05E100_17_date_X02QAR"
                         "tiles/N05E100_17_date_X02QAR.tif") (Some partial))
    by (vm_compute; eexists; reflexivity).
  destruct E as [partial E]. exists partial. split; [exact E|].
  destruct (failures_after_construction _ _ _ _ _ _ _ _ E)
    as (r & Hr & Hi & Ha & _).
  assert (G : match general_parameters
                      [("date", "tiles/N05E100_17_date_X02QAR.tif")] with
              | Ok r' => item_root r' = "N05E100_17_X02QAR"
                         /\ is_fnf r' = false
              | Err _ => False
              end) by (vm_compute; split; reflexivity).
  rewrite Hr in G. destruct G as [G1 G2]. rewrite G1, G2 in Hi.
  split; [exact Hi|exact Ha].
Defined.

(** ** The role of [root_href] *)

Section RootHref.

(** A suffix without slash is looked for after the last slash. *)
Lemma startswith_before_slash (u w p : string) :
  Str.mem "/" p = false ->
  Str.startswith (u ++ String "/" w) p = Str.startswith u p.
Proof.
  revert u. induction p as [|c p IH]; intros u M.
  - destruct u; reflexivity.
  - cbn [Str.mem] in M. apply orb_false_iff in M. destruct M as [Mc M].
    destruct u as [|d u]; cbn [append Str.startswith].
    + rewrite Mc. reflexivity.
    + rewrite (IH u M). reflexivity.
Qed.

Lemma rev_app (a b : string) :
  Str.rev (a ++ b) = (Str.rev b ++ Str.rev a)%string.
Proof.
  unfold Str.rev at 1. rewrite rev_onto_app, rev_onto_acc. reflexivity.
Qed.

Lemma endswith_after_slash (a b : string) :
  Str.endswith (a ++ String "/" b) ".xml" = Str.endswith b ".xml".
Proof.
  unfold Str.endswith. rewrite rev_app.
  change (Str.rev (String "/" b)) with (Str.rev_onto b "/").
  rewrite rev_onto_acc, append_assoc.
  apply startswith_before_slash. reflexivity.
Qed.

Lemma endswith_basename (v : string) :
  Str.endswith (os_path.basename v) ".xml" = Str.endswith v ".xml".
Proof.
  unfold os_path.basename.
  destruct (Str.rcut "/" v) as [[p q]|] eqn:E; [|reflexivity].
  apply rcut_some in E. destruct E as [-> _].
  symmetry. apply endswith_after_slash.
Qed.

Lemma endswith_join (a b : string) :
  Str.endswith (os_path.join a b) ".xml" = Str.endswith b ".xml".
Proof.
  unfold os_path.join.
  destruct (Str.startswith b "/"); [reflexivity|].
  destruct (String.length a =? 0)%nat eqn:L.
  - destruct a; [reflexivity|discriminate].
  - cbn [orb]. destruct (Str.endswith a "/") eqn:E.
    + unfold Str.endswith in *. rewrite rev_app.
      destruct (Str.rev a) as [|c w]; [discriminate|].
      cbn [Str.rev Str.rev_onto Str.startswith] in E.
      apply andb_prop in E. destruct E as [E _].
      apply chr_eqb_eq in E. subst c.
      apply startswith_before_slash. reflexivity.
    + apply endswith_after_slash.
Qed.

(** Whether an entry becomes a metadata or a raster asset does not depend
    on [root_href]. *)
Lemma media_kind_independent (root_href location : string) :
  Str.endswith (asset_location root_href location) ".xml"
  = Str.endswith location ".xml".
Proof.
  unfold asset_location. destruct (0 <? String.length root_href)%nat;
    [|reflexivity].
  rewrite endswith_join. apply endswith_basename.
Qed.

Lemma asset_content_independent (co : constants) (root_href root_href' : string)
    (r : Representative) (y : Z) (key location : string) :
  asset_content (asset_of co root_href r y key location)
  = asset_content (asset_of co root_href' r y key location).
Proof.
  unfold asset_of. rewrite !media_kind_independent.
  destruct (Str.endswith location ".xml"); reflexivity.
Qed.

Lemma content_set (d : dict pystac.Asset) (k : string) (a : pystac.Asset) :
  map (fun ka => (fst ka, asset_content (snd ka))) (Dict.set d k a)
  = Dict.set (map (fun ka => (fst ka, asset_content (snd ka))) d) k
      (asset_content a).
Proof.
  induction d as [|[k' a'] d IH]; cbn; [reflexivity|].
  destruct (String.eqb k' k); cbn; [reflexivity|]. rewrite IH. reflexivity.
Qed.

Lemma derived_assets_content (co : constants) (root_href root_href' : string)
    (r : Representative) (y : Z) (assets_hrefs : dict string) :
  map (fun ka => (fst ka, asset_content (snd ka)))
    (derived_assets co root_href r y assets_hrefs)
  = map (fun ka => (fst ka, asset_content (snd ka)))
      (derived_assets co root_href' r y assets_hrefs).
Proof.
  unfold derived_assets.
  assert (G : forall d d' : dict pystac.Asset,
             map (fun ka => (fst ka, asset_content (snd ka))) d
             = map (fun ka => (fst ka, asset_content (snd ka))) d' ->
             map (fun ka => (fst ka, asset_content (snd ka)))
               (fold_left
                  (fun d kv => Dict.set d (fst kv)
                     (asset_of co root_href r y (fst kv) (snd kv)))
                  assets_hrefs d)
             = map (fun ka => (fst ka, asset_content (snd ka)))
                 (fold_left
                    (fun d kv => Dict.set d (fst kv)
                       (asset_of co root_href' r y (fst kv) (snd kv)))
                    assets_hrefs d')).
  { induction assets_hrefs as [|[k v] l IH]; cbn [fold_left fst snd];
      intros d d' E; [exact E|].
    apply IH. rewrite !content_set, E.
    rewrite (asset_content_independent co root_href root_href').
    reflexivity. }
  apply G. reflexivity.
Qed.

Lemma raster_kind_independent (root_href root_href' : string)
    (assets_hrefs : dict string) :
  existsb (raster_kind root_href) assets_hrefs
  = existsb (raster_kind root_href') assets_hrefs.
Proof.
  induction assets_hrefs as [|kv l IH]; cbn [existsb]; [reflexivity|].
  rewrite IH. unfold raster_kind. rewrite !media_kind_independent.
  reflexivity.
Qed.

End RootHref.

(** X14. [root_href] decides where the assets and the collection link
    point, and nothing else.  If [create_item] returns an Item for one
    [root_href] it returns one for every other, with the same identifier,
    bounding box, geometry, datetime, properties, extensions and
    collection, and with assets under the same keys that have the same
    media type, roles, title and extra fields. *)
Theorem root_href_only_moves_locations :
  forall (co : constants)
         (rasterio_open : string -> result rasterio.DatasetReader)
         (isoparse : string -> result pystac.datetime)
         (assets_hrefs : dict string) (root_href root_href' : string)
         (read_href_modifier : option (string -> string))
         (item : pystac.Item),
    create_item co rasterio_open isoparse assets_hrefs root_href
      read_href_modifier = Returned item ->
    exists item',
      create_item co rasterio_open isoparse assets_hrefs root_href'
        read_href_modifier = Returned item'
      /\ pystac.id item' = pystac.id item
      /\ pystac.bbox item' = pystac.bbox item
      /\ pystac.geometry item' = pystac.geometry item
      /\ pystac.item_datetime item' = pystac.item_datetime item
      /\ pystac.properties item' = pystac.properties item
      /\ pystac.stac_extensions item' = pystac.stac_extensions item
      /\ pystac.collection_id item' = pystac.collection_id item
      /\ map (fun ka => (fst ka, asset_content (snd ka))) (pystac.assets item')
         = map (fun ka => (fst ka, asset_content (snd ka)))
             (pystac.assets item).
Proof.
  intros co ro iso assets root root' m item H.
  destruct (returned_is_derived co ro iso _ _ _ _ H) as (g & D & ->).
  exists (derived_item co root' assets g).
  split; [apply create_item_forward; exact D|].
  cbn [derived_item pystac.id pystac.bbox pystac.geometry
       pystac.item_datetime pystac.properties pystac.stac_extensions
       pystac.collection_id pystac.assets].
  do 5 (split; [reflexivity|]).
  split; [rewrite (raster_kind_independent root root'); reflexivity|].
  split; [reflexivity|].
  apply derived_assets_content.
Qed.

Lemma root_href_only_moves_locations_witness :
  exists item item',
    example_item 4326 Example.mosaic_2017 = Returned item
    /\ create_item Example.co (Example.rasterio_open 4326) Example.isoparse
         Example.mosaic_2017 "https://example.org/alos" None
       = Returned item'
    /\ pystac.properties item' = pystac.properties item.
Proof.
  assert (E : exists item,
             example_item 4326 Example.mosaic_2017 = Returned item)
    by (vm_compute; eexists; reflexivity).
  destruct E as [item E].
  destruct (root_href_only_moves_locations _ _ _ _ _
              "https://example.org/alos" _ item E)
    as (item' & E' & _ & _ & _ & _ & P & _).
  exists item, item'. split; [exact E|]. split; [exact E'|exact P].
Defined.

(** ** From a metadata name to the Item *)

Section Grouped.

Lemma rsplit1_is_directory_prefix (asset_href : string) :
  list_index (Str.rsplit1 "/" asset_href) 0 = Ok (directory_prefix asset_href).
Proof.
  unfold Str.rsplit1, directory_prefix.
  destruct (Str.rcut "/" asset_href) as [[p q]|]; reflexivity.
Qed.

(** The mapping the Grouper builds from a name that is not a forest
    raster. *)
Lemma assets_hrefs_of_metadata (asset_href : string) (d : dict string) :
  Str.endswith (os_path.basename asset_href) "_C.tif" = false ->
  assets_hrefs_of asset_href = Ok d ->
  exists filename_prefix last c3,
    Str.endswith (os_path.basename asset_href) ".xml" = true
    /\ Str.rcut "_" (os_path.basename asset_href)
       = Some (filename_prefix, last)
    /\ Str.get (fst (os_path.splitext last)) 3 = Some c3
    /\ d = ([("date",
              sibling (directory_prefix asset_href) filename_prefix "date"
                (fst (os_path.splitext last)));
             ("linci",
              sibling (directory_prefix asset_href) filename_prefix "linci"
                (fst (os_path.splitext last)));
             ("mask",
              sibling (directory_prefix asset_href) filename_prefix "mask"
                (fst (os_path.splitext last)));
             ("HH",
              sibling (directory_prefix asset_href) filename_prefix "sl_HH"
                (fst (os_path.splitext last)));
             ("HV",
              sibling (directory_prefix asset_href) filename_prefix "sl_HV"
                (fst (os_path.splitext last)))]
            ++ (if Str.chr_eqb c3 "Q" then
                  [("VH",
                    sibling (directory_prefix asset_href) filename_prefix
                      "sl_VH" (fst (os_path.splitext last)));
                   ("VV",
                    sibling (directory_prefix asset_href) filename_prefix
                      "sl_VV" (fst (os_path.splitext last)))]
                else [])
            ++ [("metadata", asset_href)])%list.
Proof.
  intros Ht H.
  destruct (Str.endswith (os_path.basename asset_href) ".xml") eqn:Hx.
  2:{ unfold assets_hrefs_of in H. rewrite Ht, Hx in H. discriminate. }
  rewrite (assets_hrefs_of_xml _ Hx) in H.
  rewrite rsplit1_is_directory_prefix in H. cbn [rbind] in H.
  destruct (rsplit1_unpacks "_" (os_path.basename asset_href))
    as [[_ U]|(fp & last & Hc & U)]; rewrite U in H; [discriminate|].
  cbn [rbind] in H. unfold str_index in H.
  destruct (Str.get (fst (os_path.splitext last)) 3) as [c3|] eqn:G;
    [|discriminate].
  cbn [rbind] in H.
  exists fp, last, c3. split; [reflexivity|]. split; [exact Hc|].
  split; [exact G|].
  replace (String.eqb (String c3 EmptyString) "Q")
    with (Str.chr_eqb c3 "Q") in H
    by (unfold Str.chr_eqb; simpl; destruct (Ascii.eqb c3 "Q"); reflexivity).
  destruct (Str.chr_eqb c3 "Q"); injection H as <-; reflexivity.
Qed.

Lemma list_last_app {A : Type} (l : list A) (x : A) :
  list_last (l ++ [x]) = Ok x.
Proof. unfold list_last. rewrite rev_unit. reflexivity. Qed.

(** The location of the [date] sibling, cut at its extension. *)
Lemma date_sibling_splits (dir filename_prefix code : string) :
  Str.mem "/" filename_prefix = false ->
  Str.mem "/" code = false ->
  sibling dir filename_prefix "date" code
  = ((dir ++ String "/" (filename_prefix ++ "_date_" ++ code))
       ++ String "." "tif")%string
  /\ os_path.splitext (sibling dir filename_prefix "date" code)
     = ((dir ++ String "/" (filename_prefix ++ "_date_" ++ code))%string,
        ".tif")
  /\ os_path.basename (sibling dir filename_prefix "date" code)
     = (filename_prefix ++ "_date_" ++ code ++ ".tif")%string
  /\ os_path.basename (dir ++ String "/" (filename_prefix ++ "_date_" ++ code))
     = (filename_prefix ++ "_date_" ++ code)%string.
Proof.
  intros Sf Sc.
  assert (E : sibling dir filename_prefix "date" code
              = ((dir ++ String "/" (filename_prefix ++ "_date_" ++ code))
                   ++ String "." "tif")%string).
  { unfold sibling. rewrite append_assoc. cbn [append].
    rewrite append_assoc. reflexivity. }
  assert (B : os_path.basename
                (dir ++ String "/" (filename_prefix ++ "_date_" ++ code))
              = (filename_prefix ++ "_date_" ++ code)%string).
  { apply basename_app. rewrite mem_app, Sf. cbn. exact Sc. }
  split; [exact E|]. split; [|split; [|exact B]].
  - rewrite E. apply splitext_app; [reflexivity|reflexivity|].
    rewrite B, all_chars_app. cbn. apply andb_false_r.
  - unfold sibling.
    change (dir ++ "/" ++ filename_prefix ++ "_" ++ "date" ++ "_" ++ code
              ++ ".tif")%string
      with (dir ++ String "/"
              (filename_prefix ++ "_date_" ++ code ++ ".tif"))%string.
    apply basename_app. rewrite mem_app, Sf. cbn. rewrite mem_app, Sc.
    reflexivity.
Qed.

(** The parts of a name that the Grouper cuts have no slash, and the mode
    code has no underscore. *)
Lemma cut_parts (asset_href filename_prefix last : string) :
  Str.rcut "_" (os_path.basename asset_href) = Some (filename_prefix, last) ->
  Str.mem "/" filename_prefix = false
  /\ Str.mem "/" (fst (os_path.splitext last)) = false
  /\ Str.mem "_" (fst (os_path.splitext last)) = false.
Proof.
  intros H. apply rcut_some in H. destruct H as [E U].
  pose proof (basename_no_slash asset_href) as S. rewrite E in S.
  rewrite mem_app in S. apply orb_false_iff in S. destruct S as [Sf Sl].
  cbn in Sl.
  destruct (splitext_prefix last) as (e & El & _).
  rewrite El in Sl, U. rewrite mem_app in Sl, U.
  apply orb_false_iff in Sl. apply orb_false_iff in U.
  split; [exact Sf|]. split; [apply Sl|apply U].
Qed.

(** The tokens of the name and of the stem of the [date] sibling. *)
Lemma date_sibling_tokens (filename_prefix code : string) :
  Str.mem "_" code = false ->
  Str.split "_" (filename_prefix ++ "_date_" ++ code)
  = (Str.split "_" filename_prefix ++ ["date"; code])%list
  /\ Str.split "_" (filename_prefix ++ "_date_" ++ code ++ ".tif")
     = (Str.split "_" filename_prefix ++ ["date"; (code ++ ".tif")%string])%list.
Proof.
  intros U. split.
  - change (filename_prefix ++ "_date_" ++ code)%string
      with (filename_prefix ++ String "_" ("date" ++ String "_" code))%string.
    rewrite split_app, split_app, (split_no_sep "_" code U). reflexivity.
  - change (filename_prefix ++ "_date_" ++ code ++ ".tif")%string
      with (filename_prefix
              ++ String "_" ("date" ++ String "_" (code ++ ".tif")))%string.
    rewrite split_app, split_app, (split_no_sep "_" (code ++ ".tif")).
    + reflexivity.
    + rewrite mem_app, U. reflexivity.
Qed.

End Grouped.

Section GroupedParameters.

Lemma unpack_star2_app {A : Type} (l : list A) (u b : A) :
  unpack_star2 (l ++ [u; b]) = Ok (l, u, b).
Proof.
  unfold unpack_star2.
  change [u; b] with ([u] ++ [b])%list.
  rewrite app_assoc, !rev_unit, rev_involutive. reflexivity.
Qed.

Lemma join_snoc (sep : string) (l : list string) (x : string) :
  l <> [] ->
  Str.join sep (l ++ [x]) = (Str.join sep l ++ sep ++ x)%string.
Proof.
  induction l as [|a l IH]; intros N; [contradiction|].
  destruct l as [|b l].
  - reflexivity.
  - change (Str.join sep ((a :: b :: l) ++ [x]))
      with (a ++ sep ++ Str.join sep ((b :: l) ++ [x]))%string.
    rewrite IH by discriminate.
    change (Str.join sep (a :: b :: l))
      with (a ++ sep ++ Str.join sep (b :: l))%string.
    rewrite !append_assoc. reflexivity.
Qed.

(** The general parameters of a mapping that starts with the [date]
    sibling, by the tokens of the part of the name before its last
    underscore. *)
Lemma grouped_parameters (dir filename_prefix code : string)
    (rest : dict string) :
  Str.mem "/" filename_prefix = false ->
  Str.mem "/" code = false ->
  Str.mem "_" code = false ->
  general_parameters
    (("date", sibling dir filename_prefix "date" code) :: rest)
  = (year <- list_index
               (Str.split "_" filename_prefix
                  ++ ["date"; (code ++ ".tif")%string])%list 1 ;;
     band <- list_index
               (Str.split "_" filename_prefix ++ ["date"; code])%list 2 ;;
     Ok {| asset_href := sibling dir filename_prefix "date" code;
           filename := (filename_prefix ++ "_date_" ++ code)%string;
           year := year;
           is_fnf := String.eqb band "C";
           item_root :=
             if String.eqb band "C" then
               Str.join "_"
                 (firstn 2 (Str.split "_" filename_prefix
                              ++ ["date"; (code ++ ".tif")%string])%list)
             else (filename_prefix ++ "_" ++ code)%string |})%result.
Proof.
  intros Sf Sc U.
  destruct (date_sibling_splits dir filename_prefix code Sf Sc)
    as (_ & Hs & Hb & Hr).
  destruct (date_sibling_tokens filename_prefix code U) as (T1 & T2).
  unfold general_parameters.
  cbn [Dict.values map snd list_index nth_error rbind].
  rewrite Hs. cbn [fst]. rewrite Hb, Hr, T1, T2.
  destruct (list_index
              (Str.split "_" filename_prefix ++ ["date"; (code ++ ".tif")%string])
              1) as [y|]; [|reflexivity].
  cbn [rbind].
  destruct (list_index (Str.split "_" filename_prefix ++ ["date"; code]) 2)
    as [band|]; [|reflexivity].
  cbn [rbind].
  destruct (String.eqb band "C"); [reflexivity|].
  rewrite unpack_star2_app. cbn [rbind].
  rewrite join_snoc by apply split_nonempty.
  rewrite (join_split "_" filename_prefix). reflexivity.
Qed.

Lemma int_of_date : PyInt.int "date" = Err (ValueError_int "date").
Proof. vm_compute. reflexivity. Qed.

End GroupedParameters.

(** X15. The mapping [create_item_from_href] builds from a metadata name.
    The name is cut at its last underscore into a prefix and a last
    token, whose stem is the mode code.  The band rasters are looked for
    in the directory of the metadata file (what precedes its last slash,
    or the whole location when it has no slash) under the names
    [<prefix>_<kind>_<code>.tif], for the kinds [date], [linci], [mask],
    [sl_HH], [sl_HV] and, when the fourth character of the code is [Q],
    [sl_VH] and [sl_VV]; the [date] raster comes first and the metadata
    file itself last. *)
Theorem grouper_sibling_locations :
  forall (asset_href : string) (d : dict string),
    Str.endswith (os_path.basename asset_href) "_C.tif" = false ->
    assets_hrefs_of asset_href = Ok d ->
    exists filename_prefix last c3,
      Str.endswith (os_path.basename asset_href) ".xml" = true
      /\ Str.rcut "_" (os_path.basename asset_href)
         = Some (filename_prefix, last)
      /\ Str.get (fst (os_path.splitext last)) 3 = Some c3
      /\ d = ([("date",
                sibling (directory_prefix asset_href) filename_prefix "date"
                  (fst (os_path.splitext last)));
               ("linci",
                sibling (directory_prefix asset_href) filename_prefix "linci"
                  (fst (os_path.splitext last)));
               ("mask",
                sibling (directory_prefix asset_href) filename_prefix "mask"
                  (fst (os_path.splitext last)));
               ("HH",
                sibling (directory_prefix asset_href) filename_prefix "sl_HH"
                  (fst (os_path.splitext last)));
               ("HV",
                sibling (directory_prefix asset_href) filename_prefix "sl_HV"
                  (fst (os_path.splitext last)))]
              ++ (if Str.chr_eqb c3 "Q" then
                    [("VH",
                      sibling (directory_prefix asset_href) filename_prefix
                        "sl_VH" (fst (os_path.splitext last)));
                     ("VV",
                      sibling (directory_prefix asset_href) filename_prefix
                        "sl_VV" (fst (os_path.splitext last)))]
                  else [])
              ++ [("metadata", asset_href)])%list.
Proof.
  exact assets_hrefs_of_metadata.
Qed.

Lemma grouper_sibling_locations_witness :
  exists d,
    assets_hrefs_of "N05E100_15_F02DAR.xml" = Ok d
    /\ Dict.get d "HH"
       = Some "N05E100_15_F02DAR.xml/N05E100_15_sl_HH_F02DAR.tif".
Proof.
  assert (E : exists d, assets_hrefs_of "N05E100_15_F02DAR.xml" = Ok d)
    by (vm_compute; eexists; reflexivity).
  destruct E as [d E]. exists d. split; [exact E|].
  destruct (grouper_sibling_locations "N05E100_15_F02DAR.xml" d eq_refl E)
    as (fp & last & c3 & _ & Hc & G & ->).
  assert (C : Str.rcut "_" (os_path.basename "N05E100_15_F02DAR.xml")
              = Some ("N05E100_15", "F02DAR.xml"))
    by (vm_compute; reflexivity).
  rewrite C in Hc. injection Hc as <- <-.
  assert (S : os_path.splitext "F02DAR.xml" = ("F02DAR", ".xml"))
    by (vm_compute; reflexivity).
  rewrite S. reflexivity.
Defined.

(** X16. The Item derived from a metadata name.  When
    [create_item_from_href] returns an Item for a name that is not a
    forest raster, the part of the name before its last underscore has at
    least two tokens, the second of which is the year of the Item; the
    raster that was opened is the [date] sibling; and the Item is a
    mosaic whose identifier is the prefix and the mode code joined by an
    underscore and followed by [_MOS], unless the third token of the name
    is [C] and is not its last, in which case it is a forest
    classification whose identifier is the first two tokens followed by
    [_FNF]. *)
Theorem item_of_metadata_name :
  forall (co : constants)
         (rasterio_open : string -> result rasterio.DatasetReader)
         (isoparse : string -> result pystac.datetime)
         (asset_href : string)
         (read_href_modifier : option (string -> string))
         (item : pystac.Item),
    Str.endswith (os_path.basename asset_href) "_C.tif" = false ->
    create_item_from_href co rasterio_open isoparse asset_href
      read_href_modifier = Returned item ->
    exists filename_prefix last yy dataset,
      Str.rcut "_" (os_path.basename asset_href)
      = Some (filename_prefix, last)
      /\ nth_error (Str.split "_" filename_prefix) 1 = Some yy
      /\ rasterio_open
           (modifier_of read_href_modifier
              (sibling (directory_prefix asset_href) filename_prefix "date"
                 (fst (os_path.splitext last)))) = Ok dataset
      /\ Dict.get (pystac.properties item) "start_datetime"
         = Some (VStr ("20" ++ yy ++ "-01-01T00:00:00Z"))
      /\ (pystac.collection_id item, pystac.id item)
         = (if match nth_error (Str.split "_" filename_prefix) 2 with
               | Some third => String.eqb third "C"
               | None => false
               end
            then (Some "alos-fnf-mosaic",
                  (Str.join "_" (firstn 2 (Str.split "_" filename_prefix))
                     ++ "_FNF")%string)
            else (Some "alos-palsar-mosaic",
                  (filename_prefix ++ "_" ++ fst (os_path.splitext last)
                     ++ "_MOS")%string)).
Proof.
  intros co ro iso href m item Ht H.
  unfold create_item_from_href in H.
  destruct (assets_hrefs_of href) as [d|] eqn:Hd; [|discriminate].
  destruct (assets_hrefs_of_metadata _ _ Ht Hd)
    as (fp & last & c3 & _ & Hc & _ & ->).
  destruct (cut_parts _ _ _ Hc) as (Sf & Sc & U).
  cbn [app] in H.
  destruct (returned_is_derived co ro iso _ _ _ _ H) as (g & D & ->).
  destruct D as (Hr & Ho & _ & _ & Hy & _).
  rewrite (grouped_parameters (directory_prefix href) fp
             (fst (os_path.splitext last)) _ Sf Sc U) in Hr.
  destruct (Str.split "_" fp) as [|t0 [|t1 l]] eqn:S.
  - exfalso. exact (split_nonempty "_" fp S).
  - cbn [app list_index nth_error rbind] in Hr. injection Hr as Hr.
    rewrite <- Hr in Hy. cbn [year] in Hy. rewrite int_of_date in Hy.
    discriminate.
  - exists fp, last, t1, (g_dataset g). rewrite S.
    split; [exact Hc|]. split; [reflexivity|].
    cbn [derived_item pystac.collection_id pystac.id pystac.properties].
    unfold derived_properties, item_id_of, collection_of.
    destruct l as [|t2 l];
      cbn [app list_index nth_error rbind] in Hr; injection Hr as Hr;
      rewrite <- Hr in Ho |- *;
      cbn [asset_href year is_fnf item_root] in Ho |- *.
    + split; [exact Ho|]. split; [reflexivity|].
      cbn [String.eqb Ascii.eqb Bool.eqb]. rewrite append_assoc.
      reflexivity.
    + split; [exact Ho|]. split; [reflexivity|].
      cbn [nth_error].
      destruct (String.eqb t2 "C").
      * reflexivity.
      * rewrite append_assoc. reflexivity.
Qed.

Lemma item_of_metadata_name_witness :
  exists item,
    example_item_from_href 4326 "tiles/N05E100_17_F02QAR.xml" = Returned item
    /\ pystac.id item = "N05E100_17_F02QAR_MOS".
Proof.
  assert (E : exists item,
             example_item_from_href 4326 "tiles/N05E100_17_F02QAR.xml"
             = Returned item)
    by (vm_compute; eexists; reflexivity).
  destruct E as [item E]. exists item. split; [exact E|].
  destruct (item_of_metadata_name
              _ _ _ "tiles/N05E100_17_F02QAR.xml" _ item eq_refl E)
    as (fp & last & yy & ds & Hc & _ & _ & _ & Hi).
  assert (C : Str.rcut "_" (os_path.basename "tiles/N05E100_17_F02QAR.xml")
              = Some ("N05E100_17", "F02QAR.xml"))
    by (vm_compute; reflexivity).
  rewrite C in Hc. injection Hc as <- <-.
  assert (P : (if match nth_error (Str.split "_" "N05E100_17") 2 with
                  | Some third => String.eqb third "C"
                  | None => false
                  end
               then (Some "alos-fnf-mosaic",
                     (Str.join "_" (firstn 2 (Str.split "_" "N05E100_17"))
                        ++ "_FNF")%string)
               else (Some "alos-palsar-mosaic",
                     ("N05E100_17" ++ "_"
                        ++ fst (os_path.splitext "F02QAR.xml")
                        ++ "_MOS")%string))
              = (Some "alos-palsar-mosaic", "N05E100_17_F02QAR_MOS"))
    by (vm_compute; reflexivity).
  rewrite P in Hi. injection Hi as _ Hi. exact Hi.
Defined.

Section Suffixes.

Lemma rev_cons (c : ascii) (s : string) :
  Str.rev (String c s) = (Str.rev s ++ String c "")%string.
Proof.
  unfold Str.rev at 1. cbn [Str.rev_onto]. apply rev_onto_acc.
Qed.

Lemma rev_rev (s : string) : Str.rev (Str.rev s) = s.
Proof.
  induction s as [|c s IH]; [reflexivity|].
  rewrite rev_cons, rev_app, IH. reflexivity.
Qed.

Lemma startswith_inv (s p : string) :
  Str.startswith s p = true -> exists w, s = (p ++ w)%string.
Proof.
  revert s. induction p as [|a p IH]; intros s H.
  - exists s. reflexivity.
  - destruct s as [|b s]; [discriminate|].
    cbn [Str.startswith] in H. apply andb_prop in H. destruct H as [E H].
    apply chr_eqb_eq in E. subst b.
    destruct (IH s H) as [w ->]. exists w. reflexivity.
Qed.

(** [s.endswith(t)] says that [s] is some text followed by [t]. *)
Lemma endswith_inv (s t : string) :
  Str.endswith s t = true -> exists x, s = (x ++ t)%string.
Proof.
  unfold Str.endswith. intros H.
  destruct (startswith_inv _ _ H) as [w E].
  exists (Str.rev w).
  rewrite <- (rev_rev s), E, rev_app, rev_rev. reflexivity.
Qed.

(** The stem of a location whose name is [n.e]. *)
Lemma stem_of_name (asset_href n e : string) :
  os_path.basename asset_href = (n ++ String "." e)%string ->
  Str.mem "." e = false ->
  Str.all_chars os_path.is_dot n = false ->
  os_path.basename (fst (os_path.splitext asset_href)) = n
  /\ exists p, asset_href = (p ++ String "." e)%string.
Proof.
  intros B De Dn.
  pose proof (basename_no_slash asset_href) as S. rewrite B in S.
  rewrite mem_app in S. apply orb_false_iff in S. destruct S as [Sn Se].
  cbn in Se.
  unfold os_path.basename in B.
  destruct (Str.rcut "/" asset_href) as [[p q]|] eqn:E.
  - apply rcut_some in E. destruct E as [-> _]. subst q.
    assert (A : (p ++ String "/" (n ++ String "." e))%string
                = ((p ++ String "/" n) ++ String "." e)%string)
      by (rewrite append_assoc; reflexivity).
    rewrite A, splitext_app; try assumption.
    + cbn [fst]. split; [apply basename_app; exact Sn|].
      eexists. reflexivity.
    + rewrite basename_app by exact Sn. exact Dn.
  - subst asset_href. rewrite splitext_app; try assumption.
    + cbn [fst]. split; [apply basename_no_sep; exact Sn|].
      eexists. reflexivity.
    + rewrite basename_no_sep by exact Sn. exact Dn.
Qed.

End Suffixes.

(** X17. The Item derived from a forest raster.  When
    [create_item_from_href] returns an Item for a name that ends in
    [_C.tif], the raster that was opened is the named one; the Item is a
    forest classification, whatever the other tokens of the name are, and
    its identifier is the first two tokens of the name joined by an
    underscore and followed by [_FNF]; and its only asset, under the key
    [C], is the named raster as a COG asset titled [FNF] that carries the
    forest classification classes. *)
Theorem item_of_forest_name :
  forall (co : constants)
         (rasterio_open : string -> result rasterio.DatasetReader)
         (isoparse : string -> result pystac.datetime)
         (asset_href : string)
         (read_href_modifier : option (string -> string))
         (item : pystac.Item),
    Str.endswith (os_path.basename asset_href) "_C.tif" = true ->
    create_item_from_href co rasterio_open isoparse asset_href
      read_href_modifier = Returned item ->
    exists dataset a,
      rasterio_open (modifier_of read_href_modifier asset_href) = Ok dataset
      /\ pystac.collection_id item = Some "alos-fnf-mosaic"
      /\ pystac.id item
         = (Str.join "_"
              (firstn 2 (Str.split "_" (os_path.basename asset_href)))
              ++ "_FNF")%string
      /\ pystac.assets item = [("C", a)]
      /\ pystac.href a = asset_href
      /\ pystac.media_type a = pystac.COG
      /\ pystac.title a = "FNF"
      /\ Dict.get (pystac.extra_fields a) "classification:classes"
         = Some (ALOS_FNF_CLASSIFICATION_CLASSES co).
Proof.
  intros co ro iso href m item Ht H.
  unfold create_item_from_href, assets_hrefs_of in H. rewrite Ht in H.
  destruct (returned_is_derived co ro iso _ _ _ _ H) as (g & D & ->).
  destruct D as (Hr & Ho & _ & _ & _ & _ & _ & Hd).
  destruct (endswith_inv _ _ Ht) as [x B].
  destruct (stem_of_name href (x ++ "_C") "tif") as (Hs & p & Hp).
  { rewrite B, append_assoc. reflexivity. }
  { reflexivity. }
  { rewrite all_chars_app. cbn. apply andb_false_r. }
  assert (L : list_last (Str.split "_" (x ++ "_C")) = Ok "C").
  { change (x ++ "_C")%string with (x ++ String "_" "C")%string.
    rewrite split_app. apply list_last_app. }
  unfold general_parameters in Hr.
  cbn [Dict.values map snd list_index nth_error rbind] in Hr.
  rewrite Hs in Hr.
  destruct (list_index (Str.split "_" (os_path.basename href)) 1) as [y|];
    [|discriminate].
  cbn [rbind] in Hr.
  destruct (list_index (Str.split "_" (x ++ "_C")) 2) as [band|];
    [|discriminate].
  cbn [rbind] in Hr.
  destruct (String.eqb band "C").
  2:{ destruct (unpack_star2 (Str.split "_" (x ++ "_C")))
        as [[[a u] b]|]; [|discriminate].
      cbn [rbind] in Hr. injection Hr as Hr. rewrite <- Hr in Hd.
      cbn [is_fnf filename] in Hd.
      destruct Hd as (code & d & Hc & Hdesc & _).
      rewrite L in Hc. injection Hc as <-. discriminate. }
  cbn [rbind] in Hr. injection Hr as Hr.
  rewrite <- Hr in Ho. cbn [asset_href] in Ho.
  exists (g_dataset g),
         (asset_of co "" (g_parameters g) (g_year g) "C" href).
  split; [exact Ho|].
  cbn [derived_item pystac.collection_id pystac.id pystac.assets].
  unfold item_id_of, collection_of. rewrite <- Hr. cbn [is_fnf item_root].
  do 3 (split; [reflexivity|]).
  unfold asset_of, asset_location. cbn [String.length Nat.ltb Nat.leb].
  rewrite Hp, endswith_tif_not_xml.
  cbn [pystac.href pystac.media_type pystac.title pystac.extra_fields
       is_fnf String.eqb Ascii.eqb Bool.eqb].
  do 3 (split; [reflexivity|]).
  apply get_set_same.
Qed.

Lemma item_of_forest_name_witness :
  exists item,
    example_item_from_href 4326 "tiles/N05E100_10_C.tif" = Returned item
    /\ pystac.id item = "N05E100_10_FNF".
Proof.
  assert (E : exists item,
             example_item_from_href 4326 "tiles/N05E100_10_C.tif"
             = Returned item)
    by (vm_compute; eexists; reflexivity).
  destruct E as [item E]. exists item. split; [exact E|].
  destruct (item_of_forest_name
              _ _ _ "tiles/N05E100_10_C.tif" _ item eq_refl E)
    as (ds & a & _ & _ & Hi & _).
  exact Hi.
Defined.

(** X18. Two readings of the fourth character of the mode code.  In a
    mosaic Item derived from a metadata name, that character is [D], [Q]
    or a bar.  The Item has the eight assets of a quad-polarization
    mosaic exactly when it is [Q], and the six of a dual-polarization one
    otherwise; its polarizations are the dual ones exactly when it is
    [D], and the quad ones otherwise.  So the assets and the
    polarizations agree for [D] and for [Q]; for a bar, the Item has the
    dual assets and the quad polarizations. *)
Theorem polarization_assets_and_property :
  forall (co : constants)
         (rasterio_open : string -> result rasterio.DatasetReader)
         (isoparse : string -> result pystac.datetime)
         (asset_href : string)
         (read_href_modifier : option (string -> string))
         (item : pystac.Item),
    Str.endswith (os_path.basename asset_href) "_C.tif" = false ->
    create_item_from_href co rasterio_open isoparse asset_href
      read_href_modifier = Returned item ->
    pystac.collection_id item = Some "alos-palsar-mosaic" ->
    exists code c3,
      mode_code (os_path.basename asset_href) = Some code
      /\ Str.get code 3 = Some c3
      /\ (c3 = "D" \/ c3 = "Q" \/ c3 = "|")%char
      /\ Dict.keys (pystac.assets item)
         = (if Ascii.eqb c3 "Q" then quad_keys else dual_keys)
      /\ Dict.get (pystac.properties item) "sar:polarizations"
         = Some (if Ascii.eqb c3 "D" then ALOS_DUAL_POLARIZATIONS co
                 else ALOS_QUAD_POLARIZATIONS co)
      /\ Dict.get (pystac.properties item) "palsar:number_of_polarizations"
         = Some (VStr (String c3 "")).
Proof.
  intros co ro iso href m item Ht H C.
  unfold create_item_from_href in H.
  destruct (assets_hrefs_of href) as [d|] eqn:Hd; [|discriminate].
  destruct (assets_hrefs_of_metadata _ _ Ht Hd)
    as (fp & last & c3 & _ & Hc & G & ->).
  destruct (cut_parts _ _ _ Hc) as (Sf & Sc & U).
  destruct (returned_is_derived co ro iso _ _ _ _ H) as (g & D & ->).
  destruct D as (Hr & _ & _ & _ & _ & _ & _ & Hdesc).
  cbn [derived_item pystac.collection_id] in C. unfold collection_of in C.
  destruct (is_fnf (g_parameters g)) eqn:F; [discriminate|].
  destruct Hdesc as (code & d0 & Hl & Hd0 & Hg).
  assert (Hf : filename (g_parameters g)
               = (fp ++ "_date_" ++ fst (os_path.splitext last))%string).
  { cbn [app] in Hr.
    rewrite (grouped_parameters (directory_prefix href) fp
               (fst (os_path.splitext last)) _ Sf Sc U) in Hr.
    destruct (list_index _ 1) as [y|]; [|discriminate].
    cbn [rbind] in Hr.
    destruct (list_index _ 2) as [band|]; [|discriminate].
    cbn [rbind] in Hr. injection Hr as Hr. rewrite <- Hr. reflexivity. }
  rewrite Hf in Hl.
  rewrite (proj1 (date_sibling_tokens fp _ U)) in Hl.
  change ["date"; fst (os_path.splitext last)]
    with (["date"] ++ [fst (os_path.splitext last)])%list in Hl.
  rewrite app_assoc, list_last_app in Hl. injection Hl as <-.
  exists (fst (os_path.splitext last)), c3.
  split; [unfold mode_code; rewrite Hc; reflexivity|].
  split; [exact G|].
  destruct (fst (os_path.splitext last))
    as [|c0 [|c1 [|c2 [|c3' [|c4 [|c5 rest]]]]]]; try discriminate.
  cbn [Str.get] in G. injection G as ->.
  cbn [descriptor_of] in Hd0.
  destruct (re.class_matches (re.OneOf "F|U") c0) ; [|discriminate].
  destruct (re.is_word c1); [|discriminate].
  destruct (re.is_word c2); [|discriminate].
  destruct (re.class_matches (re.OneOf "D|Q") c3) eqn:E3; [|discriminate].
  destruct (re.class_matches (re.OneOf "A|D") c4); [|discriminate].
  destruct (re.class_matches (re.OneOf "R|L") c5); [|discriminate].
  cbn [andb] in Hd0. injection Hd0 as <-.
  split.
  { cbn [re.class_matches Str.mem] in E3.
    apply orb_prop in E3. destruct E3 as [E3|E3];
      [left; symmetry; apply chr_eqb_eq; exact E3|].
    apply orb_prop in E3. destruct E3 as [E3|E3];
      [right; right; symmetry; apply chr_eqb_eq; exact E3|].
    apply orb_prop in E3. destruct E3 as [E3|E3]; [|discriminate].
    right; left; symmetry; apply chr_eqb_eq; exact E3. }
  split.
  { cbn [derived_item pystac.assets]. unfold Str.chr_eqb.
    destruct (Ascii.eqb c3 "Q");
      (rewrite derived_assets_distinct;
       [unfold Dict.keys; rewrite map_map; reflexivity|]);
      cbn [app Dict.keys map fst];
      repeat (constructor; [simpl; intuition discriminate|]); constructor. }
  cbn [derived_item pystac.properties]. unfold derived_properties.
  rewrite Hg. unfold descriptor_properties, chr.
  cbn [app Dict.get String.eqb Ascii.eqb Bool.eqb d_polarizations].
  split; [|reflexivity].
  destruct (Ascii.eqb c3 "D"); reflexivity.
Qed.

Lemma polarization_assets_and_property_witness :
  exists item,
    example_item_from_href 4326 "tiles/N05E100_17_F02QAR.xml" = Returned item
    /\ Dict.keys (pystac.assets item) = quad_keys
    /\ Dict.get (pystac.properties item) "sar:polarizations"
       = Some (ALOS_QUAD_POLARIZATIONS Example.co).
Proof.
  assert (E : exists item,
             example_item_from_href 4326 "tiles/N05E100_17_F02QAR.xml"
             = Returned item)
    by (vm_compute; eexists; reflexivity).
  destruct E as [item E]. exists item. split; [exact E|].
  assert (C : match example_item_from_href 4326
                      "tiles/N05E100_17_F02QAR.xml" with
              | Returned i => pystac.collection_id i
                              = Some "alos-palsar-mosaic"
              | Raised _ _ => False
              end) by (vm_compute; reflexivity).
  rewrite E in C.
  destruct (polarization_assets_and_property
              _ _ _ "tiles/N05E100_17_F02QAR.xml" _ item eq_refl E C)
    as (code & c3 & Hm & G & _ & K & P & _).
  assert (M : mode_code (os_path.basename "tiles/N05E100_17_F02QAR.xml")
              = Some "F02QAR") by (vm_compute; reflexivity).
  rewrite M in Hm. injection Hm as <-.
  cbn [Str.get] in G. injection G as <-.
  split; [exact K|exact P].
Defined.

Section GroupedAssets.

(** A sibling is a [.tif] file. *)
Lemma sibling_is_tif (prefix filename_prefix kind code : string) :
  Str.endswith (sibling prefix filename_prefix kind code) ".xml" = false.
Proof.
  unfold sibling. rewrite <- !append_assoc. apply endswith_tif_not_xml.
Qed.

End GroupedAssets.

(** X19. The assets of an Item derived from a metadata name.  The Item
    has one asset per entry of the mapping [create_item_from_href]
    builds, under the same keys in the same order, each at the location
    of its entry, unchanged; the band rasters are COG assets with the
    role [data], and the last asset, [metadata], is the named file itself
    as an XML asset with the role [metadata] and no extra field. *)
Theorem assets_of_metadata_item :
  forall (co : constants)
         (rasterio_open : string -> result rasterio.DatasetReader)
         (isoparse : string -> result pystac.datetime)
         (asset_href : string)
         (read_href_modifier : option (string -> string))
         (item : pystac.Item),
    Str.endswith (os_path.basename asset_href) "_C.tif" = false ->
    create_item_from_href co rasterio_open isoparse asset_href
      read_href_modifier = Returned item ->
    exists d,
      assets_hrefs_of asset_href = Ok d
      /\ Dict.keys (pystac.assets item) = Dict.keys d
      /\ (forall key location,
             In (key, location) d ->
             exists a,
               Dict.get (pystac.assets item) key = Some a
               /\ pystac.href a = location
               /\ (pystac.media_type a, pystac.roles a)
                  = (if String.eqb key "metadata"
                     then (pystac.XML, ["metadata"])
                     else (pystac.COG, ["data"])))
      /\ exists a,
           Dict.get (pystac.assets item) "metadata" = Some a
           /\ pystac.href a = asset_href
           /\ pystac.extra_fields a = [].
Proof.
  intros co ro iso href m item Ht H.
  unfold create_item_from_href in H.
  destruct (assets_hrefs_of href) as [d|] eqn:Hd; [|discriminate].
  exists d. split; [reflexivity|].
  destruct (assets_hrefs_of_metadata _ _ Ht Hd)
    as (fp & last & c3 & Hx & _ & _ & E).
  rewrite endswith_basename in Hx.
  destruct (returned_is_derived co ro iso _ _ _ _ H) as (g & D & ->).
  assert (N : NoDup (Dict.keys d)).
  { rewrite E. destruct (Str.chr_eqb c3 "Q");
      cbn [app Dict.keys map fst];
      repeat (constructor; [simpl; intuition discriminate|]); constructor. }
  assert (M : In ("metadata", href) d).
  { rewrite E. apply in_or_app. right. apply in_or_app. right.
    left. reflexivity. }
  assert (A : forall key location,
             In (key, location) d ->
             Dict.get (pystac.assets (derived_item co "" d g)) key
             = Some (asset_of co "" (g_parameters g) (g_year g) key location)).
  { intros key location I. cbn [derived_item pystac.assets].
    rewrite (derived_assets_distinct co "" _ _ _ N).
    exact (get_map_distinct
             (asset_of co "" (g_parameters g) (g_year g)) d key location
             N I). }
  split.
  { cbn [derived_item pystac.assets].
    rewrite (derived_assets_distinct co "" _ _ _ N).
    unfold Dict.keys. rewrite map_map. reflexivity. }
  split.
  - intros key location I. eexists. split; [exact (A key location I)|].
    rewrite E in I.
    assert (K : (key = "metadata" /\ location = href)
                \/ (String.eqb key "metadata" = false
                    /\ exists kind,
                         location
                         = sibling (directory_prefix href) fp kind
                             (fst (os_path.splitext last)))).
    { apply in_app_or in I. destruct I as [I|I].
      - right. cbn [In] in I.
        repeat (destruct I as [I|I];
                [injection I as <- <-;
                 split; [reflexivity|eexists; reflexivity]|]).
        destruct I.
      - apply in_app_or in I. destruct I as [I|I].
        + right. destruct (Str.chr_eqb c3 "Q"); cbn [In] in I.
          * repeat (destruct I as [I|I];
                    [injection I as <- <-;
                     split; [reflexivity|eexists; reflexivity]|]).
            destruct I.
          * destruct I.
        + left. destruct I as [I|[]]. injection I as <- <-.
          split; reflexivity. }
    unfold asset_of, asset_location. cbn [String.length Nat.ltb Nat.leb].
    destruct K as [[-> ->]|(Kf & kind & ->)].
    + rewrite Hx. split; reflexivity.
    + rewrite sibling_is_tif, Kf. split; reflexivity.
  - eexists. split; [exact (A "metadata" href M)|].
    unfold asset_of, asset_location. cbn [String.length Nat.ltb Nat.leb].
    rewrite Hx. split; reflexivity.
Qed.

Lemma assets_of_metadata_item_witness :
  exists item a,
    example_item_from_href 4326 "tiles/N05E100_17_F02QAR.xml" = Returned item
    /\ Dict.get (pystac.assets item) "metadata" = Some a
    /\ pystac.href a = "tiles/N05E100_17_F02QAR.xml".
Proof.
  assert (E : exists item,
             example_item_from_href 4326 "tiles/N05E100_17_F02QAR.xml"
             = Returned item)
    by (vm_compute; eexists; reflexivity).
  destruct E as [item E].
  destruct (assets_of_metadata_item
              _ _ _ "tiles/N05E100_17_F02QAR.xml" _ item eq_refl E)
    as (d & _ & _ & _ & a & Ha & Hh & _).
  exists item, a. split; [exact E|]. split; [exact Ha|exact Hh].
Defined.

(** ** Items and their Collection *)

Section CollectionFacts.

Variable co : constants.
Variable cc : collection_constants.

Lemma collection_id_by_product (product : string) :
  pystac_collection.id (create_collection co cc product)
  = if String.eqb product "FNF" then "alos-fnf-mosaic"
    else "alos-palsar-mosaic".
Proof.
  unfold create_collection. destruct (String.eqb product "FNF"); reflexivity.
Qed.

Lemma collection_extensions (product : string) :
  pystac_collection.stac_extensions (create_collection co cc product)
  = [pystac_collection.ItemAssetsExtension;
     pystac_collection.Schema pystac.SarExtension;
     pystac_collection.Schema pystac.SatExtension;
     pystac_collection.Schema pystac.ProjectionExtension;
     pystac_collection.Schema pystac.RasterExtension;
     pystac_collection.VersionExtension;
     pystac_collection.CLASSIFICATION_EXTENSION_URI].
Proof.
  unfold create_collection. destruct (String.eqb product "FNF"); reflexivity.
Qed.

Lemma collection_summaries (product : string) :
  pystac_collection.summaries (create_collection co cc product)
  = ([("platform", VList (map VStr (ALOS_PALSAR_PLATFORMS co)));
      ("instruments", VList (map VStr (ALOS_PALSAR_INSTRUMENTS co)))]
     ++ (if String.eqb product "FNF" then []
         else
           [("sar:observation_direction",
             VList [pystac.ObservationDirection.LEFT;
                    pystac.ObservationDirection.RIGHT]);
            ("sar:instrument_mode", VList [VStr "F"; VStr "U"]);
            ("sar:polarizations",
             VList [ALOS_DUAL_POLARIZATIONS co; ALOS_QUAD_POLARIZATIONS co]);
            ("sat:orbit_state",
             VList [pystac.OrbitState.ASCENDING;
                    pystac.OrbitState.DESCENDING]);
            ("palsar:number_of_polarizations",
             VList [VStr "D"; VStr "Q"])]))%list.
Proof.
  unfold create_collection. destruct (String.eqb product "FNF"); reflexivity.
Qed.

End CollectionFacts.

(** X20. A returned Item and the Collection [create_collection] builds
    for its product ([FNF] for a forest classification, [MOS] for a
    mosaic) fit together: the collection of the Item is the identifier of
    that Collection, the target of its collection link is that identifier
    with [.json] joined to [root_href], every extension the Item lists is
    among the schemas of the Collection, and its platform and its
    instrument are among those the summaries of the Collection list. *)
Theorem item_fits_its_collection :
  forall (co : constants) (cc : collection_constants)
         (rasterio_open : string -> result rasterio.DatasetReader)
         (isoparse : string -> result pystac.datetime)
         (assets_hrefs : dict string) (root_href : string)
         (read_href_modifier : option (string -> string))
         (item : pystac.Item),
    create_item co rasterio_open isoparse assets_hrefs root_href
      read_href_modifier = Returned item ->
    exists r collection platform instrument,
      general_parameters assets_hrefs = Ok r
      /\ collection = create_collection co cc
                        (if is_fnf r then "FNF" else "MOS")
      /\ pystac.collection_id item = Some (pystac_collection.id collection)
      /\ pystac.links item
         = [ {| pystac.rel := "collection";
                pystac.target :=
                  os_path.join root_href
                    (pystac_collection.id collection ++ ".json") |} ]
      /\ (forall e, In e (pystac.stac_extensions item) ->
                    In (pystac_collection.Schema e)
                      (pystac_collection.stac_extensions collection))
      /\ Dict.get (pystac.properties item) "platform" = Some (VStr platform)
      /\ summarised collection "platform" (VStr platform)
      /\ Dict.get (pystac.properties item) "instruments"
         = Some (VList [VStr instrument])
      /\ summarised collection "instruments" (VStr instrument).
Proof.
  intros co cc ro iso assets root m item H.
  destruct (returned_is_derived co ro iso _ _ _ _ H) as (g & D & ->).
  destruct D as (Hr & _ & _ & _ & _ & Hp & Hi & _).
  exists (g_parameters g),
         (create_collection co cc
            (if is_fnf (g_parameters g) then "FNF" else "MOS")),
         (g_platform g), (g_instrument g).
  split; [exact Hr|]. split; [reflexivity|].
  rewrite collection_id_by_product, collection_extensions.
  unfold summarised. rewrite collection_summaries.
  cbn [derived_item pystac.collection_id pystac.links pystac.properties
       pystac.stac_extensions].
  unfold collection_of.
  split; [destruct (is_fnf (g_parameters g)); reflexivity|].
  split; [destruct (is_fnf (g_parameters g)); reflexivity|].
  split.
  { intros e I. destruct e; cbn; tauto. }
  split; [reflexivity|].
  split.
  { eexists. split; [reflexivity|].
    apply in_map. exact (nth_error_In _ _ Hp). }
  split; [reflexivity|].
  eexists. split; [reflexivity|].
  apply in_map. exact (nth_error_In _ _ Hi).
Qed.

Lemma item_fits_its_collection_witness :
  exists item,
    example_item 4326 Example.forest_2010 = Returned item
    /\ pystac.collection_id item
       = Some (pystac_collection.id
                 (create_collection Example.co ExampleCollection.cc "FNF")).
Proof.
  assert (E : exists item,
             example_item 4326 Example.forest_2010 = Returned item)
    by (vm_compute; eexists; reflexivity).
  destruct E as [item E]. exists item. split; [exact E|].
  destruct (item_fits_its_collection
              _ ExampleCollection.cc _ _ _ _ _ item E)
    as (r & c & p & i & Hr & Hc & Hi & _).
  assert (F : is_fnf r = true).
  { assert (R : match general_parameters Example.forest_2010 with
                | Ok r' => is_fnf r' = true
                | Err _ => False
                end) by (vm_compute; reflexivity).
    rewrite Hr in R. exact R. }
  rewrite F in Hc. rewrite Hi, Hc. reflexivity.
Defined.

(** X21. The radar properties of a returned mosaic Item and the
    summaries of the mosaic Collection.  The observation direction, the
    orbit state and the polarizations of the Item are always among the
    values the Collection lists for them.  The instrument mode and the
    polarization count are among the listed values ([F], [U] and [D],
    [Q]) unless they are a bar, the only other value the descriptor
    pattern lets through. *)
Theorem mosaic_properties_in_summaries :
  forall (co : constants) (cc : collection_constants)
         (rasterio_open : string -> result rasterio.DatasetReader)
         (isoparse : string -> result pystac.datetime)
         (assets_hrefs : dict string) (root_href : string)
         (read_href_modifier : option (string -> string))
         (item : pystac.Item),
    create_item co rasterio_open isoparse assets_hrefs root_href
      read_href_modifier = Returned item ->
    pystac.collection_id item = Some "alos-palsar-mosaic" ->
    (forall k,
        In k ["sar:observation_direction"; "sat:orbit_state";
              "sar:polarizations"] ->
        exists v, Dict.get (pystac.properties item) k = Some v
                  /\ summarised (create_collection co cc "MOS") k v)
    /\ (forall k,
          In k ["sar:instrument_mode"; "palsar:number_of_polarizations"] ->
          exists v, Dict.get (pystac.properties item) k = Some v
                    /\ (v = VStr "|"
                        \/ summarised (create_collection co cc "MOS") k v)).
Proof.
  intros co cc ro iso assets root m item H C.
  destruct (returned_is_derived co ro iso _ _ _ _ H) as (g & D & ->).
  destruct D as (_ & _ & _ & _ & _ & _ & _ & Hd).
  cbn [derived_item pystac.collection_id] in C. unfold collection_of in C.
  destruct (is_fnf (g_parameters g)); [discriminate|].
  destruct Hd as (code & d & _ & Hdesc & Hg).
  destruct code as [|c0 [|c1 [|c2 [|c3 [|c4 [|c5 rest]]]]]];
    try discriminate.
  cbn [descriptor_of] in Hdesc.
  destruct (re.class_matches (re.OneOf "F|U") c0) eqn:E0; [|discriminate].
  destruct (re.is_word c1); [|discriminate].
  destruct (re.is_word c2); [|discriminate].
  destruct (re.class_matches (re.OneOf "D|Q") c3) eqn:E3; [|discriminate].
  destruct (re.class_matches (re.OneOf "A|D") c4); [|discriminate].
  destruct (re.class_matches (re.OneOf "R|L") c5); [|discriminate].
  cbn [andb] in Hdesc. injection Hdesc as <-.
  cbn [derived_item pystac.properties]. unfold derived_properties, summarised.
  rewrite Hg, collection_summaries.
  unfold descriptor_properties, chr.
  cbn [app Dict.get String.eqb Ascii.eqb Bool.eqb d_mode d_beam1 d_beam2
       d_polarizations d_orbit d_observation].
  split.
  - intros k [<-|[<-|[<-|[]]]];
      cbn [Dict.get String.eqb Ascii.eqb Bool.eqb];
      (eexists; split; [reflexivity|]);
      (eexists; split; [reflexivity|]).
    + destruct (Ascii.eqb c5 "L"); cbn; auto.
    + destruct (Ascii.eqb c4 "A"); cbn; auto.
    + destruct (Ascii.eqb c3 "D"); cbn; auto.
  - assert (B : forall (c x y : ascii),
               re.class_matches
                 (re.OneOf (String x (String "|" (String y "")))) c = true ->
               c = x \/ c = "|"%char \/ c = y).
    { intros c x y E. cbn [re.class_matches Str.mem] in E.
      apply orb_prop in E. destruct E as [E|E];
        [left; symmetry; apply chr_eqb_eq; exact E|].
      apply orb_prop in E. destruct E as [E|E];
        [right; left; symmetry; apply chr_eqb_eq; exact E|].
      apply orb_prop in E. destruct E as [E|E]; [|discriminate].
      right; right; symmetry; apply chr_eqb_eq; exact E. }
    intros k [<-|[<-|[]]];
      cbn [Dict.get String.eqb Ascii.eqb Bool.eqb];
      (eexists; split; [reflexivity|]).
    + destruct (B _ _ _ E0) as [ -> | [ -> | -> ] ];
        [right|left; reflexivity|right];
        (eexists; split; [reflexivity|]); cbn; auto.
    + destruct (B _ _ _ E3) as [ -> | [ -> | -> ] ];
        [right|left; reflexivity|right];
        (eexists; split; [reflexivity|]); cbn; auto.
Qed.

Lemma mosaic_properties_in_summaries_witness :
  exists item,
    example_item 4326 Example.mosaic_2017 = Returned item
    /\ exists v,
         Dict.get (pystac.properties item) "sat:orbit_state" = Some v
         /\ summarised (create_collection Example.co ExampleCollection.cc "MOS")
              "sat:orbit_state" v.
Proof.
  assert (E : exists item,
             example_item 4326 Example.mosaic_2017 = Returned item)
    by (vm_compute; eexists; reflexivity).
  destruct E as [item E]. exists item. split; [exact E|].
  assert (C : match example_item 4326 Example.mosaic_2017 with
              | Returned i => pystac.collection_id i
                              = Some "alos-palsar-mosaic"
              | Raised _ _ => False
              end) by (vm_compute; reflexivity).
  rewrite E in C.
  destruct (mosaic_properties_in_summaries
              _ ExampleCollection.cc _ _ _ _ _ item E C) as [A _].
  apply A. simpl. tauto.
Defined.

(** X22. [create_collection] builds one of two Collections.  The product
    [FNF], spelled exactly so, gives the forest Collection
    [alos-fnf-mosaic], whose summaries list the platforms and the
    instruments only; every other string gives the mosaic Collection
    [alos-palsar-mosaic], whose summaries list the five radar entries as
    well.  Both list the same seven schemas, none of them twice, and hold
    the item-assets definitions and the version as their two extra
    fields. *)
Theorem create_collection_by_product :
  forall (co : constants) (cc : collection_constants) (product : string),
    create_collection co cc product
    = create_collection co cc
        (if String.eqb product "FNF" then "FNF" else "MOS")
    /\ pystac_collection.id (create_collection co cc product)
       = (if String.eqb product "FNF" then "alos-fnf-mosaic"
          else "alos-palsar-mosaic")
    /\ Dict.keys (pystac_collection.summaries
                    (create_collection co cc product))
       = (["platform"; "instruments"]
          ++ (if String.eqb product "FNF" then []
              else ["sar:observation_direction"; "sar:instrument_mode";
                    "sar:polarizations"; "sat:orbit_state";
                    "palsar:number_of_polarizations"]))%list
    /\ pystac_collection.stac_extensions (create_collection co cc product)
       = pystac_collection.stac_extensions (create_collection co cc "FNF")
    /\ List.length (pystac_collection.stac_extensions
                      (create_collection co cc product)) = 7
    /\ NoDup (pystac_collection.stac_extensions
                (create_collection co cc product))
    /\ pystac_collection.extra_fields (create_collection co cc product)
       = (if String.eqb product "FNF"
          then [("item_assets", ALOS_FNF_ASSETS cc);
                ("version", ALOS_FNF_REVISION cc)]
          else [("item_assets", ALOS_MOS_ASSETS cc);
                ("version", ALOS_MOS_REVISION cc)]).
Proof.
  intros co cc product.
  split.
  { unfold create_collection.
    destruct (String.eqb product "FNF"); reflexivity. }
  split; [apply collection_id_by_product|].
  split.
  { rewrite collection_summaries.
    destruct (String.eqb product "FNF"); reflexivity. }
  rewrite !collection_extensions.
  split; [reflexivity|]. split; [reflexivity|].
  split.
  { repeat (constructor; [simpl; intuition discriminate|]). constructor. }
  unfold create_collection. destruct (String.eqb product "FNF"); reflexivity.
Qed.
